(** * Video learning system: segmenter, chunk selection, item assembly, evaluator

    A shallow embedding of the core of the application:
    - [app/utils/subtitle_parser.py]   ([group_by_topic]),
    - [app/utils/question_generator.py] ([generate_from_text] and its fallback),
    - [app/app.py]                      ([generate_questions]),
    - [app/utils/feedback_generator.py] ([generate_feedback], [_evaluate_short_answer]),
    - [app/models/database.py], [app/models/video.py] (the stored videos and
      questions) and the routes of [app/app.py] that add and delete a video,
      generate its questions and verify an answer,
    followed by the properties proved about them.

    Conventions.  Python [int]s are [Z]; [len] results and the id counter, which
    only ever counts up from 0, are [nat] where that is what the code computes.
    Python [str] is [string], a character being an 8-bit code point (the Latin-1
    range of Unicode), on which [strip], [lower], [isalpha] and [split] follow
    Python's character classes.  Python [float] timestamps are only copied and
    printed by this code, so they are an abstract type [float] with a printing
    function.  A dict whose keys may be missing is a record of [option] fields.
    A raised exception is [None] (or an explicit error constructor). *)

From Stdlib Require Import String Ascii DecimalString DecimalNat.
From Stdlib Require Import ZArith Bool Arith Lia Sorted Permutation List.
Import ListNotations.

Set Implicit Arguments.

(* ================================================================= *)
(** ** Python primitives used by the source *)

Module Py.

(** [len(l)] *)
Definition len {A} (l : list A) : Z := Z.of_nat (length l).

(** [range(n)] *)
Definition range (n : Z) : list Z := map Z.of_nat (seq 0 (Z.to_nat n)).

(** [range(0, stop, step)] for [0 <= stop] (a length); a zero step raises
    [ValueError], a negative one gives the empty range *)
Definition range_step (stop step : Z) : option (list Z) :=
  if (step =? 0)%Z then None
  else if (step <? 0)%Z then Some []
  else Some (map (fun k => (Z.of_nat k * step)%Z)
                 (seq 0 (Z.to_nat ((stop + step - 1) / step)))).

(** [l[i:j]] for [0 <= i] and [0 <= j] *)
Definition slice {A} (l : list A) (i j : Z) : list A :=
  firstn (Z.to_nat j - Z.to_nat i) (skipn (Z.to_nat i) l).

(** [l[:k]]; a negative [k] counts from the end *)
Definition take {A} (l : list A) (k : Z) : list A :=
  if (k <? 0)%Z then firstn (length l - Z.to_nat (- k)) l
  else firstn (Z.to_nat k) l.

(** [x in l] and [l.index(x)] for an equality test [eqb] *)
Definition mem {A} (eqb : A -> A -> bool) (x : A) (l : list A) : bool :=
  existsb (fun y => eqb y x) l.

Fixpoint index_of {A} (eqb : A -> A -> bool) (x : A) (l : list A) : option Z :=
  match l with
  | [] => None
  | y :: l' => if eqb y x then Some 0%Z
               else option_map Z.succ (index_of eqb x l')
  end.

(** [l[i]]; a negative [i] counts from the end, [None] is [IndexError] *)
Definition get {A} (l : list A) (i : Z) : option A :=
  if (i <? 0)%Z then
    if (i + len l <? 0)%Z then None else nth_error l (Z.to_nat (i + len l))
  else nth_error l (Z.to_nat i).

(** [sorted] / [list.sort] on ints: insertion into an ascending list *)
Fixpoint insert (x : Z) (l : list Z) : list Z :=
  match l with
  | [] => [x]
  | y :: l' => if (x <=? y)%Z then x :: l else y :: insert x l'
  end.

Definition sort (l : list Z) : list Z := fold_right insert [] l.

(** exceptions: [None] is a raised exception, [bind] sequences two steps *)
Definition bind {A B} (m : option A) (k : A -> option B) : option B :=
  match m with Some x => k x | None => None end.

(** a list comprehension whose element expression may raise *)
Fixpoint map_opt {A B} (f : A -> option B) (l : list A) : option (list B) :=
  match l with
  | [] => Some []
  | x :: l' =>
      bind (f x) (fun y => bind (map_opt f l') (fun ys => Some (y :: ys)))
  end.

(** [for x in l: st = body(x, st)], where the body returns [true] together
    with the new state when it ends in [break] *)
Fixpoint for_each_break {A S} (l : list A) (body : A -> S -> option (bool * S))
    (st : S) : option S :=
  match l with
  | [] => Some st
  | x :: l' =>
      match body x st with
      | None => None
      | Some (true, st') => Some st'
      | Some (false, st') => for_each_break l' body st'
      end
  end.

(** a [for] loop without [break] *)
Definition for_each {A S} (l : list A) (body : A -> S -> option S) (st : S)
  : option S :=
  for_each_break l (fun x s => option_map (pair false) (body x s)) st.

End Py.

Notation "x <- m ;; k" := (Py.bind m (fun x => k))
  (at level 61, m at next level, right associativity).

Module PyStr.

Local Open Scope N_scope.

Definition code (c : ascii) : N := N_of_ascii c.

Definition between (lo hi : N) (c : ascii) : bool :=
  (lo <=? code c) && (code c <=? hi).

(** [c.isspace()] for code points below 256 *)
Definition isspace_char (c : ascii) : bool :=
  between 9 13 c || between 28 32 c || (code c =? 133) || (code c =? 160).

(** characters that [lower()] changes, and their image *)
Definition isupper_char (c : ascii) : bool :=
  between 65 90 c || (between 192 222 c && negb (code c =? 215)).

Definition lower_char (c : ascii) : ascii :=
  if isupper_char c then ascii_of_N (code c + 32) else c.

(** [c.isalpha()] for code points below 256 *)
Definition isalpha_char (c : ascii) : bool :=
  between 65 90 c || between 97 122 c
  || (code c =? 170) || (code c =? 181) || (code c =? 186)
  || between 192 214 c || between 216 246 c || between 248 255 c.

Local Close Scope N_scope.
Local Open Scope string_scope.

(** [s.lower()] *)
Fixpoint lower (s : string) : string :=
  match s with
  | EmptyString => EmptyString
  | String c s' => String (lower_char c) (lower s')
  end.

(** [s.lstrip()], [s.rstrip()], [s.strip()] *)
Fixpoint lstrip (s : string) : string :=
  match s with
  | EmptyString => EmptyString
  | String c s' => if isspace_char c then lstrip s' else s
  end.

Fixpoint rstrip (s : string) : string :=
  match s with
  | EmptyString => EmptyString
  | String c s' =>
      match rstrip s' with
      | EmptyString => if isspace_char c then EmptyString else String c EmptyString
      | r => String c r
      end
  end.

Definition strip (s : string) : string := rstrip (lstrip s).

Fixpoint all_chars (p : ascii -> bool) (s : string) : bool :=
  match s with
  | EmptyString => true
  | String c s' => p c && all_chars p s'
  end.

(** [s.isalpha()]: non-empty and every character alphabetic *)
Definition isalpha (s : string) : bool :=
  match s with
  | EmptyString => false
  | _ => all_chars isalpha_char s
  end.

(** [sub in s] *)
Fixpoint contains (sub s : string) : bool :=
  String.prefix sub s
  || match s with
     | EmptyString => false
     | String _ s' => contains sub s'
     end.

(** [s.split()]: the maximal runs of non-whitespace characters *)
Fixpoint split (s : string) : list string :=
  match s with
  | EmptyString => []
  | String c s' =>
      if isspace_char c then split s'
      else match s' with
           | EmptyString => [String c EmptyString]
           | String c' _ =>
               if isspace_char c' then String c EmptyString :: split s'
               else match split s' with
                    | w :: ws => String c w :: ws
                    | [] => [String c EmptyString]
                    end
           end
  end.

(** [sep.join(l)] *)
Definition join (sep : string) (l : list string) : string := String.concat sep l.

(** [str(n)] for an int [n >= 0] *)
Definition str_nat (n : nat) : string := NilEmpty.string_of_uint (Nat.to_uint n).

End PyStr.

(* ================================================================= *)
(** ** app/utils/subtitle_parser.py *)

Section SubtitleParser.

Context {float : Type}.

(** a subtitle segment, as built by [_parse_srt], [_parse_vtt] and the
    transcript conversion of [generate_questions] *)
Record Segment := {
  seg_index : Z;
  seg_text : string;
  seg_start_time : float;
  seg_end_time : float;
  seg_start_time_str : string;
  seg_end_time_str : string
}.

(** a topic chunk: the [group] dict of [group_by_topic] *)
Record Chunk := {
  start_index : Z;
  end_index : Z;
  start_time : float;
  end_time : float;
  text : string;
  segments : list Segment
}.

(** the body of the loop: [if len(chunk) > 0: groups.append(group)] *)
Definition make_group (chunk : list Segment) : list Chunk :=
  match chunk with
  | [] => []
  | first :: _ =>
      [ {| start_index := seg_index first;
           end_index := seg_index (last chunk first);
           start_time := seg_start_time first;
           end_time := seg_end_time (last chunk first);
           text := PyStr.join " " (map seg_text chunk);
           segments := chunk |} ]
  end.

(** [group_by_topic(segments, window_size)]; [None] when [range] raises *)
Definition group_by_topic (segs : list Segment) (window_size : Z)
  : option (list Chunk) :=
  match Py.range_step (Py.len segs) window_size with
  | None => None
  | Some starts =>
      Some (flat_map
              (fun i => make_group (Py.slice segs i (i + window_size)))
              starts)
  end.

End SubtitleParser.

Arguments Segment : clear implicits.
Arguments Chunk : clear implicits.

(* ================================================================= *)
(** ** Questions and the question generator (app/utils/question_generator.py) *)

Definition get_default {A} (o : option A) (d : A) : A :=
  match o with Some x => x | None => d end.

Definition is_some {A} (o : option A) : bool :=
  match o with Some _ => true | None => false end.

Section Questions.

Context {float : Type}.

(** [str(x)] of a float, as an f-string prints it *)
Variable str_float : float -> string.

(** one entry of a question's ["options"] list *)
Record AnswerOption := { opt_id : string; opt_text : string }.

(** a question dict; a key the dict may lack is an [option] field *)
Record Question := {
  q_type : option string;
  question_id : option string;
  video_id : option string;
  timestamp_start : option float;
  timestamp_end : option float;
  question_text : option string;
  options : option (list AnswerOption);
  correct_answer : option string;
  sample_answer : option string;
  key_points : option (list string);
  explanation : option string
}.

(** [q['question_id'] = id] *)
Definition set_question_id (q : Question) (id : string) : Question :=
  {| q_type := q_type q; question_id := Some id; video_id := video_id q;
     timestamp_start := timestamp_start q; timestamp_end := timestamp_end q;
     question_text := question_text q; options := options q;
     correct_answer := correct_answer q; sample_answer := sample_answer q;
     key_points := key_points q; explanation := explanation q |}.

(** [f"{video_id}_{timestamp}_{counter}"] *)
Definition format_question_id (vid : string) (timestamp : float) (counter : nat)
  : string :=
  (vid ++ "_" ++ str_float timestamp ++ "_" ++ PyStr.str_nat counter)%string.

(** the metadata loop of [generate_from_text], for the [i]-th question *)
Definition add_metadata (vid : string) (ts te : float) (i : nat) (q : Question)
  : Question :=
  {| q_type :=
       match q_type q with
       | Some t => Some t
       | None =>
           if is_some (options q) then Some "multiple_choice"%string
           else if PyStr.contains "___" (get_default (question_text q) EmptyString)
                then Some "fill_in_the_blank"%string
                else Some "short_answer"%string
       end;
     question_id := Some (format_question_id vid ts i);
     video_id := Some vid;
     timestamp_start := Some ts;
     timestamp_end := Some te;
     question_text := question_text q; options := options q;
     correct_answer := correct_answer q; sample_answer := sample_answer q;
     key_points := key_points q; explanation := explanation q |}.

Definition fallback_multiple_choice (vid : string) (ts te : float) : Question :=
  {| q_type := Some "multiple_choice"%string;
     question_id := Some (format_question_id vid ts 0);
     video_id := Some vid; timestamp_start := Some ts; timestamp_end := Some te;
     question_text := Some "What is the main concept discussed in this segment?"%string;
     options := Some
       [ {| opt_id := "A"; opt_text := "Basic principles and terminology" |};
         {| opt_id := "B"; opt_text := "Advanced implementation details" |};
         {| opt_id := "C"; opt_text := "Historical context and development" |};
         {| opt_id := "D"; opt_text := "Comparison with alternative approaches" |} ];
     correct_answer := Some "A"%string;
     sample_answer := None; key_points := None;
     explanation := Some "The segment focuses primarily on introducing basic principles and terminology."%string |}.

Definition fallback_fill_in_the_blank (vid : string) (ts te : float) : Question :=
  {| q_type := Some "fill_in_the_blank"%string;
     question_id := Some (format_question_id vid ts 1);
     video_id := Some vid; timestamp_start := Some ts; timestamp_end := Some te;
     question_text := Some "The main topic discussed in this segment is _____."%string;
     options := None;
     correct_answer := Some "important concept"%string;
     sample_answer := None; key_points := None;
     explanation := Some "This segment introduces an important concept central to understanding the topic."%string |}.

Definition fallback_short_answer (vid : string) (ts te : float) : Question :=
  {| q_type := Some "short_answer"%string;
     question_id := Some (format_question_id vid ts 2);
     video_id := Some vid; timestamp_start := Some ts; timestamp_end := Some te;
     question_text := Some "Explain the main concept introduced in this segment."%string;
     options := None; correct_answer := None;
     sample_answer := Some "The main concept involves understanding the fundamental principles discussed in this segment."%string;
     key_points := Some ["fundamental principles"; "main concept"]%string;
     explanation := Some "A good answer should identify the main concept and explain its importance."%string |}.

Definition type_in (question_type : string) (l : list string) : bool :=
  existsb (String.eqb question_type) l.

(** [_generate_fallback_questions] *)
Definition _generate_fallback_questions (vid : string) (ts te : float)
    (question_type : string) : list Question :=
  let fallback_questions :=
    (if type_in question_type ["multiple_choice"; "mixed"]%string
     then [fallback_multiple_choice vid ts te] else [])
    ++ (if type_in question_type ["fill_in_the_blank"; "mixed"]%string
        then [fallback_fill_in_the_blank vid ts te] else [])
    ++ (if type_in question_type ["short_answer"; "mixed"]%string
        then [fallback_short_answer vid ts te] else []) in
  if String.eqb question_type "multiple_choice" then firstn 1 fallback_questions
  else if String.eqb question_type "fill_in_the_blank"
       then firstn 1 (skipn 1 fallback_questions)
  else if String.eqb question_type "short_answer"
       then firstn 1 (skipn 2 fallback_questions)
  else fallback_questions.

(** The generative service behind [generate_from_text]: the chat completion,
    [json.loads] and [result.get("questions", [])].  It is given the number
    of calls already made in the run, the content, the requested number of
    questions and the question type; [None] is any exception raised inside
    the [try] block. *)
Variable llm_questions : nat -> string -> Z -> string -> option (list Question).

(** [generate_from_text], as the [call]-th request of the run *)
Definition generate_from_text (call : nat) (content vid : string) (ts te : float)
    (num_questions : Z) (question_type : string) : list Question :=
  match llm_questions call content num_questions question_type with
  | Some questions =>
      map (fun iq => add_metadata vid ts te (fst iq) (snd iq))
          (combine (seq 0 (length questions)) questions)
  | None => _generate_fallback_questions vid ts te question_type
  end.

End Questions.

Arguments Question : clear implicits.

(* ================================================================= *)
(** ** app/app.py: [generate_questions] *)

(** *** The requested question count (lines 274-284) *)

(** a Python float as JSON delivers it: [m * 2^e], a NaN or an infinity *)
Inductive PyFloat :=
| Finite (m e : Z)
| NaN
| Infinity (negative : bool).

(** a JSON value of the request body; the contents of an array or an object
    play no part in [int(v)] and are left out *)
Inductive JValue :=
| JNull
| JBool (b : bool)
| JInt (n : Z)
| JFloat (x : PyFloat)
| JString (s : string)
| JArray
| JObject.

(** what [int(v)] does *)
Inductive IntResult :=
| IntOk (n : Z)
| IntValueError
| IntTypeError
| IntOverflowError.

Section QuestionCount.

(** [int(s)] on a [str]: [None] is [ValueError] *)
Variable int_of_str : string -> option Z.

Definition py_int (v : JValue) : IntResult :=
  match v with
  | JNull => IntTypeError
  | JBool b => IntOk (if b then 1 else 0)
  | JInt n => IntOk n
  | JFloat (Finite m e) =>
      IntOk (if (0 <=? e)%Z then m * 2 ^ e else Z.quot m (2 ^ (- e)))%Z
  | JFloat NaN => IntValueError
  | JFloat (Infinity _) => IntOverflowError
  | JString s =>
      match int_of_str s with Some n => IntOk n | None => IntValueError end
  | JArray => IntTypeError
  | JObject => IntTypeError
  end.

(** [question_count = data.get('question_count', 10)] followed by the
    [try]/[except (ValueError, TypeError)] block; [None] when an exception
    leaves the block *)
Definition clamp_question_count (requested : option JValue) : option Z :=
  let question_count := get_default requested (JInt 10) in
  match py_int question_count with
  | IntOk n =>
      Some (if (n <? 10)%Z then 10 else if (20 <? n)%Z then 20 else n)%Z
  | IntValueError => Some 10%Z
  | IntTypeError => Some 10%Z
  | IntOverflowError => None
  end.

End QuestionCount.

(** the validation of the question type (lines 286-289) *)
Definition validate_question_type (question_type : string) : string :=
  if existsb (String.eqb question_type)
       ["multiple_choice"; "fill_in_the_blank"; "short_answer"; "mixed"]%string
  then question_type else "multiple_choice"%string.

(** *** Chunk selection (lines 335-360 and 501-510) *)

Section Selection.

Local Open Scope Z_scope.

(** one iteration of the backfill loop (lines 347-355) *)
Definition backfill_step (chunk_count middle_start : Z) (chunk_indices : list Z)
    (i : Z) : list Z :=
  if (middle_start + i <? chunk_count)
     && negb (Py.mem Z.eqb (middle_start + i) chunk_indices)
  then chunk_indices ++ [middle_start + i]
  else match find (fun j => negb (Py.mem Z.eqb j chunk_indices))
                  (Py.range chunk_count) with
       | Some j => chunk_indices ++ [j]
       | None => chunk_indices
       end.

(** the selection of the transcript path (lines 335-360), on
    [chunk_count = len(chunks)]; [None] is [ZeroDivisionError] *)
Definition select_indices (chunk_count question_count : Z) : option (list Z) :=
  if chunk_count <=? question_count then Some (Py.range chunk_count)
  else if question_count =? 0 then None
  else
    let step := chunk_count / question_count in
    let chunk_indices := map (fun i => i * step) (Py.range question_count) in
    let chunk_indices :=
      if Py.len chunk_indices <? question_count then
        let remaining := question_count - Py.len chunk_indices in
        let middle_start := chunk_count / 3 in
        fold_left (backfill_step chunk_count middle_start)
                  (Py.range remaining) chunk_indices
      else chunk_indices in
    Some (Py.take (Py.sort chunk_indices) question_count).

(** the selection of the stored-chunks path (lines 501-510) *)
Definition select_chunks {A} (topic_chunks : list A) (question_count : Z)
  : option (list A) :=
  if Py.len topic_chunks <=? question_count then Some topic_chunks
  else if question_count =? 0 then None
  else
    let step := Py.len topic_chunks / question_count in
    let selected_indices := map (fun i => i * step) (Py.range question_count) in
    let selected_indices :=
      filter (fun i => i <? Py.len topic_chunks) selected_indices in
    Py.map_opt (Py.get topic_chunks) selected_indices.

End Selection.

(** *** Item assembly (lines 298-412 and 497-565) *)

Section Assembly.

Context {float : Type}.
Variable str_float : float -> string.
Variable llm_questions :
  nat -> string -> Z -> string -> option (list (Question float)).

(** [==] on chunk dicts, used by [in] and [list.index] *)
Variable chunk_eqb : Chunk float -> Chunk float -> bool.

(** the route's [video_id], and the validated type and count *)
Variable vid : string.
Variable question_type : string.
Variable question_count : Z.

Local Open Scope Z_scope.

(** the variables the loops update; [llm_calls] counts the requests made to
    the question generator so far *)
Record Run := {
  question_counter : nat;
  generated_questions : list (Question float);
  llm_calls : nat
}.

(** [question_counter = 0] and [generated_questions = []] *)
Definition initial_run : Run :=
  {| question_counter := 0; generated_questions := []; llm_calls := 0 |}.

(** [for q in questions: q['question_id'] = f"..."; question_counter += 1] *)
Fixpoint assign_ids (chunk : Chunk float) (questions : list (Question float))
    (counter : nat) : list (Question float) * nat :=
  match questions with
  | [] => ([], counter)
  | q :: rest =>
      let q' := set_question_id q
                  (format_question_id str_float vid (start_time chunk) counter) in
      let (rest', counter') := assign_ids chunk rest (S counter) in
      (q' :: rest', counter')
  end.

(** the body shared by the four generation loops: one request for the
    chunk, the id assignment and [generated_questions.extend(questions)] *)
Definition generate_for_chunk (chunk : Chunk float) (st : Run) : Run :=
  let questions :=
    generate_from_text str_float llm_questions (llm_calls st)
      (text chunk) vid (start_time chunk) (end_time chunk) 1 question_type in
  let (questions', counter') := assign_ids chunk questions (question_counter st) in
  {| question_counter := counter';
     generated_questions := generated_questions st ++ questions';
     llm_calls := S (llm_calls st) |}.

Definition enough (st : Run) : bool :=
  question_count <=? Py.len (generated_questions st).

(** the second loop of both paths: [for i in range(min(remaining, len(indices)))] *)
Definition generate_more (chunks : list (Chunk float)) (indices : list Z)
    (st : Run) : option Run :=
  let remaining := question_count - Py.len (generated_questions st) in
  Py.for_each (Py.range (Z.min remaining (Py.len indices)))
    (fun i st =>
       idx <- Py.get indices i ;;
       chunk <- Py.get chunks idx ;;
       Some (generate_for_chunk chunk st))
    st.

(** the transcript path, from the grouped chunks to the returned list
    (lines 331-412) *)
Definition assemble_transcript (chunks : list (Chunk float))
  : option (list (Question float)) :=
  chunk_indices <- select_indices (Py.len chunks) question_count ;;
  st <- Py.for_each_break chunk_indices
          (fun idx st =>
             if idx <? Py.len chunks then
               chunk <- Py.get chunks idx ;;
               let st' := generate_for_chunk chunk st in
               Some (enough st', st')
             else Some (false, st))
          initial_run ;;
  st <- (if (Py.len (generated_questions st) <? question_count)
            && (0 <? Py.len chunks)
         then
           let unused_indices :=
             filter (fun i => negb (Py.mem Z.eqb i chunk_indices))
                    (Py.range (Py.len chunks)) in
           generate_more chunks unused_indices st
         else Some st) ;;
  Some (Py.take (generated_questions st) question_count).

(** the stored-chunks path, after the check that the video has chunks
    (lines 497-565) *)
Definition assemble_stored (topic_chunks : list (Chunk float))
  : option (list (Question float)) :=
  selected_chunks <- select_chunks topic_chunks question_count ;;
  st <- Py.for_each_break selected_chunks
          (fun chunk st =>
             let st' := generate_for_chunk chunk st in
             Some (enough st', st'))
          initial_run ;;
  st <- (if (Py.len (generated_questions st) <? question_count)
            && (0 <? Py.len topic_chunks)
         then
           used_indices <-
             Py.map_opt (fun chunk => Py.index_of chunk_eqb chunk topic_chunks)
               (filter (fun chunk => Py.mem chunk_eqb chunk topic_chunks)
                       selected_chunks) ;;
           let available_indices :=
             filter (fun i => negb (Py.mem Z.eqb i used_indices))
                    (Py.range (Py.len topic_chunks)) in
           let available_indices :=
             match available_indices with
             | [] => Py.range (Py.len topic_chunks)
             | _ => available_indices
             end in
           generate_more topic_chunks available_indices st
         else Some st) ;;
  Some (Py.take (generated_questions st) question_count).

End Assembly.

(* ================================================================= *)
(** ** app/utils/feedback_generator.py *)

(** the requests an evaluation sends to the generative service *)
Inductive Request :=
| MultipleChoiceFeedback
| FillInBlankFeedback
| ShortAnswerScoring.

Section Evaluator.

Context {float : Type}.

Local Open Scope Z_scope.

(** The verdict part of the dict every evaluation returns.  A key the dict
    lacks for a question type is [None].  The texts it also carries
    ([enhanced_feedback], [additional_resources], [correct_answer],
    [explanation], [key_points]) come from the service, from random
    templates or from the question, and are not part of this model. *)
Record EvaluationResult := {
  is_correct : bool;
  is_partial : option bool;
  score_percentage : option Z;
  r_question_id : option string;
  r_timestamp_start : option float;
  r_timestamp_end : option float;
  r_video_id : option string
}.

(** a result together with the requests made while computing it *)
Definition Evaluation : Type := EvaluationResult * list Request.

Definition verdict (question : Question float) (correct : bool)
    (partial : option bool) (score : option Z) : EvaluationResult :=
  {| is_correct := correct; is_partial := partial; score_percentage := score;
     r_question_id := question_id question;
     r_timestamp_start := timestamp_start question;
     r_timestamp_end := timestamp_end question;
     r_video_id := video_id question |}.

(** [user_answer == question.get("correct_answer")] *)
Definition answer_equals (user_answer : string) (correct : option string) : bool :=
  match correct with
  | Some c => String.eqb user_answer c
  | None => false
  end.

(** [_generate_multiple_choice_feedback]: both the [try] and the [except]
    branch return the [is_correct] they were given *)
Definition _generate_multiple_choice_feedback (question : Question float)
    (user_answer : string) (correct : bool) : Evaluation :=
  (verdict question correct None None, [MultipleChoiceFeedback]).

(** [_generate_fill_in_blank_feedback]: both branches derive the two flags
    from [result_type] *)
Definition _generate_fill_in_blank_feedback (question : Question float)
    (user_answer result_type : string) : Evaluation :=
  (verdict question (String.eqb result_type "correct")
           (Some (String.eqb result_type "partial")) None,
   [FillInBlankFeedback]).

(** the scoring request of [_evaluate_short_answer]: the completion,
    [json.loads] and [result.get("score_percentage", 0)]; [None] is any
    exception raised after the length check *)
Variable llm_score : Question float -> string -> option Z.

(** one key point of the fallback scoring loop (lines 464-469) *)
Definition point_matches (user_answer point : string) : bool :=
  let keywords :=
    map PyStr.lower
        (filter (fun word => (3 <? String.length word)%nat) (PyStr.split point)) in
  existsb (fun keyword => PyStr.contains keyword (PyStr.lower user_answer))
          keywords.

Definition matched_points (key_points : list string) (user_answer : string) : Z :=
  Py.len (filter (point_matches user_answer) key_points).

(** [min(70, int(matched_points / len(key_points) * 60))]; the float
    quotient and product are taken exactly, [int] truncates *)
Definition keyword_score (key_points : list string) (user_answer : string) : Z :=
  let matched := matched_points key_points user_answer in
  if 0 <? matched then Z.min 70 (matched * 60 / Py.len key_points) else 0.

(** [len(user_answer.strip())] *)
Definition stripped_length (user_answer : string) : Z :=
  Z.of_nat (String.length (PyStr.strip user_answer)).

(** the check of line 349 *)
Definition too_short (user_answer : string) : bool :=
  (stripped_length user_answer <? 5)
  || (PyStr.isalpha (PyStr.strip user_answer) && (stripped_length user_answer <? 4)).

(** the score of the [except] branch (lines 457-472) *)
Definition fallback_score (question : Question float) (user_answer : string) : Z :=
  if stripped_length user_answer <? 5 then 0
  else keyword_score (get_default (key_points question) []) user_answer.

(** [_evaluate_short_answer] *)
Definition _evaluate_short_answer (question : Question float)
    (user_answer : string) : Evaluation :=
  if too_short user_answer then
    (verdict question false (Some false) (Some 0), [])
  else
    match llm_score question user_answer with
    | Some score =>
        (verdict question (75 <=? score)
                 (Some ((30 <=? score) && (score <? 75))) (Some score),
         [ShortAnswerScoring])
    | None =>
        let score := fallback_score question user_answer in
        (verdict question (75 <=? score)
                 (Some ((30 <=? score) && (score <? 75))) (Some score),
         [ShortAnswerScoring])
    end.

(** [generate_feedback] *)
Definition generate_feedback (question : Question float) (user_answer : string)
  : Evaluation :=
  let question_type := get_default (q_type question) "multiple_choice"%string in
  if String.eqb question_type "multiple_choice" then
    let correct := answer_equals user_answer (correct_answer question) in
    _generate_multiple_choice_feedback question user_answer correct
  else if String.eqb question_type "fill_in_the_blank" then
    let user_answer_normalized := PyStr.lower (PyStr.strip user_answer) in
    let correct_answer_normalized :=
      PyStr.lower (PyStr.strip (get_default (correct_answer question) EmptyString)) in
    let correct := String.eqb user_answer_normalized correct_answer_normalized in
    if negb correct
       && (PyStr.contains user_answer_normalized correct_answer_normalized
           || PyStr.contains correct_answer_normalized user_answer_normalized)
    then _generate_fill_in_blank_feedback question user_answer "partial"
    else _generate_fill_in_blank_feedback question user_answer
           (if correct then "correct" else "incorrect")%string
  else if String.eqb question_type "short_answer" then
    _evaluate_short_answer question user_answer
  else
    let correct := answer_equals user_answer (correct_answer question) in
    _generate_multiple_choice_feedback question user_answer correct.

End Evaluator.

Arguments EvaluationResult : clear implicits.

(* ================================================================= *)
(** ** app/app.py: YouTube URLs and transcripts (lines 36-57, 316-326) *)

Module PySplit.

(** the pieces of [s] from a position that lies [skip] characters inside a
    separator just matched: the first piece is the text up to the next
    occurrence of [sep] *)
Fixpoint pieces (sep s : string) (skip : nat) : list string :=
  match s with
  | EmptyString => [EmptyString]
  | String c s' =>
      match skip with
      | S k => pieces sep s' k
      | O =>
          if String.prefix sep s
          then EmptyString :: pieces sep s' (String.length sep - 1)
          else match pieces sep s' 0 with
               | piece :: rest => String c piece :: rest
               | [] => [String c EmptyString]
               end
      end
  end.

(** [s.split(sep)]; an empty separator raises [ValueError] *)
Definition split (s sep : string) : option (list string) :=
  match sep with
  | EmptyString => None
  | _ => Some (pieces sep s 0)
  end.

End PySplit.

(** [is_youtube_url(url)], as the truth value an [if] sees; [None] is a
    missing [file_path] *)
Definition is_youtube_url (url : option string) : bool :=
  match url with
  | None => false
  | Some EmptyString => false
  | Some u =>
      existsb (fun pattern => PyStr.contains pattern u)
              ["youtube.com/watch"; "youtu.be/"]%string
  end.

(** [extract_youtube_id(youtube_url)]; the outer [None] is an exception
    ([IndexError]), the inner one the value [None] *)
Definition extract_youtube_id (youtube_url : string) : option (option string) :=
  if PyStr.contains "youtube.com/watch" youtube_url then
    if PyStr.contains "v=" youtube_url then
      parts <- PySplit.split youtube_url "v=" ;;
      after <- Py.get parts 1 ;;
      parts' <- PySplit.split after "&" ;;
      id <- Py.get parts' 0 ;;
      Some (Some id)
    else Some None
  else if PyStr.contains "youtu.be/" youtube_url then
    parts <- PySplit.split youtube_url "youtu.be/" ;;
    after <- Py.get parts 1 ;;
    parts' <- PySplit.split after "?" ;;
    id <- Py.get parts' 0 ;;
    Some (Some id)
  else Some None.

Section Transcripts.

Context {float : Type}.
Variable str_float : float -> string.

(** float addition, [a + b] *)
Variable fadd : float -> float -> float.

(** [generate_unique_question_id(video_id, timestamp, sequence_number)] *)
Definition generate_unique_question_id (vid : string) (timestamp : float)
    (sequence_number : nat) : string :=
  (vid ++ "_" ++ str_float timestamp ++ "_" ++ PyStr.str_nat sequence_number)%string.

(** one entry of the list [YouTubeTranscriptApi.get_transcript] returns *)
Record TranscriptItem := {
  ti_text : string;
  ti_start : float;
  ti_duration : float
}.

(** the segment built for the [i]-th transcript item (lines 318-325) *)
Definition transcript_segment (i : nat) (item : TranscriptItem) : Segment float :=
  {| seg_index := (Z.of_nat i + 1)%Z;
     seg_text := ti_text item;
     seg_start_time := ti_start item;
     seg_end_time := fadd (ti_start item) (ti_duration item);
     seg_start_time_str := str_float (ti_start item);
     seg_end_time_str := str_float (fadd (ti_start item) (ti_duration item)) |}.

(** [for i, item in enumerate(transcript_list): segments.append(segment)] *)
Definition transcript_segments (transcript_list : list TranscriptItem)
  : list (Segment float) :=
  map (fun ii => transcript_segment (fst ii) (snd ii))
      (combine (seq 0 (length transcript_list)) transcript_list).

End Transcripts.

Arguments TranscriptItem : clear implicits.

(* ================================================================= *)
(** ** app/models/database.py and app/models/video.py *)

Section Store.

Context {float : Type}.

(** a video dict of [videos.json]: the keys [Video.to_dict] writes and the
    two keys the routes look up with [video.get]; a key the dict lacks is
    [None] *)
Record StoredVideo := {
  sv_video_id : option string;
  sv_title : option string;
  sv_file_path : option string;
  sv_subtitle_path : option string;
  sv_duration : option JValue;
  sv_created_at : option string;
  sv_subtitle_segments_count : option Z;
  sv_topic_chunks_count : option Z;
  sv_questions_count : option Z;
  sv_subtitle_segments : option (list (Segment float));
  sv_topic_chunks : option (list (Chunk float))
}.

(** the contents of the two files of the database *)
Record Store := {
  db_videos : list StoredVideo;
  db_questions : list (Question float)
}.

(** the loop of [get_video_by_id] for a test on the stored id;
    [video['video_id']] on a dict without the key raises [KeyError] (the
    outer [None]) *)
Fixpoint find_video (videos : list StoredVideo) (is_id : string -> bool)
  : option (option StoredVideo) :=
  match videos with
  | [] => Some None
  | video :: rest =>
      match sv_video_id video with
      | None => None
      | Some id => if is_id id then Some (Some video) else find_video rest is_id
      end
  end.

(** [get_video_by_id(video_id)] *)
Definition get_video_by_id (db : Store) (vid : string)
  : option (option StoredVideo) :=
  find_video (db_videos db) (fun id => String.eqb id vid).

(** [add_video(video_dict)] *)
Definition db_add_video (db : Store) (video_dict : StoredVideo) : Store :=
  {| db_videos := db_videos db ++ [video_dict]; db_questions := db_questions db |}.

(** the loop of [update_video]: replace the first video with the id *)
Fixpoint replace_first (videos : list StoredVideo) (vid : string)
    (updated_video : StoredVideo) : option (list StoredVideo) :=
  match videos with
  | [] => Some []
  | video :: rest =>
      match sv_video_id video with
      | None => None
      | Some id =>
          if String.eqb id vid then Some (updated_video :: rest)
          else option_map (cons video) (replace_first rest vid updated_video)
      end
  end.

(** [update_video(video_id, updated_video)] *)
Definition update_video (db : Store) (vid : string) (updated_video : StoredVideo)
  : option Store :=
  videos <- replace_first (db_videos db) vid updated_video ;;
  Some {| db_videos := videos; db_questions := db_questions db |}.

(** [[q for q in all_questions if q['video_id'] == video_id]] *)
Fixpoint questions_with_id (all_questions : list (Question float)) (vid : string)
  : option (list (Question float)) :=
  match all_questions with
  | [] => Some []
  | q :: rest =>
      match video_id q with
      | None => None
      | Some id =>
          selected <- questions_with_id rest vid ;;
          Some (if String.eqb id vid then q :: selected else selected)
      end
  end.

(** [get_questions_for_video(video_id)] *)
Definition get_questions_for_video (db : Store) (vid : string)
  : option (list (Question float)) :=
  questions_with_id (db_questions db) vid.


(** [add_questions(questions)] *)
Definition add_questions (db : Store) (questions : list (Question float)) : Store :=
  {| db_videos := db_videos db; db_questions := db_questions db ++ questions |}.

(** [d.get('video_id') != video_id] *)
Definition other_id (id : option string) (vid : string) : bool :=
  match id with
  | Some i => negb (String.eqb i vid)
  | None => true
  end.

(** [delete_questions_for_video(video_id)] *)
Definition delete_questions_for_video (db : Store) (vid : string) : Store :=
  {| db_videos := db_videos db;
     db_questions := filter (fun q => other_id (video_id q) vid) (db_questions db) |}.

(** [delete_video(video_id)]; [None] is the [ValueError] raised when no
    video was removed *)
Definition delete_video (db : Store) (vid : string) : option Store :=
  let updated_videos :=
    filter (fun v => other_id (sv_video_id v) vid) (db_videos db) in
  if (Py.len (db_videos db) =? Py.len updated_videos)%Z then None
  else Some {| db_videos := updated_videos; db_questions := db_questions db |}.

(** a [Video] object *)
Record VideoObject := {
  vo_video_id : string;
  vo_title : string;
  vo_file_path : string;
  vo_subtitle_path : option string;
  vo_duration : option JValue;
  vo_created_at : string;
  vo_subtitle_segments : list (Segment float);
  vo_topic_chunks : list (Chunk float);
  vo_questions : list (Question float)
}.

(** [Video.to_dict()] *)
Definition video_to_dict (video : VideoObject) : StoredVideo :=
  {| sv_video_id := Some (vo_video_id video);
     sv_title := Some (vo_title video);
     sv_file_path := Some (vo_file_path video);
     sv_subtitle_path := vo_subtitle_path video;
     sv_duration := vo_duration video;
     sv_created_at := Some (vo_created_at video);
     sv_subtitle_segments_count := Some (Py.len (vo_subtitle_segments video));
     sv_topic_chunks_count := Some (Py.len (vo_topic_chunks video));
     sv_questions_count := Some (Py.len (vo_questions video));
     sv_subtitle_segments := None;
     sv_topic_chunks := None |}.

(** the body of [POST /api/videos]: the keys of the request that are
    present, as strings *)
Record AddVideoRequest := {
  req_title : option string;
  req_file_path : option string;
  req_subtitle_path : option string;
  req_duration : option JValue
}.

Inductive AddVideoResponse :=
| VideoCreated (video : StoredVideo)
| SubtitleError.

(** the truth value of an optional string: present and not empty *)
Definition truthy (s : option string) : bool :=
  match s with
  | None => false
  | Some EmptyString => false
  | Some _ => true
  end.

(** [add_video()], given the fresh [uuid4], the clock reading, what
    [os.path.exists] answers and what [subtitle_parser.parse] returns
    ([None] when it raises) *)
Definition add_video (db : Store) (uuid now : string) (data : AddVideoRequest)
    (path_exists : string -> bool)
    (parse : string -> option (list (Segment float)))
  : AddVideoResponse * Store :=
  let video :=
    {| vo_video_id := uuid;
       vo_title := get_default (req_title data) "Untitled Video"%string;
       vo_file_path := get_default (req_file_path data) EmptyString;
       vo_subtitle_path := req_subtitle_path data;
       vo_duration := req_duration data;
       vo_created_at := now;
       vo_subtitle_segments := [];
       vo_topic_chunks := [];
       vo_questions := [] |} in
  let subtitle_path := get_default (vo_subtitle_path video) EmptyString in
  let parsed :=
    if truthy (vo_subtitle_path video) && path_exists subtitle_path
       && negb (is_youtube_url (Some (vo_file_path video)))
    then
      match parse subtitle_path with
      | None => None
      | Some segs =>
          match group_by_topic segs 5 with
          | None => None
          | Some chunks =>
              Some {| vo_video_id := vo_video_id video;
                      vo_title := vo_title video;
                      vo_file_path := vo_file_path video;
                      vo_subtitle_path := vo_subtitle_path video;
                      vo_duration := vo_duration video;
                      vo_created_at := vo_created_at video;
                      vo_subtitle_segments := segs;
                      vo_topic_chunks := chunks;
                      vo_questions := vo_questions video |}
          end
      end
    else Some video in
  match parsed with
  | None => (SubtitleError, db)
  | Some video =>
      (VideoCreated (video_to_dict video), db_add_video db (video_to_dict video))
  end.

(** the answers of [DELETE /api/videos/<video_id>]: 200, 404 and 500 *)
Inductive DeleteResponse :=
| VideoDeleted
| DeleteVideoNotFound
| DeleteFailed.

(** the route [delete_video(video_id)] of app.py (lines 592-614); every
    exception raised in its [try] block gives the answer 500 *)
Definition delete_video_route (db : Store) (vid : string)
  : DeleteResponse * Store :=
  match get_video_by_id db vid with
  | None => (DeleteFailed, db)
  | Some None => (DeleteVideoNotFound, db)
  | Some (Some _) =>
      let db := delete_questions_for_video db vid in
      match delete_video db vid with
      | None => (DeleteFailed, db)
      | Some db' => (VideoDeleted, db')
      end
  end.

End Store.

Arguments StoredVideo : clear implicits.
Arguments Store : clear implicits.
Arguments VideoObject : clear implicits.
Arguments AddVideoResponse : clear implicits.
Arguments DeleteResponse : clear implicits.

(* ================================================================= *)
(** ** app/app.py: the routes [generate_questions] and [verify_answer] *)

Section Routes.

Context {float : Type}.
Variable str_float : float -> string.

(** float arithmetic: [a + b], [a * b], the float of an int, [a <= b] *)
Variable fadd : float -> float -> float.
Variable fmul : float -> float -> float.
Variable float_of_Z : Z -> float.
Variable float_le : float -> float -> bool.

Variable llm_questions :
  nat -> string -> Z -> string -> option (list (Question float)).
Variable llm_score : Question float -> string -> option Z.
Variable chunk_eqb : Chunk float -> Chunk float -> bool.
Variable int_of_str : string -> option Z.

(** [YouTubeTranscriptApi.get_transcript(youtube_id)]; [None] when it
    raises or the package is not installed *)
Variable get_transcript : string -> option (list (TranscriptItem float)).

(** the question built in the [i]-th round of the loop of lines 435-482 *)
Definition dummy_question (vid title question_type : string) (i counter : nat)
  : Question float :=
  let start_time := fmul (float_of_Z 30) (float_of_Z (Z.of_nat i)) in
  let end_time := fadd start_time (float_of_Z 20) in
  if String.eqb question_type "multiple_choice"
     || (String.eqb question_type "mixed" && (i mod 3 =? 0))
  then
    {| q_type := Some "multiple_choice"%string;
       question_id := Some (format_question_id str_float vid start_time counter);
       video_id := Some vid;
       timestamp_start := Some start_time; timestamp_end := Some end_time;
       question_text :=
         Some ("What is the main focus of this section about " ++ title ++ "?")%string;
       options := Some
         [ {| opt_id := "A"; opt_text := ("Basic principles of " ++ title)%string |};
           {| opt_id := "B";
              opt_text := ("Advanced implementation of " ++ title)%string |};
           {| opt_id := "C"; opt_text := ("Historical context of " ++ title)%string |};
           {| opt_id := "D"; opt_text := ("Applications of " ++ title)%string |} ];
       correct_answer := Some "A"%string;
       sample_answer := None; key_points := None;
       explanation :=
         Some ("This section focuses on the basic principles of " ++ title ++ ".")%string |}
  else if String.eqb question_type "fill_in_the_blank"
          || (String.eqb question_type "mixed" && (i mod 3 =? 1))
  then
    {| q_type := Some "fill_in_the_blank"%string;
       question_id := Some (format_question_id str_float vid start_time counter);
       video_id := Some vid;
       timestamp_start := Some start_time; timestamp_end := Some end_time;
       question_text :=
         Some "The main concept discussed in this section is _____."%string;
       options := None;
       correct_answer := Some title;
       sample_answer := None; key_points := None;
       explanation :=
         Some ("This section introduces the concept of " ++ title ++ ".")%string |}
  else
    {| q_type := Some "short_answer"%string;
       question_id := Some (format_question_id str_float vid start_time counter);
       video_id := Some vid;
       timestamp_start := Some start_time; timestamp_end := Some end_time;
       question_text :=
         Some ("Explain the key concepts related to " ++ title
               ++ " discussed in this section.")%string;
       options := None; correct_answer := None;
       sample_answer :=
         Some ("This section covers the fundamental concepts of " ++ title
               ++ ", including its basic principles and applications.")%string;
       key_points :=
         Some [("Basic principles of " ++ title)%string;
               ("Applications of " ++ title)%string];
       explanation :=
         Some ("A good answer should identify the main concepts of " ++ title
               ++ " discussed in this section.")%string |}.

(** [for i in range(question_count): ...; question_counter += 1;
    dummy_questions.append(question)] *)
Fixpoint dummy_loop (vid title question_type : string) (rounds : list nat)
    (counter : nat) : list (Question float) :=
  match rounds with
  | [] => []
  | i :: rest =>
      dummy_question vid title question_type i counter
      :: dummy_loop vid title question_type rest (S counter)
  end.

Definition dummy_questions (vid title question_type : string) (question_count : Z)
  : list (Question float) :=
  dummy_loop vid title question_type (seq 0 (Z.to_nat question_count)) 0.

(** the [try] block of the YouTube branch (lines 303-412), up to the list
    it saves and returns; [None] is any exception raised in it *)
Definition transcript_questions (vid question_type : string) (question_count : Z)
    (file_path : string) : option (list (Question float)) :=
  youtube_id <- extract_youtube_id file_path ;;
  match youtube_id with
  | None => None
  | Some EmptyString => None
  | Some id =>
      transcript_list <- get_transcript id ;;
      let segs := transcript_segments str_float fadd transcript_list in
      chunks <- group_by_topic segs 5 ;;
      assemble_transcript str_float llm_questions vid question_type
        question_count chunks
  end.

Inductive GenerateResponse :=
| VideoNotFound
| NoContentChunks
| QuestionsGenerated (generated : list (Question float)).

(** [generate_questions(video_id)] for the request keys [question_type] and
    [question_count] ([None]: key absent); the result is the response and the
    database afterwards, [None] an exception that leaves the route *)
Definition generate_questions (db : Store float) (vid : string)
    (requested_type : option string) (requested_count : option JValue)
  : option (GenerateResponse * Store float) :=
  found <- get_video_by_id db vid ;;
  match found with
  | None => Some (VideoNotFound, db)
  | Some video =>
      let question_type := get_default requested_type "multiple_choice"%string in
      question_count <- clamp_question_count int_of_str requested_count ;;
      let question_type := validate_question_type question_type in
      let db := delete_questions_for_video db vid in
      if is_youtube_url (sv_file_path video) then
        match transcript_questions vid question_type question_count
                (get_default (sv_file_path video) EmptyString) with
        | Some generated =>
            Some (QuestionsGenerated generated, add_questions db generated)
        | None =>
            let title := get_default (sv_title video) EmptyString in
            let dummy := dummy_questions vid title question_type question_count in
            Some (QuestionsGenerated dummy, add_questions db dummy)
        end
      else
        match sv_topic_chunks video with
        | None => Some (NoContentChunks, db)
        | Some [] => Some (NoContentChunks, db)
        | Some topic_chunks =>
            generated <- assemble_stored str_float llm_questions chunk_eqb vid
                           question_type question_count topic_chunks ;;
            Some (QuestionsGenerated generated, add_questions db generated)
        end
  end.







End Routes.

(* ================================================================= *)
(** * Vocabulary of the properties *)

(** ** The segmenter *)

Section SegmenterVocabulary.

Context {float : Type}.

(** the [k]-th window of five segments, counted in [nat] *)
Definition window (segs : list (Segment float)) (k : nat) : list (Segment float) :=
  firstn 5 (skipn (k * 5) segs).

(** what the data model asks of one chunk: text, first and last segment *)
Definition well_formed_chunk (c : Chunk float) : Prop :=
  text c = PyStr.join " " (map seg_text (segments c))
  /\ (exists s rest, segments c = s :: rest
        /\ start_index c = seg_index s /\ start_time c = seg_start_time s)
  /\ (exists init z, segments c = init ++ [z]
        /\ end_index c = seg_index z /\ end_time c = seg_end_time z).

End SegmenterVocabulary.

(** ** Question ids and assembled lists *)

(** the character [c] occurs in [s] *)
Fixpoint occurs (c : ascii) (s : string) : Prop :=
  match s with
  | EmptyString => False
  | String c' s' => c = c' \/ occurs c s'
  end.

Section AssemblyVocabulary.

Context {float : Type}.
Variable str_float : float -> string.
Variable vid : string.
Variable question_count : Z.
Variable chunks : list (Chunk float).

(** the [i]-th question of the list carries the id built from the start
    time of one of the chunks and the counter value [offset + i] *)
Definition ids_from (offset : nat) (questions : list (Question float)) : Prop :=
  forall i q, nth_error questions i = Some q ->
    exists chunk, In chunk chunks
      /\ question_id q =
         Some (format_question_id str_float vid (start_time chunk) (offset + i)).

(** the invariant of the generation loops: the counter is the number of
    questions appended so far, and the questions are numbered in order *)
Definition numbered (st : @Run float) : Prop :=
  question_counter st = length (generated_questions st)
  /\ ids_from 0 (generated_questions st).

(** the returned list: the accumulated questions cut to [question_count] *)
Definition assembled (items : list (Question float)) : Prop :=
  (Py.len items <= question_count)%Z
  /\ NoDup (map (@question_id float) items)
  /\ ids_from 0 items.

End AssemblyVocabulary.

(** ** The evaluator, as the specification words it *)

(** the three states of the specification's fill-in-the-blank evaluation *)
Inductive FillState := Correct | Partial | Incorrect.

(** trimming and lower-casing, as the specification words it *)
Definition normalize (s : string) : string := PyStr.lower (PyStr.strip s).

(** the specification's transition order: (a) exact match, (b) either string
    contained in the other, (c) otherwise *)
Definition fill_in_blank_state (user_answer correct : string) : FillState :=
  if String.eqb (normalize user_answer) (normalize correct) then Correct
  else if PyStr.contains (normalize user_answer) (normalize correct)
          || PyStr.contains (normalize correct) (normalize user_answer)
       then Partial
       else Incorrect.

Definition is_Correct (s : FillState) : bool :=
  match s with Correct => true | _ => false end.

Definition is_Partial (s : FillState) : bool :=
  match s with Partial => true | _ => false end.

(** Python's [round] of the fraction [num / den], [den > 0]: to the nearest
    integer, a tie going to the even one *)
Definition round_half_even (num den : Z) : Z :=
  let q := (num / den)%Z in
  let r := (num mod den)%Z in
  if (2 * r <? den)%Z then q
  else if (den <? 2 * r)%Z then (q + 1)%Z
  else if Z.even q then q else (q + 1)%Z.

(** the score as the specification words it:
    [min(70, round(matched_key_points / total_key_points * 60))] *)
Definition claimed_keyword_score (key_points : list string) (user_answer : string)
  : Z :=
  Z.min 70 (round_half_even (matched_points key_points user_answer * 60)
                            (Py.len key_points)).

(** ** Data for worked examples *)

(** eight chunks thirty seconds apart *)
Definition example_chunk (i : Z) : Chunk Z :=
  {| start_index := i; end_index := i; start_time := (30 * i)%Z;
     end_time := (30 * i + 20)%Z; text := "content"; segments := [] |}.

Definition example_chunks : list (Chunk Z) := map example_chunk (Py.range 8).

Definition example_str_float (x : Z) : string :=
  (PyStr.str_nat (Z.to_nat x) ++ ".0")%string.

Definition fill_question (correct : option string) : Question Z :=
  {| q_type := Some "fill_in_the_blank"%string; question_id := None;
     video_id := None; timestamp_start := None; timestamp_end := None;
     question_text := None; options := None; correct_answer := correct;
     sample_answer := None; key_points := None; explanation := None |}.

Definition choice_question (correct : option string) : Question Z :=
  {| q_type := Some "multiple_choice"%string; question_id := None;
     video_id := None; timestamp_start := None; timestamp_end := None;
     question_text := None; options := None; correct_answer := correct;
     sample_answer := None; key_points := None; explanation := None |}.

Definition short_question (points : list string) : Question Z :=
  {| q_type := Some "short_answer"%string; question_id := None;
     video_id := None; timestamp_start := None; timestamp_end := None;
     question_text := None; options := None; correct_answer := None;
     sample_answer := None; key_points := Some points; explanation := None |}.

Definition no_score : Question Z -> string -> option Z := fun _ _ => None.

Definition seven_points : list string :=
  ["alpha particles"; "bravo signal"; "charlie company"; "delta wings";
   "echoes fade"; "foxtrot steps"; "golfing greens"]%string.

(** the last character of [s] is [c] *)
Fixpoint ends_with (c : ascii) (s : string) : Prop :=
  match s with
  | EmptyString => False
  | String a EmptyString => a = c
  | String _ s' => ends_with c s'
  end.

Section WindowVocabulary.

Context {float : Type}.

(** the [k]-th window of [w] segments *)
Definition window_of (w : nat) (segs : list (Segment float)) (k : nat)
  : list (Segment float) :=
  firstn w (skipn (k * w) segs).

End WindowVocabulary.

Section GeneratorVocabulary.

Context {float : Type}.
Variable str_float : float -> string.

(** the metadata [generate_from_text] leaves on every question it returns *)
Definition stamped (vid : string) (ts te : float) (i : nat) (q : Question float)
  : Prop :=
  question_id q = Some (format_question_id str_float vid ts i)
  /\ video_id q = Some vid
  /\ timestamp_start q = Some ts
  /\ timestamp_end q = Some te
  /\ q_type q <> None.

(** every question belongs to the video *)
Definition all_for_video (vid : string) (qs : list (Question float)) : Prop :=
  Forall (fun q => video_id q = Some vid) qs.

End GeneratorVocabulary.

(** ** Data for the examples of the routes *)

(** a stored question without a [type] key *)
Definition untyped_question : Question Z :=
  {| q_type := None; question_id := Some "v1_0.0_0"%string;
     video_id := Some "v1"%string; timestamp_start := Some 0%Z;
     timestamp_end := Some 20%Z;
     question_text := Some "Which organelle makes ATP?"%string;
     options := None; correct_answer := Some "B"%string;
     sample_answer := None; key_points := None; explanation := None |}.

(** a stored YouTube video *)
Definition example_video : StoredVideo Z :=
  {| sv_video_id := Some "v1"%string; sv_title := Some "Cells"%string;
     sv_file_path := Some "https://youtu.be/abc123"%string;
     sv_subtitle_path := None; sv_duration := None;
     sv_created_at := Some "2024-01-01T00:00:00"%string;
     sv_subtitle_segments_count := Some 0%Z; sv_topic_chunks_count := Some 0%Z;
     sv_questions_count := Some 0%Z;
     sv_subtitle_segments := None; sv_topic_chunks := None |}.

Definition other_video : StoredVideo Z :=
  {| sv_video_id := Some "v2"%string; sv_title := Some "Tides"%string;
     sv_file_path := Some "tides.mp4"%string;
     sv_subtitle_path := None; sv_duration := None;
     sv_created_at := Some "2024-01-02T00:00:00"%string;
     sv_subtitle_segments_count := Some 0%Z; sv_topic_chunks_count := Some 0%Z;
     sv_questions_count := Some 0%Z;
     sv_subtitle_segments := None; sv_topic_chunks := None |}.

Definition example_store : Store Z :=
  {| db_videos := [example_video]; db_questions := [untyped_question] |}.

(** a request for a local video with a subtitle file of twelve segments *)
Definition example_request : AddVideoRequest :=
  {| req_title := Some "Lecture"%string; req_file_path := Some "lecture.mp4"%string;
     req_subtitle_path := Some "lecture.srt"%string; req_duration := None |}.

Definition example_segments : list (Segment Z) :=
  map (fun i => {| seg_index := (i + 1)%Z; seg_text := "word"%string;
                   seg_start_time := i; seg_end_time := (i + 1)%Z;
                   seg_start_time_str := example_str_float i;
                   seg_end_time_str := example_str_float (i + 1) |})
      (Py.range 12).

(** services that always fail *)
Definition no_transcript : string -> option (list (TranscriptItem Z)) :=
  fun _ => None.

Definition no_questions : nat -> string -> Z -> string -> option (list (Question Z)) :=
  fun _ _ _ _ => None.

Definition no_int : string -> option Z := fun _ => None.

Definition same_start (a b : Chunk Z) : bool :=
  Z.eqb (start_index a) (start_index b).

(* ================================================================= *)
(** * Properties *)

(** ** Lists, ranges and slices *)

Lemma firstn_plus {A} (a b : nat) (l : list A) :
  firstn (a + b) l = firstn a l ++ firstn b (skipn a l).
Proof.
  revert l; induction a as [|a IH]; intros l; simpl.
  - reflexivity.
  - destruct l as [|x l]; simpl.
    + now rewrite firstn_nil.
    + now rewrite IH.
Qed.

Lemma flat_map_map {A B C} (f : A -> B) (g : B -> list C) (l : list A) :
  flat_map g (map f l) = flat_map (fun x => g (f x)) l.
Proof.
  induction l as [|x l IH]; simpl; [reflexivity | now rewrite IH].
Qed.

Lemma map_const_repeat {A B} (f : A -> B) (b : B) (l : list A) :
  (forall x, In x l -> f x = b) -> map f l = repeat b (length l).
Proof.
  induction l as [|x l IH]; intros H; simpl.
  - reflexivity.
  - rewrite (H x (or_introl eq_refl)), IH; [reflexivity|].
    intros y Hy; apply H; now right.
Qed.

Lemma len_nonneg {A} (l : list A) : (0 <= Py.len l)%Z.
Proof. unfold Py.len; lia. Qed.

Lemma range_length (n : Z) : length (Py.range n) = Z.to_nat n.
Proof. unfold Py.range; now rewrite length_map, length_seq. Qed.

Lemma in_range (n i : Z) : In i (Py.range n) <-> (0 <= i < n)%Z.
Proof.
  unfold Py.range; rewrite in_map_iff; split.
  - intros [k [<- Hk]]; apply in_seq in Hk; lia.
  - intros Hi; exists (Z.to_nat i); split; [lia | apply in_seq; lia].
Qed.

Lemma get_in_bounds {A} (l : list A) (i : Z) :
  (0 <= i < Py.len l)%Z -> exists x, Py.get l i = Some x /\ In x l.
Proof.
  intros Hi; unfold Py.get, Py.len in *.
  destruct (i <? 0)%Z eqn:E; [apply Z.ltb_lt in E; lia|].
  destruct (nth_error l (Z.to_nat i)) as [x|] eqn:Hx.
  - exists x; split; [reflexivity | eapply nth_error_In; eassumption].
  - apply nth_error_None in Hx; lia.
Qed.

(** ** The segmenter *)

Section SegmenterFacts.

Context {float : Type}.
Implicit Types segs chunk : list (Segment float).

Lemma windows_concat segs (m : nat) :
  concat (map (window segs) (seq 0 m)) = firstn (m * 5) segs.
Proof.
  induction m as [|m IH].
  - reflexivity.
  - rewrite seq_S, map_app, concat_app, IH; simpl.
    rewrite app_nil_r; unfold window.
    now rewrite <- firstn_plus, Nat.add_comm.
Qed.

Lemma window_length segs (k : nat) :
  length (window segs k) = Nat.min 5 (length segs - k * 5).
Proof. unfold window; now rewrite length_firstn, length_skipn. Qed.

Lemma make_group_cons (s : Segment float) chunk :
  exists c, make_group (s :: chunk) = [c]
    /\ segments c = s :: chunk
    /\ text c = PyStr.join " " (map seg_text (s :: chunk))
    /\ start_index c = seg_index s /\ start_time c = seg_start_time s
    /\ exists init z, s :: chunk = init ++ [z]
         /\ end_index c = seg_index z /\ end_time c = seg_end_time z.
Proof.
  eexists; split; [reflexivity|].
  cbn [segments text start_index start_time end_index end_time].
  repeat split.
  destruct (@exists_last _ (s :: chunk)) as [init [z Hz]]; [discriminate|].
  exists init, z; rewrite Hz.
  now rewrite last_last.
Qed.

Lemma group_by_topic_five segs :
  group_by_topic segs 5 =
  Some (flat_map (fun k => make_group (window segs k))
                 (seq 0 ((length segs + 4) / 5))).
Proof.
  unfold group_by_topic, Py.range_step; simpl.
  f_equal; rewrite flat_map_map.
  replace (Z.to_nat ((Py.len segs + 5 - 1) / 5)) with ((length segs + 4) / 5).
  2:{ unfold Py.len.
      replace (Z.of_nat (length segs) + 5 - 1)%Z
        with (Z.of_nat (length segs + 4)) by lia.
      change 5%Z with (Z.of_nat 5).
      now rewrite <- Nat2Z.inj_div, Nat2Z.id. }
  apply flat_map_ext; intros k; f_equal.
  unfold Py.slice, window.
  replace (Z.to_nat (Z.of_nat k * 5 + 5) - Z.to_nat (Z.of_nat k * 5)) with 5 by lia.
  now replace (Z.to_nat (Z.of_nat k * 5)) with (k * 5) by lia.
Qed.

End SegmenterFacts.

Section SegmenterProperties.

Context {float : Type}.
Implicit Types segs : list (Segment float).

Lemma groups_of_windows segs (ks : list nat) :
  (forall k, In k ks -> window segs k <> []) ->
  let chunks := flat_map (fun k => make_group (window segs k)) ks in
  map (@segments float) chunks = map (window segs) ks
  /\ Forall well_formed_chunk chunks.
Proof.
  induction ks as [|k ks IH]; intros Hne; simpl.
  - split; constructor.
  - destruct IH as [IHs IHw]; [intros; apply Hne; now right|].
    assert (Hk : window segs k <> []) by (apply Hne; now left).
    destruct (window segs k) as [|s chunk] eqn:Hw; [congruence|].
    destruct (make_group_cons s chunk)
      as (c & -> & Hseg & Htext & Hsi & Hst & init & z & Hlast & Hei & Het).
    simpl; split.
    + now rewrite Hseg, IHs.
    + constructor; [|exact IHw].
      unfold well_formed_chunk; rewrite Hseg; repeat split.
      * exact Htext.
      * exists s, chunk; auto.
      * exists init, z; auto.
Qed.

Lemma window_count_split (n : nat) :
  (n + 4) / 5 = n / 5 + (if n mod 5 =? 0 then 0 else 1).
Proof.
  pose proof (Nat.div_mod_eq n 5) as Hn.
  pose proof (Nat.mod_upper_bound n 5 ltac:(discriminate)) as Hr.
  pose proof (Nat.div_mod_eq (n + 4) 5) as Hm.
  pose proof (Nat.mod_upper_bound (n + 4) 5 ltac:(discriminate)) as Hs.
  destruct (n mod 5 =? 0) eqn:E;
    [apply Nat.eqb_eq in E | apply Nat.eqb_neq in E]; lia.
Qed.

Lemma window_sizes segs :
  map (fun k => length (window segs k)) (seq 0 ((length segs + 4) / 5)) =
  repeat 5 (length segs / 5)
  ++ (if length segs mod 5 =? 0 then [] else [length segs mod 5]).
Proof.
  set (n := length segs).
  pose proof (Nat.div_mod_eq n 5) as Hn.
  pose proof (Nat.mod_upper_bound n 5 ltac:(discriminate)) as Hr.
  rewrite window_count_split, seq_app, map_app; f_equal.
  - rewrite map_const_repeat with (b := 5).
    + now rewrite length_seq.
    + intros k Hk; apply in_seq in Hk; rewrite window_length; fold n; lia.
  - destruct (n mod 5 =? 0) eqn:E; [reflexivity|]; cbn [seq map].
    apply Nat.eqb_neq in E; rewrite window_length; fold n.
    f_equal; lia.
Qed.

(** C8.  Grouping with [window_size = 5] always returns; the chunks cut the
    segments, in order, into consecutive disjoint windows of five with only
    the last one possibly shorter; each chunk's text is the space-joined
    text of its segments and its end time is that of its last segment;
    twelve segments give chunks of sizes 5, 5 and 2, and no segments give
    no chunks. *)
Theorem group_by_topic_partitions segs :
  exists chunks,
    group_by_topic segs 5 = Some chunks
    /\ concat (map (@segments float) chunks) = segs
    /\ Forall well_formed_chunk chunks
    /\ map (fun c => length (segments c)) chunks =
       repeat 5 (length segs / 5)
       ++ (if length segs mod 5 =? 0 then [] else [length segs mod 5])
    /\ (length segs = 12 ->
        map (fun c => length (segments c)) chunks = [5; 5; 2])
    /\ (segs = [] -> chunks = []).
Proof.
  eexists; split; [apply group_by_topic_five|].
  set (m := (length segs + 4) / 5).
  assert (Hm : length segs <= m * 5).
  { unfold m; pose proof (Nat.div_mod_eq (length segs + 4) 5).
    pose proof (Nat.mod_upper_bound (length segs + 4) 5 ltac:(discriminate)).
    lia. }
  assert (Hne : forall k, In k (seq 0 m) -> window segs k <> []).
  { intros k Hk Hnil; apply in_seq in Hk.
    apply (f_equal (@length _)) in Hnil; rewrite window_length in Hnil.
    unfold m in Hk; pose proof (Nat.div_mod_eq (length segs + 4) 5).
    pose proof (Nat.mod_upper_bound (length segs + 4) 5 ltac:(discriminate)).
    cbn [length] in Hnil; lia. }
  destruct (groups_of_windows segs (seq 0 m) Hne) as [Hsegs Hwf].
  assert (Hsizes :
    map (fun c => length (segments c))
        (flat_map (fun k => make_group (window segs k)) (seq 0 m)) =
    repeat 5 (length segs / 5)
    ++ (if length segs mod 5 =? 0 then [] else [length segs mod 5])).
  { rewrite <- window_sizes; fold m.
    rewrite <- (map_map (@segments float) (@length _)), Hsegs.
    now rewrite map_map. }
  repeat split.
  - rewrite Hsegs, windows_concat. now apply firstn_all2.
  - exact Hwf.
  - exact Hsizes.
  - intros H12; rewrite Hsizes, H12; reflexivity.
  - intros ->; reflexivity.
Qed.

End SegmenterProperties.

(** ** Chunk selection *)

Section SelectionFacts.

Local Open Scope Z_scope.

Lemma get_of_nat {A} (l : list A) (k : nat) :
  Py.get l (Z.of_nat k) = nth_error l k.
Proof.
  unfold Py.get.
  destruct (Z.of_nat k <? 0) eqn:E; [apply Z.ltb_lt in E; lia|].
  now rewrite Nat2Z.id.
Qed.

Lemma get_range_from {A} (pre l : list A) :
  Forall2 (fun i x => Py.get (pre ++ l) i = Some x)
          (map Z.of_nat (seq (length pre) (length l))) l.
Proof.
  revert pre; induction l as [|x l IH]; intros pre; simpl.
  - constructor.
  - constructor.
    + rewrite get_of_nat, nth_error_app2, Nat.sub_diag; [reflexivity | lia].
    + specialize (IH (pre ++ [x])%list).
      rewrite <- app_assoc, length_app, Nat.add_comm in IH; exact IH.
Qed.

Lemma get_range {A} (l : list A) :
  Forall2 (fun i x => Py.get l i = Some x) (Py.range (Py.len l)) l.
Proof.
  unfold Py.range, Py.len; rewrite Nat2Z.id.
  exact (get_range_from [] l).
Qed.

Lemma map_opt_Forall2 {A B} (f : A -> option B) (l : list A) (l' : list B) :
  Py.map_opt f l = Some l' -> Forall2 (fun x y => f x = Some y) l l'.
Proof.
  revert l'; induction l as [|x l IH]; intros l' H; simpl in H.
  - injection H as <-; constructor.
  - destruct (f x) as [y|] eqn:Hy; [|discriminate]; simpl in H.
    destruct (Py.map_opt f l) as [ys|]; [|discriminate]; simpl in H.
    injection H as <-; constructor; auto.
Qed.

Lemma map_opt_get {A} (l : list A) (idxs : list Z) :
  Forall (fun i => 0 <= i < Py.len l) idxs ->
  exists sel, Py.map_opt (Py.get l) idxs = Some sel.
Proof.
  induction 1 as [|i idxs Hi _ [sel IH]]; simpl.
  - now exists [].
  - destruct (get_in_bounds l Hi) as [x [-> _]]; rewrite IH; simpl.
    now eexists.
Qed.

(** [Py.sort] sorts: its result is ascending and a rearrangement of its
    argument *)
Lemma insert_permutation (x : Z) (l : list Z) :
  Permutation (x :: l) (Py.insert x l).
Proof.
  induction l as [|y l IH]; simpl.
  - reflexivity.
  - destruct (x <=? y); [reflexivity|].
    rewrite perm_swap; now constructor.
Qed.

Lemma sort_permutation (l : list Z) : Permutation l (Py.sort l).
Proof.
  induction l as [|x l IH]; unfold Py.sort in *; simpl.
  - constructor.
  - rewrite <- insert_permutation; now constructor.
Qed.

Lemma insert_sorted (x : Z) (l : list Z) :
  Sorted Z.le l -> Sorted Z.le (Py.insert x l).
Proof.
  induction 1 as [|y l Hs IH Hy]; simpl.
  - repeat constructor.
  - destruct (x <=? y) eqn:E.
    + apply Z.leb_le in E; repeat constructor; assumption.
    + apply Z.leb_gt in E; constructor; [exact IH|].
      destruct l as [|z l]; simpl.
      * constructor; lia.
      * inversion Hy; subst.
        destruct (x <=? z); constructor; lia.
Qed.

Lemma sort_sorted (l : list Z) : Sorted Z.le (Py.sort l).
Proof.
  induction l as [|x l IH]; unfold Py.sort in *; simpl.
  - constructor.
  - now apply insert_sorted.
Qed.

(** sorting leaves an increasing list as it is *)
Lemma sort_increasing (l : list Z) : StronglySorted Z.lt l -> Py.sort l = l.
Proof.
  induction 1 as [|x l Hs IH Hx]; unfold Py.sort in *; simpl.
  - reflexivity.
  - rewrite IH.
    destruct l as [|y l]; simpl; [reflexivity|].
    inversion Hx as [|? ? Hxy _]; subst.
    destruct (x <=? y) eqn:E; [reflexivity | apply Z.leb_gt in E; lia].
Qed.

(** the multiples [k * step] for [k] in a run of naturals *)
Lemma multiples_increasing (step : Z) (start len : nat) :
  0 < step ->
  StronglySorted Z.lt (map (fun k => Z.of_nat k * step) (seq start len)).
Proof.
  intros Hstep; revert start; induction len as [|len IH]; intros start; simpl.
  - constructor.
  - constructor; [apply IH|].
    apply Forall_forall; intros z Hz.
    apply in_map_iff in Hz as [k [<- Hk]]; apply in_seq in Hk; nia.
Qed.

Lemma range_increasing (n : Z) : StronglySorted Z.lt (Py.range n).
Proof.
  unfold Py.range.
  rewrite (map_ext _ (fun k => Z.of_nat k * 1)) by (intros; lia).
  now apply multiples_increasing.
Qed.

Lemma strided_indices (n q : Z) :
  1 <= q -> q < n ->
  let l := map (fun i => i * (n / q)) (Py.range q) in
  Py.len l = q /\ StronglySorted Z.lt l /\ Forall (fun i => 0 <= i < n) l.
Proof.
  intros Hq Hn l.
  assert (Hstep : 1 <= n / q) by (apply Z.div_le_lower_bound; lia).
  assert (Hmul : q * (n / q) <= n) by (apply Z.mul_div_le; lia).
  repeat split.
  - unfold l, Py.len; rewrite length_map, range_length; lia.
  - unfold l, Py.range; rewrite map_map.
    apply multiples_increasing; lia.
  - apply Forall_forall; intros z Hz.
    apply in_map_iff in Hz as [i [<- Hi]]; apply in_range in Hi; nia.
Qed.

Lemma take_all {A} (l : list A) (q : Z) :
  0 <= q -> Py.len l <= q -> Py.take l q = l.
Proof.
  intros Hq Hl; unfold Py.take, Py.len in *.
  destruct (q <? 0) eqn:E; [apply Z.ltb_lt in E; lia|].
  apply firstn_all2; lia.
Qed.

Lemma select_indices_few (n q : Z) :
  n <= q -> select_indices n q = Some (Py.range n).
Proof.
  intros H; unfold select_indices.
  now apply Z.leb_le in H as ->.
Qed.

Lemma select_indices_many (n q : Z) :
  1 <= q -> q < n ->
  select_indices n q = Some (map (fun i => i * (n / q)) (Py.range q)).
Proof.
  intros Hq Hn; unfold select_indices.
  destruct (strided_indices Hq Hn) as (Hlen & Hsort & _).
  destruct (n <=? q) eqn:E1; [apply Z.leb_le in E1; lia|].
  destruct (q =? 0) eqn:E2; [apply Z.eqb_eq in E2; lia|].
  rewrite Hlen, Z.ltb_irrefl, (sort_increasing Hsort).
  f_equal; apply take_all; lia.
Qed.

End SelectionFacts.

Section SelectionProperties.

Local Open Scope Z_scope.

Lemma select_indices_spec (n q : Z) :
  0 <= n -> 1 <= q ->
  exists l,
    select_indices n q = Some l
    /\ Py.len l = Z.min n q
    /\ StronglySorted Z.lt l
    /\ Forall (fun i => 0 <= i < n) l.
Proof.
  intros Hn Hq; destruct (Z_le_gt_dec n q) as [Hle|Hgt].
  - exists (Py.range n); repeat split.
    + now apply select_indices_few.
    + unfold Py.len; rewrite range_length; lia.
    + apply range_increasing.
    + apply Forall_forall; intros i Hi; now apply in_range.
  - assert (Hlt : q < n) by lia.
    destruct (strided_indices Hq Hlt) as (Hlen & Hsort & Hin).
    eexists; repeat split.
    + now apply select_indices_many.
    + rewrite Hlen; lia.
    + exact Hsort.
    + exact Hin.
Qed.

Lemma select_chunks_agrees {A} (topic_chunks : list A) (q : Z) (l : list Z) :
  1 <= q ->
  select_indices (Py.len topic_chunks) q = Some l ->
  exists selected,
    select_chunks topic_chunks q = Some selected
    /\ Forall2 (fun i c => Py.get topic_chunks i = Some c) l selected.
Proof.
  intros Hq Hsel; unfold select_chunks.
  destruct (Z_le_gt_dec (Py.len topic_chunks) q) as [Hle|Hgt].
  - rewrite select_indices_few in Hsel by assumption; injection Hsel as <-.
    apply Z.leb_le in Hle as ->.
    exists topic_chunks; split; [reflexivity | apply get_range].
  - assert (Hlt : q < Py.len topic_chunks) by lia.
    rewrite select_indices_many in Hsel by assumption; injection Hsel as <-.
    destruct (strided_indices Hq Hlt) as (_ & _ & Hin).
    destruct (Py.len topic_chunks <=? q) eqn:E1; [apply Z.leb_le in E1; lia|].
    destruct (q =? 0) eqn:E2; [apply Z.eqb_eq in E2; lia|].
    rewrite forallb_filter_id.
    + destruct (map_opt_get topic_chunks Hin) as [sel Hs].
      exists sel; split; [exact Hs | now apply map_opt_Forall2].
    + apply forallb_forall; intros i Hi.
      rewrite Forall_forall in Hin; apply Z.ltb_lt; now apply Hin.
Qed.

(** C1.  For [chunk_count >= 0] and [target_count >= 1] the selection
    returns [min chunk_count target_count] indices, strictly increasing and
    all in [[0, chunk_count)]; the stored-chunks path selects the chunks at
    exactly these indices; and the three examples of the specification
    evaluate as stated. *)
Theorem select_indices_correct (chunk_count target_count : Z) :
  0 <= chunk_count -> 1 <= target_count ->
  exists l,
    select_indices chunk_count target_count = Some l
    /\ Py.len l = Z.min chunk_count target_count
    /\ StronglySorted Z.lt l
    /\ Forall (fun i => 0 <= i < chunk_count) l
    /\ (forall (A : Type) (topic_chunks : list A),
          Py.len topic_chunks = chunk_count ->
          exists selected,
            select_chunks topic_chunks target_count = Some selected
            /\ Forall2 (fun i c => Py.get topic_chunks i = Some c) l selected)
    /\ select_indices 8 4 = Some [0; 2; 4; 6]
    /\ select_indices 3 10 = Some [0; 1; 2]
    /\ select_indices 0 5 = Some [].
Proof.
  intros Hn Hq.
  destruct (select_indices_spec Hn Hq) as (l & Hsel & Hlen & Hsort & Hin).
  exists l; repeat split; try assumption.
  intros A topic_chunks Htc; subst chunk_count.
  now apply select_chunks_agrees.
Qed.

Lemma select_indices_correct_witness :
  exists l,
    select_indices 23 10 = Some l
    /\ Py.len l = Z.min 23 10
    /\ StronglySorted Z.lt l
    /\ Forall (fun i => 0 <= i < 23) l
    /\ (forall (A : Type) (topic_chunks : list A),
          Py.len topic_chunks = 23 ->
          exists selected,
            select_chunks topic_chunks 10 = Some selected
            /\ Forall2 (fun i c => Py.get topic_chunks i = Some c) l selected)
    /\ select_indices 8 4 = Some [0; 2; 4; 6]
    /\ select_indices 3 10 = Some [0; 1; 2]
    /\ select_indices 0 5 = Some [].
Proof. apply (@select_indices_correct 23 10); lia. Defined.

End SelectionProperties.

(** ** Question ids *)

Section IdFacts.

Local Open Scope string_scope.

Lemma append_assoc (a b c : string) : (a ++ b) ++ c = a ++ (b ++ c).
Proof. induction a as [|x a IH]; simpl; [reflexivity | now rewrite IH]. Qed.

Lemma occurs_middle (c : ascii) (a b : string) : occurs c (a ++ String c b).
Proof. induction a as [|x a IH]; simpl; auto. Qed.

(** a string is cut in one way only at the last occurrence of [c] *)
Lemma cut_at_last (c : ascii) (a b x y : string) :
  ~ occurs c x -> ~ occurs c y ->
  a ++ String c x = b ++ String c y -> x = y.
Proof.
  intros Hx Hy; revert b; induction a as [|u a IH]; intros [|v b] H;
    simpl in H.
  - now injection H.
  - injection H as _ ->; destruct Hx; apply occurs_middle.
  - injection H as _ <-; destruct Hy; apply occurs_middle.
  - injection H as _ Hr; now apply (IH b).
Qed.

Lemma digits_no_underscore (d : Decimal.uint) :
  ~ occurs "_"%char (NilEmpty.string_of_uint d).
Proof.
  induction d; simpl; try tauto;
    intros [H|H]; try discriminate H; now apply IHd.
Qed.

Lemma str_nat_inj (n m : nat) : PyStr.str_nat n = PyStr.str_nat m -> n = m.
Proof.
  unfold PyStr.str_nat; intros H.
  apply Unsigned.to_uint_inj.
  apply (f_equal NilEmpty.uint_of_string) in H.
  rewrite !NilEmpty.usu in H; congruence.
Qed.

Context {float : Type}.
Variable str_float : float -> string.

(** two ids of one video with different counters are different strings,
    whatever the timestamps print as *)
Lemma format_question_id_inj (vid : string) (t1 t2 : float) (k1 k2 : nat) :
  format_question_id str_float vid t1 k1 = format_question_id str_float vid t2 k2 ->
  k1 = k2.
Proof.
  assert (E : forall t k,
             format_question_id str_float vid t k =
             (vid ++ String "_" (str_float t)) ++ String "_" (PyStr.str_nat k)).
  { intros t k; unfold format_question_id; now rewrite append_assoc. }
  rewrite !E; intros H.
  apply str_nat_inj.
  eapply cut_at_last; [| |exact H]; apply digits_no_underscore.
Qed.

End IdFacts.

(** ** Loops *)

Section LoopFacts.

Context {A S : Type}.
Variable P : S -> Prop.
Variable Q : A -> Prop.

(** a loop whose body returns and keeps [P] on every element returns and
    keeps [P], whether or not it leaves early *)
Lemma for_each_break_invariant (body : A -> S -> option (bool * S))
    (l : list A) (st : S) :
  (forall x s, Q x -> P s -> exists b s', body x s = Some (b, s') /\ P s') ->
  Forall Q l -> P st ->
  exists st', Py.for_each_break l body st = Some st' /\ P st'.
Proof.
  intros Hbody Hl; revert st; induction Hl as [|x l Hx _ IH]; intros st Hst; simpl.
  - now exists st.
  - destruct (Hbody x st Hx Hst) as (b & s' & -> & Hs').
    destruct b; [now exists s' | now apply IH].
Qed.

Lemma for_each_invariant (body : A -> S -> option S) (l : list A) (st : S) :
  (forall x s, Q x -> P s -> exists s', body x s = Some s' /\ P s') ->
  Forall Q l -> P st ->
  exists st', Py.for_each l body st = Some st' /\ P st'.
Proof.
  intros Hbody; apply for_each_break_invariant.
  intros x s Hx Hs; destruct (Hbody x s Hx Hs) as (s' & -> & Hs').
  now exists false, s'.
Qed.

End LoopFacts.

Lemma get_in {A} (l : list A) (i : Z) (x : A) : Py.get l i = Some x -> In x l.
Proof.
  unfold Py.get; intros H.
  destruct (i <? 0)%Z; [destruct (i + Py.len l <? 0)%Z; [discriminate|]|];
    eapply nth_error_In; eassumption.
Qed.

Lemma mem_index_of {A} (eqb : A -> A -> bool) (x : A) (l : list A) :
  Py.mem eqb x l = true -> exists i, Py.index_of eqb x l = Some i.
Proof.
  unfold Py.mem; induction l as [|y l IH]; simpl; [discriminate|].
  destruct (eqb y x); simpl; [now eexists|].
  intros H; destruct (IH H) as [i ->]; now eexists.
Qed.

Lemma map_opt_total {A B} (f : A -> option B) (l : list A) :
  Forall (fun x => exists y, f x = Some y) l ->
  exists l', Py.map_opt f l = Some l'.
Proof.
  induction 1 as [|x l [y Hy] _ [l' IH]]; simpl.
  - now eexists.
  - rewrite Hy, IH; simpl; now eexists.
Qed.

Lemma Forall2_in_r {A B} (R : A -> B -> Prop) (l : list A) (l' : list B) (y : B) :
  Forall2 R l l' -> In y l' -> exists x, In x l /\ R x y.
Proof.
  induction 1 as [|a b l l' Hab _ IH]; simpl; [tauto|].
  intros [<-|Hy].
  - exists a; auto.
  - destruct (IH Hy) as [x [Hx Hr]]; exists x; auto.
Qed.

(** ** Item assembly *)

Section AssemblyFacts.

Context {float : Type}.
Variable str_float : float -> string.
Variable llm_questions :
  nat -> string -> Z -> string -> option (list (Question float)).
Variable chunk_eqb : Chunk float -> Chunk float -> bool.
Variable vid : string.
Variable question_type : string.
Variable question_count : Z.
Variable chunks : list (Chunk float).

Local Open Scope Z_scope.

Lemma assign_ids_spec (chunk : Chunk float) (questions : list (Question float))
    (counter : nat) :
  In chunk chunks ->
  let (questions', counter') := assign_ids str_float vid chunk questions counter in
  counter' = (counter + length questions)%nat
  /\ length questions' = length questions
  /\ ids_from str_float vid chunks counter questions'.
Proof.
  intros Hin; revert counter; induction questions as [|q rest IH];
    intros counter; simpl.
  - repeat split; [lia|]. intros [|i] q' H; discriminate H.
  - specialize (IH (Datatypes.S counter)).
    destruct (assign_ids str_float vid chunk rest (Datatypes.S counter))
      as [rest' counter'].
    destruct IH as (Hc & Hl & Hids); repeat split; simpl; [lia | lia |].
    intros [|i] q' H; simpl in H.
    + injection H as <-; exists chunk; split; [exact Hin|]; simpl.
      now rewrite Nat.add_0_r.
    + destruct (Hids i q' H) as (c & Hc' & Hid).
      exists c; split; [exact Hc'|]; rewrite Hid; do 2 f_equal; lia.
Qed.

Lemma generate_for_chunk_numbered (chunk : Chunk float) (st : @Run float) :
  In chunk chunks -> numbered str_float vid chunks st ->
  numbered str_float vid chunks
    (generate_for_chunk str_float llm_questions vid question_type chunk st).
Proof.
  intros Hin [Hcount Hids]; unfold generate_for_chunk.
  pose proof (@assign_ids_spec chunk
    (generate_from_text str_float llm_questions (llm_calls st) (text chunk) vid
       (start_time chunk) (end_time chunk) 1 question_type)
    (question_counter st) Hin) as Hspec.
  destruct (assign_ids str_float vid chunk _ (question_counter st))
    as [questions' counter'].
  destruct Hspec as (Hc & Hl & Hnew); split; simpl.
  - rewrite length_app; lia.
  - intros i q H.
    destruct (Nat.lt_ge_cases i (length (generated_questions st))) as [Hi|Hi].
    + rewrite nth_error_app1 in H by exact Hi; now apply Hids.
    + rewrite nth_error_app2 in H by exact Hi.
      destruct (Hnew _ _ H) as (c & Hc' & Hid).
      exists c; split; [exact Hc'|]; rewrite Hid; do 2 f_equal; simpl; lia.
Qed.

Lemma initial_run_numbered : numbered str_float vid chunks (@initial_run float).
Proof. split; [reflexivity|]. intros [|i] q H; discriminate H. Qed.

(** the second loop returns and keeps the numbering when its indices are
    chunk indices *)
Lemma generate_more_numbered (indices : list Z) (st : @Run float) :
  Forall (fun idx => 0 <= idx < Py.len chunks) indices ->
  numbered str_float vid chunks st ->
  exists st',
    generate_more str_float llm_questions vid question_type question_count
      chunks indices st = Some st'
    /\ numbered str_float vid chunks st'.
Proof.
  intros Hidx Hst; unfold generate_more.
  apply for_each_invariant with (Q := fun i => 0 <= i < Py.len indices).
  - intros i s Hi Hs.
    destruct (get_in_bounds indices Hi) as (idx & -> & Hin); simpl.
    rewrite Forall_forall in Hidx.
    destruct (get_in_bounds chunks (Hidx idx Hin)) as (chunk & -> & Hc); simpl.
    eexists; split; [reflexivity | now apply generate_for_chunk_numbered].
  - apply Forall_forall; intros i Hi; apply in_range in Hi; lia.
  - exact Hst.
Qed.

Lemma ids_from_NoDup (items : list (Question float)) :
  ids_from str_float vid chunks 0 items ->
  NoDup (map (@question_id float) items).
Proof.
  intros Hids; apply NoDup_nth_error; intros i j Hi Hij.
  rewrite length_map in Hi; rewrite !nth_error_map in Hij.
  destruct (nth_error items i) as [qi|] eqn:Ei;
    [|apply nth_error_None in Ei; lia].
  destruct (nth_error items j) as [qj|] eqn:Ej; [|discriminate Hij].
  destruct (Hids _ _ Ei) as (ci & _ & Hi').
  destruct (Hids _ _ Ej) as (cj & _ & Hj').
  simpl in Hij; rewrite Hi', Hj' in Hij; injection Hij as Hij.
  now apply format_question_id_inj in Hij.
Qed.

Lemma take_assembled (st : @Run float) :
  1 <= question_count -> numbered str_float vid chunks st ->
  assembled str_float vid question_count chunks
    (Py.take (generated_questions st) question_count).
Proof.
  intros Hq [_ Hids]; unfold Py.take.
  destruct (question_count <? 0) eqn:E; [apply Z.ltb_lt in E; lia|].
  assert (Hcut : ids_from str_float vid chunks 0
                    (firstn (Z.to_nat question_count) (generated_questions st))).
  { intros i q H; rewrite nth_error_firstn in H.
    destruct (i <? Z.to_nat question_count)%nat; [now apply Hids | discriminate]. }
  repeat split.
  - unfold Py.len.
    pose proof (firstn_le_length (Z.to_nat question_count) (generated_questions st)).
    lia.
  - now apply ids_from_NoDup.
  - exact Hcut.
Qed.

End AssemblyFacts.

Section AssemblyProperties.

Context {float : Type}.
Variable str_float : float -> string.
Variable llm_questions :
  nat -> string -> Z -> string -> option (list (Question float)).
Variable chunk_eqb : Chunk float -> Chunk float -> bool.
Variable vid : string.
Variable question_type : string.
Variable target_count : Z.
Variable chunks : list (Chunk float).

Local Open Scope Z_scope.

Lemma filtered_range_in_bounds (p : Z -> bool) :
  Forall (fun idx => 0 <= idx < Py.len chunks)
         (filter p (Py.range (Py.len chunks))).
Proof.
  apply Forall_forall; intros i Hi.
  apply filter_In in Hi as [Hi _]; now apply in_range.
Qed.

Lemma range_in_bounds :
  Forall (fun idx => 0 <= idx < Py.len chunks) (Py.range (Py.len chunks)).
Proof. apply Forall_forall; intros i Hi; now apply in_range. Qed.

Lemma assemble_transcript_assembled :
  1 <= target_count ->
  exists items,
    assemble_transcript str_float llm_questions vid question_type target_count
      chunks = Some items
    /\ assembled str_float vid target_count chunks items.
Proof.
  intros Hq; unfold assemble_transcript.
  destruct (select_indices_spec (len_nonneg chunks) Hq)
    as (l & -> & _ & _ & Hin); cbn [Py.bind].
  match goal with
  | |- context [Py.for_each_break ?l ?body ?st] =>
      destruct (@for_each_break_invariant _ _
                  (numbered str_float vid chunks)
                  (fun idx => 0 <= idx < Py.len chunks) body l st)
        as (st1 & -> & Hst1); cbn [Py.bind]
  end.
  - intros idx s Hidx Hs.
    destruct (idx <? Py.len chunks) eqn:E; [|apply Z.ltb_ge in E; lia].
    destruct (get_in_bounds chunks Hidx) as (chunk & -> & Hc); cbn [Py.bind].
    do 2 eexists; split; [reflexivity|].
    now apply generate_for_chunk_numbered.
  - exact Hin.
  - apply initial_run_numbered.
  - destruct ((Py.len (generated_questions st1) <? target_count)
              && (0 <? Py.len chunks)).
    + pose proof (filtered_range_in_bounds
                    (fun i => negb (Py.mem Z.eqb i l))) as Hunused.
      destruct (@generate_more_numbered _ str_float llm_questions vid
                  question_type target_count chunks _ st1 Hunused Hst1)
        as (st2 & -> & Hst2); cbn [Py.bind].
      eexists; split; [reflexivity | now apply take_assembled].
    + cbn [Py.bind]; eexists; split; [reflexivity | now apply take_assembled].
Qed.

Lemma assemble_stored_assembled :
  1 <= target_count ->
  exists items,
    assemble_stored str_float llm_questions chunk_eqb vid question_type
      target_count chunks = Some items
    /\ assembled str_float vid target_count chunks items.
Proof.
  intros Hq; unfold assemble_stored.
  destruct (select_indices_spec (len_nonneg chunks) Hq) as (l & Hl & _).
  destruct (select_chunks_agrees chunks Hq Hl) as (selected & -> & Hsel); cbn [Py.bind].
  assert (Hin : Forall (fun c => In c chunks) selected).
  { apply Forall_forall; intros c Hc.
    destruct (@Forall2_in_r _ _ _ _ _ c Hsel Hc) as (i & _ & Hi).
    now apply get_in in Hi. }
  match goal with
  | |- context [Py.for_each_break ?l ?body ?st] =>
      destruct (@for_each_break_invariant _ _
                  (numbered str_float vid chunks)
                  (fun c => In c chunks) body l st)
        as (st1 & -> & Hst1); cbn [Py.bind]
  end.
  - intros c s Hc Hs; do 2 eexists; split; [reflexivity|].
    now apply generate_for_chunk_numbered.
  - exact Hin.
  - apply initial_run_numbered.
  - destruct ((Py.len (generated_questions st1) <? target_count)
              && (0 <? Py.len chunks)).
    + destruct (map_opt_total
                  (fun chunk => Py.index_of chunk_eqb chunk chunks)
                  (l := filter (fun chunk => Py.mem chunk_eqb chunk chunks) selected))
        as (used & ->); cbn [Py.bind].
      { apply Forall_forall; intros c Hc.
        apply filter_In in Hc as [_ Hc]; now apply mem_index_of. }
      set (available := filter _ _).
      assert (Havail : Forall (fun idx => 0 <= idx < Py.len chunks)
                match available with
                | [] => Py.range (Py.len chunks)
                | _ => available
                end).
      { destruct available eqn:E; [apply range_in_bounds|].
        rewrite <- E; apply filtered_range_in_bounds. }
      destruct (@generate_more_numbered _ str_float llm_questions vid
                  question_type target_count chunks _ st1 Havail Hst1)
        as (st2 & -> & Hst2); cbn [Py.bind].
      eexists; split; [reflexivity | now apply take_assembled].
    + cbn [Py.bind]; eexists; split; [reflexivity | now apply take_assembled].
Qed.

End AssemblyProperties.

(** C2.  Whatever the generative service returns or fails on, both assembly
    paths return for [target_count >= 1], and the list they return
    ([assembled]) has at most [target_count] items, no two of them with the
    same [question_id], the [i]-th of them carrying the id
    ["{video_id}_{start_time}_{i}"] for the start time of one of the chunks:
    the counter starts at 0, goes up by one for every appended item across
    both loops and is never set back. *)
Theorem assembly_bounded_unique_ids {float : Type} (str_float : float -> string)
    (llm_questions : nat -> string -> Z -> string -> option (list (Question float)))
    (chunk_eqb : Chunk float -> Chunk float -> bool)
    (vid question_type : string) (target_count : Z)
    (chunks : list (Chunk float)) :
  (1 <= target_count)%Z ->
  (exists items,
      assemble_transcript str_float llm_questions vid question_type target_count
        chunks = Some items
      /\ assembled str_float vid target_count chunks items)
  /\ (exists items,
        assemble_stored str_float llm_questions chunk_eqb vid question_type
          target_count chunks = Some items
        /\ assembled str_float vid target_count chunks items)
  /\ (exists items,
        assemble_transcript str_float (fun _ _ _ _ => None) vid question_type
          target_count chunks = Some items
        /\ assembled str_float vid target_count chunks items)
  /\ (exists items,
        assemble_stored str_float (fun _ _ _ _ => None) chunk_eqb vid question_type
          target_count chunks = Some items
        /\ assembled str_float vid target_count chunks items).
Proof.
  intros Hq; repeat split.
  - now apply assemble_transcript_assembled.
  - now apply assemble_stored_assembled.
  - now apply assemble_transcript_assembled.
  - now apply assemble_stored_assembled.
Qed.

Lemma assembly_bounded_unique_ids_witness :
  (exists items,
      assemble_transcript example_str_float (fun _ _ _ _ => None) "v1" "mixed" 10
        example_chunks = Some items
      /\ assembled example_str_float "v1" 10 example_chunks items)
  /\ (exists items,
        assemble_stored example_str_float (fun _ _ _ _ => None)
          (fun a b => Z.eqb (start_index a) (start_index b)) "v1" "mixed" 10
          example_chunks = Some items
        /\ assembled example_str_float "v1" 10 example_chunks items)
  /\ (exists items,
        assemble_transcript example_str_float (fun _ _ _ _ => None) "v1" "mixed" 10
          example_chunks = Some items
        /\ assembled example_str_float "v1" 10 example_chunks items)
  /\ (exists items,
        assemble_stored example_str_float (fun _ _ _ _ => None)
          (fun a b => Z.eqb (start_index a) (start_index b)) "v1" "mixed" 10
          example_chunks = Some items
        /\ assembled example_str_float "v1" 10 example_chunks items).
Proof.
  apply (@assembly_bounded_unique_ids Z example_str_float (fun _ _ _ _ => None)
           (fun a b => Z.eqb (start_index a) (start_index b))
           "v1" "mixed" 10%Z example_chunks).
  lia.
Defined.

(** the ids a run produces when every request fails and three fallback
    questions are appended per chunk *)
Example assembly_run :
  option_map (map (@question_id Z))
    (assemble_transcript example_str_float (fun _ _ _ _ => None) "v1" "mixed" 10
       example_chunks)
  = Some [Some "v1_0.0_0"; Some "v1_0.0_1"; Some "v1_0.0_2";
          Some "v1_30.0_3"; Some "v1_30.0_4"; Some "v1_30.0_5";
          Some "v1_60.0_6"; Some "v1_60.0_7"; Some "v1_60.0_8";
          Some "v1_90.0_9"]%string.
Proof. vm_compute. reflexivity. Qed.

(** ** The evaluator *)

Section StringFacts.

Local Open Scope string_scope.

Lemma contains_empty (s : string) : PyStr.contains EmptyString s = true.
Proof. destruct s; reflexivity. Qed.

Lemma lstrip_spaces (s : string) :
  PyStr.all_chars PyStr.isspace_char s = true -> PyStr.lstrip s = EmptyString.
Proof.
  induction s as [|c s IH]; simpl; [reflexivity|].
  intros H; apply andb_true_iff in H as [-> Hs]; auto.
Qed.

Lemma strip_spaces (s : string) :
  PyStr.all_chars PyStr.isspace_char s = true -> PyStr.strip s = EmptyString.
Proof. intros H; unfold PyStr.strip; now rewrite lstrip_spaces. Qed.

Lemma normalize_spaces (s : string) :
  PyStr.all_chars PyStr.isspace_char s = true -> normalize s = EmptyString.
Proof. intros H; unfold normalize; now rewrite strip_spaces. Qed.

End StringFacts.

Section EvaluatorProperties.

Context {float : Type}.
Variable llm_score : Question float -> string -> option Z.

Local Open Scope Z_scope.

Lemma generate_feedback_fill (question : Question float) (user_answer : string) :
  q_type question = Some "fill_in_the_blank"%string ->
  let state :=
    fill_in_blank_state user_answer
      (get_default (correct_answer question) EmptyString) in
  generate_feedback llm_score question user_answer =
  (verdict question (is_Correct state) (Some (is_Partial state)) None,
   [FillInBlankFeedback]).
Proof.
  intros Ht; unfold generate_feedback, fill_in_blank_state, normalize.
  rewrite Ht; cbn [get_default].
  change (String.eqb "fill_in_the_blank" "multiple_choice") with false.
  change (String.eqb "fill_in_the_blank" "fill_in_the_blank") with true.
  cbv iota.
  destruct (String.eqb _ _); cbn [negb andb]; [reflexivity|].
  destruct (_ || _); reflexivity.
Qed.

(** C3.  A fill-in-the-blank answer is compared after trimming and
    lower-casing both strings: (a) equal strings give [correct]; (b)
    otherwise, one string contained in the other gives [partial]; (c)
    otherwise [incorrect].  [is_correct] is set in state [correct] only and
    [is_partial] in state [partial] only; "photo" against "photosynthesis"
    is partial and not correct. *)
Theorem fill_in_blank_transitions (question : Question float)
    (user_answer : string) :
  q_type question = Some "fill_in_the_blank"%string ->
  let result := fst (generate_feedback llm_score question user_answer) in
  let u := normalize user_answer in
  let c := normalize (get_default (correct_answer question) EmptyString) in
  (u = c -> is_correct result = true /\ is_partial result = Some false)
  /\ (u <> c -> PyStr.contains u c = true \/ PyStr.contains c u = true ->
      is_correct result = false /\ is_partial result = Some true)
  /\ (u <> c -> PyStr.contains u c = false -> PyStr.contains c u = false ->
      is_correct result = false /\ is_partial result = Some false)
  /\ is_correct result =
     is_Correct (fill_in_blank_state user_answer
                   (get_default (correct_answer question) EmptyString))
  /\ is_partial result =
     Some (is_Partial (fill_in_blank_state user_answer
                         (get_default (correct_answer question) EmptyString)))
  /\ (correct_answer question = Some "photosynthesis"%string ->
      let photo := fst (generate_feedback llm_score question "photo") in
      is_partial photo = Some true /\ is_correct photo = false).
Proof.
  intros Ht result u c; subst result.
  rewrite (generate_feedback_fill question user_answer Ht); cbn [fst].
  unfold fill_in_blank_state; fold u; fold c.
  cbn [is_correct is_partial verdict].
  split; [|split; [|split; [|split; [|split]]]].
  - intros Heq; apply String.eqb_eq in Heq; rewrite Heq; split; reflexivity.
  - intros Hne Hsub; apply String.eqb_neq in Hne; rewrite Hne.
    apply orb_true_iff in Hsub; rewrite Hsub; split; reflexivity.
  - intros Hne Huc Hcu; apply String.eqb_neq in Hne.
    rewrite Hne, Huc, Hcu; split; reflexivity.
  - reflexivity.
  - reflexivity.
  - intros Hphoto.
    rewrite (generate_feedback_fill question "photo" Ht), Hphoto.
    split; reflexivity.
Qed.

(** C9.  When the correct answer does not normalise to the empty string, an
    answer that is empty or all whitespace is partial, never incorrect: the
    empty string is contained in every string. *)
Theorem blank_answer_is_partial (question : Question float)
    (user_answer : string) :
  q_type question = Some "fill_in_the_blank"%string ->
  normalize (get_default (correct_answer question) EmptyString) <> EmptyString ->
  PyStr.all_chars PyStr.isspace_char user_answer = true ->
  let result := fst (generate_feedback llm_score question user_answer) in
  is_partial result = Some true /\ is_correct result = false.
Proof.
  intros Ht Hc Hu result; subst result.
  rewrite (generate_feedback_fill question user_answer Ht); cbn [fst].
  unfold fill_in_blank_state; rewrite (normalize_spaces _ Hu).
  assert (E : String.eqb EmptyString
                (normalize (get_default (correct_answer question) EmptyString))
              = false).
  { apply String.eqb_neq; congruence. }
  rewrite E, contains_empty; split; reflexivity.
Qed.

(** C7.  For a multiple-choice question [is_correct] holds exactly when the
    answer is, character for character, the stored [correct_answer]; the
    result has no [is_partial] and no score; "b" against "B" is not
    correct. *)
Theorem multiple_choice_exact_match (question : Question float)
    (user_answer : string) :
  q_type question = Some "multiple_choice"%string ->
  let result := fst (generate_feedback llm_score question user_answer) in
  (is_correct result = true <-> correct_answer question = Some user_answer)
  /\ is_partial result = None
  /\ score_percentage result = None
  /\ (correct_answer question = Some "B"%string ->
      is_correct (fst (generate_feedback llm_score question "b")) = false).
Proof.
  intros Ht result; subst result; unfold generate_feedback.
  rewrite Ht; cbn [get_default].
  change (String.eqb "multiple_choice" "multiple_choice") with true.
  cbv iota; cbn [_generate_multiple_choice_feedback fst verdict is_correct
                 is_partial score_percentage].
  repeat split.
  - unfold answer_equals; destruct (correct_answer question) as [c|];
      [|discriminate]; intros H; apply String.eqb_eq in H; now subst.
  - intros ->; unfold answer_equals; apply String.eqb_refl.
  - intros ->; reflexivity.
Qed.

(** C5.  A short answer whose trimmed text has fewer than 5 characters, or
    is alphabetic with fewer than 4, gets score 0, neither correct nor
    partial, and no request is sent to the scoring service; "grb" is such
    an answer. *)
Theorem short_answer_guard (question : Question float) (user_answer : string) :
  q_type question = Some "short_answer"%string ->
  stripped_length user_answer < 5
  \/ (PyStr.isalpha (PyStr.strip user_answer) = true
      /\ stripped_length user_answer < 4) ->
  let evaluation := generate_feedback llm_score question user_answer in
  score_percentage (fst evaluation) = Some 0
  /\ is_correct (fst evaluation) = false
  /\ is_partial (fst evaluation) = Some false
  /\ snd evaluation = []
  /\ generate_feedback llm_score question "grb" =
     (verdict question false (Some false) (Some 0), []).
Proof.
  intros Ht Hshort evaluation; subst evaluation; unfold generate_feedback.
  rewrite Ht; cbn [get_default].
  change (String.eqb "short_answer" "multiple_choice") with false.
  change (String.eqb "short_answer" "fill_in_the_blank") with false.
  change (String.eqb "short_answer" "short_answer") with true.
  cbv iota; unfold _evaluate_short_answer.
  assert (E : too_short user_answer = true).
  { unfold too_short; apply orb_true_iff.
    destruct Hshort as [H | [Ha H]]; [left | right].
    - now apply Z.ltb_lt.
    - rewrite Ha; now apply Z.ltb_lt. }
  rewrite E; repeat split.
Qed.

End EvaluatorProperties.

Section FallbackScoring.

Context {float : Type}.
Variable llm_score : Question float -> string -> option Z.

Local Open Scope Z_scope.

Lemma matched_points_bounds (key_points : list string) (user_answer : string) :
  0 <= matched_points key_points user_answer <= Py.len key_points.
Proof.
  unfold matched_points, Py.len.
  pose proof (filter_length_le (point_matches user_answer) key_points); lia.
Qed.

Lemma keyword_score_bounds (key_points : list string) (user_answer : string) :
  0 <= keyword_score key_points user_answer <= 60.
Proof.
  unfold keyword_score.
  pose proof (matched_points_bounds key_points user_answer) as Hm.
  destruct (0 <? matched_points key_points user_answer) eqn:E; [|lia].
  apply Z.ltb_lt in E.
  assert (0 <= matched_points key_points user_answer * 60 / Py.len key_points)
    by (apply Z.div_pos; lia).
  assert (matched_points key_points user_answer * 60 / Py.len key_points <= 60)
    by (apply Z.div_le_upper_bound; lia).
  lia.
Qed.

Lemma keyword_score_monotone (key_points : list string) (a1 a2 : string) :
  matched_points key_points a1 <= matched_points key_points a2 ->
  keyword_score key_points a1 <= keyword_score key_points a2.
Proof.
  intros Hle; unfold keyword_score.
  pose proof (matched_points_bounds key_points a1) as H1.
  pose proof (matched_points_bounds key_points a2) as H2.
  pose proof (keyword_score_bounds key_points a2) as Hb.
  unfold keyword_score in Hb.
  destruct (0 <? matched_points key_points a1) eqn:E1; [|lia].
  apply Z.ltb_lt in E1.
  destruct (0 <? matched_points key_points a2) eqn:E2;
    [|apply Z.ltb_ge in E2; lia].
  apply Z.min_le_compat_l, Z.div_le_mono; lia.
Qed.

Lemma point_matches_iff (user_answer point : string) :
  point_matches user_answer point = true <->
  exists word,
    In word (PyStr.split point) /\ (3 < String.length word)%nat
    /\ PyStr.contains (PyStr.lower word) (PyStr.lower user_answer) = true.
Proof.
  unfold point_matches; rewrite existsb_exists; split.
  - intros (keyword & Hin & Hc).
    apply in_map_iff in Hin as (word & <- & Hw).
    apply filter_In in Hw as [Hw Hlen]; apply Nat.ltb_lt in Hlen.
    now exists word.
  - intros (word & Hw & Hlen & Hc).
    exists (PyStr.lower word); split; [|exact Hc].
    apply in_map, filter_In; split; [exact Hw | now apply Nat.ltb_lt].
Qed.

(** the result of a short-answer evaluation whose scoring request failed *)
Lemma generate_feedback_fallback (question : Question float)
    (user_answer : string) :
  q_type question = Some "short_answer"%string ->
  too_short user_answer = false ->
  llm_score question user_answer = None ->
  let score := keyword_score (get_default (key_points question) []) user_answer in
  generate_feedback llm_score question user_answer =
  (verdict question (75 <=? score) (Some ((30 <=? score) && (score <? 75)))
           (Some score),
   [ShortAnswerScoring]).
Proof.
  intros Ht Hlong Hfail score; subst score; unfold generate_feedback.
  rewrite Ht; cbn [get_default].
  change (String.eqb "short_answer" "multiple_choice") with false.
  change (String.eqb "short_answer" "fill_in_the_blank") with false.
  change (String.eqb "short_answer" "short_answer") with true.
  cbv iota; unfold _evaluate_short_answer; rewrite Hlong, Hfail.
  unfold fallback_score, too_short in *.
  apply orb_false_iff in Hlong as [-> _]; reflexivity.
Qed.

(** C4, as the code has it.  When the scoring request fails for an answer
    that passed the length check, the score is 0 if no key point matches
    and otherwise [min(70, floor(matched / total * 60))]: the quotient is
    truncated, not rounded.  A key point matches when one of its words of
    more than 3 characters occurs, lower-cased, in the lower-cased answer.
    The score is at most 60, so never above 70 and never 100, and
    [is_correct] is [score >= 75] (here always false) and [is_partial] is
    [30 <= score < 75]. *)
Theorem keyword_fallback_score (question : Question float)
    (user_answer : string) :
  q_type question = Some "short_answer"%string ->
  too_short user_answer = false ->
  llm_score question user_answer = None ->
  let points := get_default (key_points question) [] in
  let matched := Py.len (filter (point_matches user_answer) points) in
  let score :=
    if 0 <? matched then Z.min 70 (matched * 60 / Py.len points) else 0 in
  let result := fst (generate_feedback llm_score question user_answer) in
  score_percentage result = Some score
  /\ is_correct result = (75 <=? score)
  /\ is_partial result = Some ((30 <=? score) && (score <? 75))
  /\ 0 <= score <= 60
  /\ is_correct result = false
  /\ (forall point,
        point_matches user_answer point = true <->
        exists word,
          In word (PyStr.split point) /\ (3 < String.length word)%nat
          /\ PyStr.contains (PyStr.lower word) (PyStr.lower user_answer) = true).
Proof.
  intros Ht Hlong Hfail points matched score result; subst result.
  rewrite (@generate_feedback_fallback question user_answer Ht Hlong Hfail).
  fold points.
  change (keyword_score points user_answer) with score.
  pose proof (keyword_score_bounds points user_answer) as Hb.
  change (keyword_score points user_answer) with score in Hb.
  cbn [fst verdict score_percentage is_correct is_partial].
  repeat split; try lia.
  - intros H; now apply point_matches_iff.
  - intros H; now apply point_matches_iff.
Qed.

(** C6.  With the scoring request failing and both answers past the length
    check, an answer that matches more key points of the same question
    never gets the lower score. *)
Theorem fallback_score_monotone (question : Question float) (a1 a2 : string) :
  q_type question = Some "short_answer"%string ->
  too_short a1 = false -> too_short a2 = false ->
  llm_score question a1 = None -> llm_score question a2 = None ->
  matched_points (get_default (key_points question) []) a1
  < matched_points (get_default (key_points question) []) a2 ->
  exists s1 s2,
    score_percentage (fst (generate_feedback llm_score question a1)) = Some s1
    /\ score_percentage (fst (generate_feedback llm_score question a2)) = Some s2
    /\ s1 <= s2.
Proof.
  intros Ht Hl1 Hl2 Hf1 Hf2 Hm.
  rewrite (@generate_feedback_fallback question a1 Ht Hl1 Hf1).
  rewrite (@generate_feedback_fallback question a2 Ht Hl2 Hf2).
  do 2 eexists; repeat split.
  apply keyword_score_monotone; lia.
Qed.

End FallbackScoring.

(** *** Worked evaluations *)

Lemma fill_in_blank_transitions_witness :
  let photo :=
    fst (generate_feedback no_score (fill_question (Some "photosynthesis"%string))
           "photo") in
  is_partial photo = Some true /\ is_correct photo = false.
Proof.
  destruct (@fill_in_blank_transitions Z no_score
              (fill_question (Some "photosynthesis"%string)) "photo" eq_refl)
    as (_ & _ & _ & _ & _ & H).
  exact (H eq_refl).
Defined.

Lemma blank_answer_is_partial_witness :
  let blank :=
    fst (generate_feedback no_score (fill_question (Some " Water "%string))
           "   ") in
  is_partial blank = Some true /\ is_correct blank = false.
Proof.
  apply (@blank_answer_is_partial Z no_score
           (fill_question (Some " Water "%string)) "   ").
  - reflexivity.
  - vm_compute; discriminate.
  - reflexivity.
Defined.

Lemma multiple_choice_exact_match_witness :
  is_correct (fst (generate_feedback no_score (choice_question (Some "B"%string))
                     "b")) = false.
Proof.
  destruct (@multiple_choice_exact_match Z no_score
              (choice_question (Some "B"%string)) "b" eq_refl)
    as (_ & _ & _ & H).
  exact (H eq_refl).
Defined.

Lemma short_answer_guard_witness :
  generate_feedback no_score (short_question seven_points) "grb" =
  (verdict (short_question seven_points) false (Some false) (Some 0%Z), []).
Proof.
  destruct (@short_answer_guard Z no_score (short_question seven_points) "grb"
              eq_refl) as (_ & _ & _ & _ & H).
  - left; reflexivity.
  - exact H.
Defined.

(** C4, as the specification states it, fails: with one of seven key points
    matched the code truncates [1 / 7 * 60 = 8.57...] to 8, where
    [round] gives 9. *)
Lemma keyword_score_truncates :
  score_percentage
    (fst (generate_feedback no_score (short_question seven_points)
            "alpha decay is slow"))
  = Some 8%Z
  /\ claimed_keyword_score seven_points "alpha decay is slow" = 9%Z.
Proof. split; vm_compute; reflexivity. Qed.

Lemma keyword_fallback_score_witness :
  score_percentage
    (fst (generate_feedback no_score (short_question seven_points)
            "alpha decay is slow"))
  = Some 8%Z.
Proof.
  destruct (@keyword_fallback_score Z no_score (short_question seven_points)
              "alpha decay is slow" eq_refl eq_refl eq_refl) as (H & _).
  exact H.
Defined.

Lemma fallback_score_monotone_witness :
  exists s1 s2,
    score_percentage
      (fst (generate_feedback no_score (short_question seven_points)
              "alpha decay is slow")) = Some s1
    /\ score_percentage
         (fst (generate_feedback no_score (short_question seven_points)
                 "Alpha and DELTA differ")) = Some s2
    /\ (s1 <= s2)%Z.
Proof.
  apply (@fallback_score_monotone Z no_score (short_question seven_points)
           "alpha decay is slow" "Alpha and DELTA differ");
    reflexivity.
Defined.

Lemma group_by_topic_partitions_witness :
  exists chunks,
    group_by_topic
      (map (fun i => {| seg_index := i; seg_text := "word"; seg_start_time := i;
                        seg_end_time := (i + 1)%Z; seg_start_time_str := EmptyString;
                        seg_end_time_str := EmptyString |})
           (Py.range 12)) 5 = Some chunks
    /\ map (fun c => length (segments c)) chunks = [5; 5; 2].
Proof.
  destruct (group_by_topic_partitions
              (map (fun i => {| seg_index := i; seg_text := "word";
                                seg_start_time := i; seg_end_time := (i + 1)%Z;
                                seg_start_time_str := EmptyString;
                                seg_end_time_str := EmptyString |})
                   (Py.range 12)))
    as (chunks & Hg & _ & _ & _ & H12 & _).
  exists chunks; split; [exact Hg | exact (H12 eq_refl)].
Defined.

(** ** The requested question count *)

Section QuestionCountProperties.

Variable int_of_str : string -> option Z.

Local Open Scope Z_scope.

(** whenever the block is left normally the count is in 10..20 *)
Lemma clamp_question_count_range (requested : option JValue) (q : Z) :
  clamp_question_count int_of_str requested = Some q -> 10 <= q <= 20.
Proof.
  unfold clamp_question_count.
  destruct (py_int int_of_str (get_default requested (JInt 10))) as [n| | |];
    intros H; try discriminate H; injection H as <-; try lia.
  destruct (n <? 10) eqn:E1; [lia|].
  destruct (20 <? n) eqn:E2; [lia|].
  apply Z.ltb_ge in E1, E2; lia.
Qed.

(** the cases the block handles: an integer is clamped, [ValueError] and
    [TypeError] give 10 *)
Lemma clamp_question_count_handled (requested : option JValue) :
  match py_int int_of_str (get_default requested (JInt 10)) with
  | IntOk n =>
      clamp_question_count int_of_str requested =
      Some (Z.max 10 (Z.min 20 n))
  | IntValueError => clamp_question_count int_of_str requested = Some 10
  | IntTypeError => clamp_question_count int_of_str requested = Some 10
  | IntOverflowError => clamp_question_count int_of_str requested = None
  end.
Proof.
  unfold clamp_question_count.
  destruct (py_int int_of_str (get_default requested (JInt 10))) as [n| | |];
    try reflexivity.
  f_equal.
  destruct (n <? 10) eqn:E1; [apply Z.ltb_lt in E1; lia|].
  destruct (20 <? n) eqn:E2; [apply Z.ltb_lt in E2; lia|].
  apply Z.ltb_ge in E1, E2; lia.
Qed.

(** the block is left by an exception exactly on an infinite float *)
Lemma clamp_question_count_raises (requested : option JValue) :
  clamp_question_count int_of_str requested = None <->
  exists negative, requested = Some (JFloat (Infinity negative)).
Proof.
  unfold clamp_question_count; split.
  - destruct requested as [v|]; [|discriminate].
    destruct v as [| b | n | [m e | | negative] | s | | ];
      cbn [get_default py_int]; try discriminate.
    + intros _; now exists negative.
    + destruct (int_of_str s); discriminate.
  - intros [negative ->]; reflexivity.
Qed.

(** C10, where the code falls short.  A request body may carry a number
    that [json] reads as an infinite float (["question_count": 1e999]).
    [int] raises [OverflowError] on it, the handler catches only
    [ValueError] and [TypeError], and the request ends in that exception
    instead of going on with a count in 10..20.  These are the only values
    on which it does; on every other value the count is clamped. *)
Theorem infinite_question_count_escapes :
  py_int int_of_str (JFloat (Infinity false)) = IntOverflowError
  /\ clamp_question_count int_of_str (Some (JFloat (Infinity false))) = None
  /\ clamp_question_count int_of_str (Some (JFloat (Infinity true))) = None
  /\ (forall requested,
        clamp_question_count int_of_str requested = None <->
        exists negative, requested = Some (JFloat (Infinity negative)))
  /\ (forall requested q,
        clamp_question_count int_of_str requested = Some q -> 10 <= q <= 20)
  /\ clamp_question_count int_of_str (Some (JFloat NaN)) = Some 10
  /\ clamp_question_count int_of_str (Some JNull) = Some 10
  /\ clamp_question_count int_of_str None = Some 10
  /\ clamp_question_count int_of_str (Some (JInt 3)) = Some 10
  /\ clamp_question_count int_of_str (Some (JInt 15)) = Some 15
  /\ clamp_question_count int_of_str (Some (JInt 99)) = Some 20.
Proof.
  split; [reflexivity|]. split; [reflexivity|]. split; [reflexivity|].
  split; [exact clamp_question_count_raises|].
  split; [exact clamp_question_count_range|].
  repeat split.
Qed.

End QuestionCountProperties.

(* ================================================================= *)
(** * Further properties *)

(** ** More on the evaluator *)

Section EvaluatorInvariants.

Context {float : Type}.
Variable llm_score : Question float -> string -> option Z.

Local Open Scope Z_scope.

Lemma band_exclusive (score : Z) :
  ~ ((75 <=? score) = true /\ (30 <=? score) && (score <? 75) = true).
Proof.
  intros [H1 H2]; apply andb_true_iff in H2 as [_ H2].
  apply Z.leb_le in H1; apply Z.ltb_lt in H2; lia.
Qed.

(** X5.  Whatever the question, its type, the answer and the scoring
    service's reply, an evaluation never reports an answer as both correct
    and partial. *)
Theorem never_correct_and_partial (question : Question float)
    (user_answer : string) :
  let result := fst (generate_feedback llm_score question user_answer) in
  ~ (is_correct result = true /\ is_partial result = Some true).
Proof.
  cbv zeta; unfold generate_feedback.
  destruct (String.eqb _ "multiple_choice");
    [intros [_ H]; discriminate H|].
  destruct (String.eqb _ "fill_in_the_blank").
  - destruct (String.eqb _ _); cbn [negb andb].
    + intros [_ H]; discriminate H.
    + destruct (_ || _); intros [H1 H2]; try discriminate H1.
  - destruct (String.eqb _ "short_answer");
      [|intros [_ H]; discriminate H].
    unfold _evaluate_short_answer.
    destruct (too_short user_answer); [intros [H _]; discriminate H|].
    destruct (llm_score question user_answer) as [score|];
      cbn [fst verdict is_correct is_partial];
      intros [H1 H2]; injection H2 as H2; eapply band_exclusive; eauto.
Qed.

(** X6.  A question whose [type] is missing, or is any string other than
    ["fill_in_the_blank"] and ["short_answer"], is graded like a
    multiple-choice question: correct exactly on equality with
    [correct_answer], with no partial state, no score, and one feedback
    request. *)
Theorem untyped_question_is_multiple_choice (question : Question float)
    (user_answer : string) :
  q_type question <> Some "fill_in_the_blank"%string ->
  q_type question <> Some "short_answer"%string ->
  let evaluation := generate_feedback llm_score question user_answer in
  (is_correct (fst evaluation) = true <-> correct_answer question = Some user_answer)
  /\ is_partial (fst evaluation) = None
  /\ score_percentage (fst evaluation) = None
  /\ snd evaluation = [MultipleChoiceFeedback].
Proof.
  intros Hfill Hshort evaluation; subst evaluation; unfold generate_feedback.
  assert (Hmc : forall b : bool,
             (if b then _generate_multiple_choice_feedback question user_answer
                         (answer_equals user_answer (correct_answer question))
              else _generate_multiple_choice_feedback question user_answer
                     (answer_equals user_answer (correct_answer question)))
             = _generate_multiple_choice_feedback question user_answer
                 (answer_equals user_answer (correct_answer question)))
    by (intros []; reflexivity).
  set (question_type := get_default (q_type question) "multiple_choice"%string).
  assert (E1 : String.eqb question_type "fill_in_the_blank" = false).
  { apply String.eqb_neq; unfold question_type; intros H.
    destruct (q_type question) as [t|]; cbn in H; [|discriminate H].
    apply Hfill; now rewrite H. }
  assert (E2 : String.eqb question_type "short_answer" = false).
  { apply String.eqb_neq; unfold question_type; intros H.
    destruct (q_type question) as [t|]; cbn in H; [|discriminate H].
    apply Hshort; now rewrite H. }
  rewrite E1, E2, Hmc.
  cbn [_generate_multiple_choice_feedback fst snd verdict is_correct is_partial
       score_percentage].
  repeat split.
  - unfold answer_equals; destruct (correct_answer question) as [c|];
      [|discriminate]; intros H; apply String.eqb_eq in H; now subst.
  - intros ->; unfold answer_equals; apply String.eqb_refl.
Qed.

Lemma too_short_iff (user_answer : string) :
  too_short user_answer = (stripped_length user_answer <? 5).
Proof.
  unfold too_short.
  destruct (stripped_length user_answer <? 5) eqn:E1; [reflexivity|].
  destruct (stripped_length user_answer <? 4) eqn:E2.
  - apply Z.ltb_ge in E1; apply Z.ltb_lt in E2; lia.
  - now rewrite andb_false_r.
Qed.

(** X7.  The alphabetic clause of the short-answer length check never
    decides: the check fires exactly when the trimmed answer has fewer than 5
    characters.  A shorter answer sends no request to the scoring service and
    any other answer sends exactly one. *)
Theorem short_answer_requests (question : Question float) (user_answer : string) :
  q_type question = Some "short_answer"%string ->
  let requests := snd (generate_feedback llm_score question user_answer) in
  too_short user_answer = (stripped_length user_answer <? 5)
  /\ (stripped_length user_answer < 5 -> requests = [])
  /\ (5 <= stripped_length user_answer -> requests = [ShortAnswerScoring]).
Proof.
  intros Ht requests; subst requests; unfold generate_feedback.
  rewrite Ht; cbn [get_default].
  change (String.eqb "short_answer" "multiple_choice") with false.
  change (String.eqb "short_answer" "fill_in_the_blank") with false.
  change (String.eqb "short_answer" "short_answer") with true.
  cbv iota; unfold _evaluate_short_answer; rewrite too_short_iff.
  split; [reflexivity|]; split; intros H.
  - apply Z.ltb_lt in H; now rewrite H.
  - apply Z.ltb_ge in H; rewrite H.
    destruct (llm_score question user_answer); reflexivity.
Qed.

(** X8.  When the scoring request fails, an answer past the length check is
    partial exactly when it matches at least one key point and at least half
    of them. *)
Theorem fallback_partial_iff_half (question : Question float)
    (user_answer : string) :
  q_type question = Some "short_answer"%string ->
  too_short user_answer = false ->
  llm_score question user_answer = None ->
  let points := get_default (key_points question) [] in
  let matched := matched_points points user_answer in
  is_partial (fst (generate_feedback llm_score question user_answer)) = Some true
  <-> 0 < matched /\ Py.len points <= 2 * matched.
Proof.
  intros Ht Hlong Hfail points matched.
  rewrite (@generate_feedback_fallback _ llm_score question user_answer Ht Hlong Hfail).
  fold points; cbn [fst verdict is_partial].
  pose proof (keyword_score_bounds points user_answer) as Hb.
  pose proof (matched_points_bounds points user_answer) as Hm; fold matched in Hm.
  assert (Hlt : (keyword_score points user_answer <? 75) = true)
    by (apply Z.ltb_lt; lia).
  rewrite Hlt, andb_true_r.
  unfold keyword_score in *; fold matched in Hb |- *.
  destruct (0 <? matched) eqn:E.
  - apply Z.ltb_lt in E.
    assert (Hpos : 0 < Py.len points) by lia.
    split.
    + intros H; injection H as H; apply Z.leb_le in H; split; [exact E|].
      assert (H30 : 30 <= matched * 60 / Py.len points) by lia.
      pose proof (Z.mul_div_le (matched * 60) (Py.len points) Hpos); nia.
    + intros [_ H]; f_equal; apply Z.leb_le.
      assert (30 <= matched * 60 / Py.len points)
        by (apply Z.div_le_lower_bound; lia).
      lia.
  - apply Z.ltb_ge in E; split.
    + intros H; discriminate H.
    + intros [H _]; lia.
Qed.

End EvaluatorInvariants.

(** ** The question generator *)

Section GeneratorProperties.

Context {float : Type}.
Variable str_float : float -> string.
Variable llm_questions :
  nat -> string -> Z -> string -> option (list (Question float)).

Lemma type_in_other (question_type a b : string) :
  question_type <> a -> question_type <> b -> type_in question_type [a; b] = false.
Proof.
  intros Ha Hb; unfold type_in; cbn [existsb].
  apply String.eqb_neq in Ha, Hb; now rewrite Ha, Hb.
Qed.

Lemma fallback_questions_cases (vid : string) (ts te : float)
    (question_type : string) :
  _generate_fallback_questions str_float vid ts te question_type =
  if String.eqb question_type "multiple_choice"
  then [fallback_multiple_choice str_float vid ts te]
  else if String.eqb question_type "mixed"
       then [fallback_multiple_choice str_float vid ts te;
             fallback_fill_in_the_blank str_float vid ts te;
             fallback_short_answer str_float vid ts te]
       else [].
Proof.
  destruct (String.eqb_spec question_type "multiple_choice") as [->|H1];
    [reflexivity|].
  destruct (String.eqb_spec question_type "mixed") as [->|H2]; [reflexivity|].
  destruct (String.eqb_spec question_type "fill_in_the_blank") as [->|H3];
    [reflexivity|].
  destruct (String.eqb_spec question_type "short_answer") as [->|H4];
    [reflexivity|].
  unfold _generate_fallback_questions.
  rewrite !type_in_other by assumption.
  apply String.eqb_neq in H1, H3, H4; now rewrite H1, H3, H4.
Qed.

(** X3.  The fallback of a failed request gives one multiple-choice question
    for the type ["multiple_choice"], the three template questions for
    ["mixed"], and no question at all for every other type: the slices
    [[1:2]] and [[2:3]] taken for ["fill_in_the_blank"] and ["short_answer"]
    fall outside the one-element list built for them. *)
Theorem fallback_questions_by_type (vid : string) (ts te : float)
    (question_type : string) :
  (question_type = "multiple_choice"%string ->
   _generate_fallback_questions str_float vid ts te question_type =
   [fallback_multiple_choice str_float vid ts te])
  /\ (question_type = "mixed"%string ->
      _generate_fallback_questions str_float vid ts te question_type =
      [fallback_multiple_choice str_float vid ts te;
       fallback_fill_in_the_blank str_float vid ts te;
       fallback_short_answer str_float vid ts te])
  /\ (question_type <> "multiple_choice"%string ->
      question_type <> "mixed"%string ->
      _generate_fallback_questions str_float vid ts te question_type = [])
  /\ _generate_fallback_questions str_float vid ts te "fill_in_the_blank" = []
  /\ _generate_fallback_questions str_float vid ts te "short_answer" = [].
Proof.
  repeat split.
  - intros ->; reflexivity.
  - intros ->; reflexivity.
  - intros H1 H2; rewrite fallback_questions_cases.
    apply String.eqb_neq in H1, H2; now rewrite H1, H2.
Qed.

Lemma nth_error_enumerate {A B} (f : nat * A -> B) (l : list A) (start i : nat)
    (y : B) :
  nth_error (map f (combine (seq start (length l)) l)) i = Some y ->
  exists x, nth_error l i = Some x /\ y = f (start + i, x).
Proof.
  revert start i; induction l as [|a l IH]; intros start i H; simpl in H.
  - destruct i; discriminate H.
  - destruct i as [|i]; simpl in H.
    + injection H as <-; exists a; split; [reflexivity|].
      now rewrite Nat.add_0_r.
    + destruct (IH _ _ H) as (x & Hx & ->).
      exists x; split; [exact Hx|]; f_equal; f_equal; lia.
Qed.

Lemma add_metadata_stamped (vid : string) (ts te : float) (i : nat)
    (q : Question float) :
  stamped str_float vid ts te i (add_metadata str_float vid ts te i q).
Proof.
  unfold stamped, add_metadata; cbn; repeat split.
  destruct (q_type q); [discriminate|].
  destruct (is_some (options q)); [discriminate|].
  destruct (PyStr.contains _ _); discriminate.
Qed.

Lemma generate_from_text_stamped (call : nat) (content vid : string) (ts te : float)
    (num_questions : Z) (question_type : string) (i : nat) (q : Question float) :
  nth_error (generate_from_text str_float llm_questions call content vid ts te
               num_questions question_type) i = Some q ->
  stamped str_float vid ts te i q.
Proof.
  unfold generate_from_text.
  destruct (llm_questions call content num_questions question_type) as [qs|].
  - intros H; apply nth_error_enumerate in H as (x & _ & ->).
    apply add_metadata_stamped.
  - rewrite fallback_questions_cases.
    destruct (String.eqb question_type "multiple_choice").
    + destruct i as [|[|i]]; intros H; try discriminate H.
      injection H as <-; repeat split; discriminate.
    + destruct (String.eqb question_type "mixed").
      * destruct i as [|[|[|[|i]]]]; intros H; try discriminate H;
          injection H as <-; repeat split; discriminate.
      * destruct i; intros H; discriminate H.
Qed.

(** X4.  Whether the service answers or fails, the [i]-th question that
    [generate_from_text] returns carries the id
    ["{video_id}_{timestamp_start}_{i}"], the video id, both timestamps and a
    type.  When the service answers, every question of its list is kept: the
    requested number is not enforced. *)
Theorem generate_from_text_metadata (call : nat) (content vid : string)
    (ts te : float) (num_questions : Z) (question_type : string) :
  let questions :=
    generate_from_text str_float llm_questions call content vid ts te
      num_questions question_type in
  (forall i q, nth_error questions i = Some q ->
     question_id q = Some (format_question_id str_float vid ts i)
     /\ video_id q = Some vid
     /\ timestamp_start q = Some ts
     /\ timestamp_end q = Some te
     /\ q_type q <> None)
  /\ NoDup (map (@question_id float) questions)
  /\ (forall answered,
        llm_questions call content num_questions question_type = Some answered ->
        length questions = length answered).
Proof.
  intros questions; split; [|split].
  - intros i q H; exact (generate_from_text_stamped _ _ _ _ _ _ _ _ H).
  - apply NoDup_nth_error; intros i j Hi Hij.
    rewrite length_map in Hi; rewrite !nth_error_map in Hij.
    destruct (nth_error questions i) as [qi|] eqn:Ei;
      [|apply nth_error_None in Ei; lia].
    destruct (nth_error questions j) as [qj|] eqn:Ej; [|discriminate Hij].
    destruct (generate_from_text_stamped _ _ _ _ _ _ _ _ Ei) as (Hi' & _).
    destruct (generate_from_text_stamped _ _ _ _ _ _ _ _ Ej) as (Hj' & _).
    simpl in Hij; rewrite Hi', Hj' in Hij; injection Hij as Hij.
    now apply format_question_id_inj in Hij.
  - intros answered H; subst questions; unfold generate_from_text; rewrite H.
    now rewrite length_map, length_combine, length_seq, Nat.min_id.
Qed.

End GeneratorProperties.

(** ** The database *)

Section DatabaseProperties.

Context {float : Type}.
Implicit Types db : Store float.

Lemma questions_with_id_app (qs1 qs2 : list (Question float)) (vid : string) :
  questions_with_id (qs1 ++ qs2) vid =
  (a <- questions_with_id qs1 vid ;;
   b <- questions_with_id qs2 vid ;;
   Some (a ++ b)).
Proof.
  induction qs1 as [|q qs1 IH]; simpl.
  - destruct (questions_with_id qs2 vid); reflexivity.
  - destruct (video_id q) as [id|]; [|reflexivity].
    rewrite IH.
    destruct (questions_with_id qs1 vid) as [a|]; [|reflexivity]; simpl.
    destruct (questions_with_id qs2 vid) as [b|]; [|reflexivity]; simpl.
    destruct (String.eqb id vid); reflexivity.
Qed.

Lemma questions_with_id_filter (qs : list (Question float)) (vid : string) :
  Forall (fun q => video_id q <> None) qs ->
  questions_with_id qs vid =
  Some (filter (fun q => negb (other_id (video_id q) vid)) qs).
Proof.
  induction 1 as [|q qs Hq _ IH]; simpl; [reflexivity|].
  destruct (video_id q) as [id|]; [|congruence].
  rewrite IH; simpl.
  destruct (String.eqb id vid); reflexivity.
Qed.

Lemma questions_with_id_deleted (qs : list (Question float)) (vid other : string) :
  questions_with_id (filter (fun q => other_id (video_id q) vid) qs) other =
  if String.eqb other vid
  then option_map (fun _ => []) (questions_with_id qs other)
  else questions_with_id qs other.
Proof.
  induction qs as [|q qs IH]; simpl.
  - destruct (String.eqb other vid); reflexivity.
  - destruct (video_id q) as [id|] eqn:Hid; simpl.
    + destruct (String.eqb id vid) eqn:Eid; simpl.
      * rewrite IH; apply String.eqb_eq in Eid; subst id.
        destruct (String.eqb other vid) eqn:Eo.
        -- destruct (questions_with_id qs other); reflexivity.
        -- destruct (questions_with_id qs other); simpl; [|reflexivity].
           now rewrite String.eqb_sym, Eo.
      * rewrite Hid, IH.
        destruct (String.eqb other vid) eqn:Eo; [|reflexivity].
        apply String.eqb_eq in Eo; subst other.
        destruct (questions_with_id qs vid); simpl; [|reflexivity].
        now rewrite Eid.
    + rewrite Hid; destruct (String.eqb other vid); reflexivity.
Qed.

Lemma questions_with_id_raises (qs : list (Question float)) (vid : string)
    (q : Question float) :
  In q qs -> video_id q = None -> questions_with_id qs vid = None.
Proof.
  intros Hq Hnone; induction qs as [|a qs IH]; [destruct Hq|]; simpl.
  destruct Hq as [->|Hq]; [now rewrite Hnone|].
  destruct (video_id a); [|reflexivity].
  now rewrite (IH Hq).
Qed.

(** X12.  After [delete_questions_for_video] the video has no questions
    left, and the questions of every other video are listed exactly as
    before; the videos are not touched.  (A stored question without
    [video_id] is never deleted and makes every listing raise [KeyError].) *)
Theorem delete_questions_then_list db (vid : string) :
  let db' := delete_questions_for_video db vid in
  (Forall (fun q => video_id q <> None) (db_questions db) ->
   get_questions_for_video db' vid = Some [])
  /\ (forall other, other <> vid ->
        get_questions_for_video db' other = get_questions_for_video db other)
  /\ (forall q, In q (db_questions db) -> video_id q = None ->
        In q (db_questions db')
        /\ forall other, get_questions_for_video db' other = None)
  /\ db_videos db' = db_videos db.
Proof.
  cbv zeta; unfold get_questions_for_video, delete_questions_for_video;
    cbn [db_questions db_videos].
  split; [|split; [|split]].
  - intros Hall; rewrite questions_with_id_deleted, String.eqb_refl.
    now rewrite (questions_with_id_filter _ Hall).
  - intros other Ho; rewrite questions_with_id_deleted.
    apply String.eqb_neq in Ho; now rewrite Ho.
  - intros q Hq Hnone; split.
    + apply filter_In; split; [exact Hq | now rewrite Hnone].
    + intros other; rewrite questions_with_id_deleted.
      rewrite (@questions_with_id_raises _ other q Hq Hnone).
      destruct (String.eqb other vid); reflexivity.
  - reflexivity.
Qed.

(** X13.  After [add_questions] a video's listing is its listing before
    followed by those of the added questions that carry its id, in order. *)
Theorem add_questions_then_list db (added : list (Question float)) (vid : string) :
  get_questions_for_video (add_questions db added) vid =
  (before <- get_questions_for_video db vid ;;
   new <- questions_with_id added vid ;;
   Some (before ++ new)).
Proof.
  unfold get_questions_for_video, add_questions; cbn [db_questions].
  apply questions_with_id_app.
Qed.

Lemma find_video_app (videos : list (StoredVideo float)) (video : StoredVideo float)
    (is_id : string -> bool) :
  find_video (videos ++ [video]) is_id =
  match find_video videos is_id with
  | Some None => find_video [video] is_id
  | found => found
  end.
Proof.
  induction videos as [|v videos IH]; [reflexivity|].
  cbn [app find_video].
  destruct (sv_video_id v) as [id|]; [|reflexivity].
  destruct (is_id id); [reflexivity | exact IH].
Qed.

Lemma find_video_found (videos : list (StoredVideo float)) (is_id : string -> bool)
    (video : StoredVideo float) :
  find_video videos is_id = Some (Some video) ->
  exists pre post id,
    videos = pre ++ video :: post
    /\ sv_video_id video = Some id /\ is_id id = true
    /\ Forall (fun v => exists i, sv_video_id v = Some i /\ is_id i = false) pre.
Proof.
  induction videos as [|v videos IH]; simpl; [discriminate|].
  destruct (sv_video_id v) as [id|] eqn:Hid; [|discriminate].
  destruct (is_id id) eqn:Hm.
  - intros H; injection H as <-.
    exists [], videos, id; repeat split; auto.
  - intros H; destruct (IH H) as (pre & post & i & -> & Hi & Hmi & Hpre).
    exists (v :: pre), post, i; repeat split; auto.
    constructor; [now exists id | exact Hpre].
Qed.

(** X14.  [get_video_by_id] returns the first stored video with the id.
    After [add_video] of a video whose id no stored video has, looking up
    that id finds the added video, and looking up any id that gave an answer
    before gives the same answer. *)
Theorem add_video_then_get db (video : StoredVideo float) (vid : string) :
  sv_video_id video = Some vid ->
  (forall found, get_video_by_id db vid = Some (Some found) ->
     get_video_by_id (db_add_video db video) vid = Some (Some found))
  /\ (get_video_by_id db vid = Some None ->
      get_video_by_id (db_add_video db video) vid = Some (Some video))
  /\ (forall other, other <> vid ->
        get_video_by_id (db_add_video db video) other = get_video_by_id db other)
  /\ (forall other found, get_video_by_id db other = Some (Some found) ->
        sv_video_id found = Some other /\ In found (db_videos db)).
Proof.
  intros Hid; unfold get_video_by_id, db_add_video; cbn [db_videos].
  split; [|split; [|split]].
  - intros found H; now rewrite find_video_app, H.
  - intros H; rewrite find_video_app, H; cbn [find_video].
    now rewrite Hid, String.eqb_refl.
  - intros other Ho; rewrite find_video_app.
    destruct (find_video (db_videos db) _) as [[found|]|]; try reflexivity.
    cbn [find_video]; rewrite Hid.
    apply not_eq_sym in Ho; apply String.eqb_neq in Ho; now rewrite Ho.
  - intros other found H.
    apply find_video_found in H as (pre & post & id & Hv & Hi & Hm & _).
    apply String.eqb_eq in Hm; subst id; split; [exact Hi|].
    rewrite Hv; apply in_or_app; right; now left.
Qed.

Lemma filter_length_all {A} (f : A -> bool) (l : list A) :
  length (filter f l) = length l <-> forall x, In x l -> f x = true.
Proof.
  split.
  - intros H; apply filter_length_forallb in H.
    now apply forallb_forall.
  - intros H; f_equal; apply forallb_filter_id; now apply forallb_forall.
Qed.

Lemma other_id_true (id : option string) (vid : string) :
  other_id id vid = true <-> id <> Some vid.
Proof.
  destruct id as [i|]; simpl; [|split; [discriminate | reflexivity]].
  rewrite negb_true_iff, String.eqb_neq; split; congruence.
Qed.

(** X15.  [delete_video] raises exactly when no stored video has the id.
    Otherwise it removes every video with the id, keeps the others in their
    order, and leaves the stored questions as they are. *)
Theorem delete_video_removes db (vid : string) :
  (delete_video db vid = None <->
   forall v, In v (db_videos db) -> sv_video_id v <> Some vid)
  /\ (forall db', delete_video db vid = Some db' ->
        db_videos db' =
        filter (fun v => other_id (sv_video_id v) vid) (db_videos db)
        /\ (forall v, In v (db_videos db') <->
                        In v (db_videos db) /\ sv_video_id v <> Some vid)
        /\ db_questions db' = db_questions db).
Proof.
  unfold delete_video, Py.len; split.
  - destruct (Z.eqb_spec (Z.of_nat (length (db_videos db)))
                (Z.of_nat (length (filter (fun v => other_id (sv_video_id v) vid)
                                     (db_videos db))))) as [E|E].
    + split; [intros _ | reflexivity].
      intros v Hv; apply other_id_true.
      apply Nat2Z.inj in E; symmetry in E.
      now apply (proj1 (filter_length_all _ _) E).
    + split; [discriminate|]; intros H; exfalso; apply E; f_equal; symmetry.
      apply filter_length_all; intros v Hv; apply other_id_true; auto.
  - intros db'; destruct (_ =? _)%Z; [discriminate|].
    intros H; injection H as <-; cbn [db_videos db_questions].
    split; [reflexivity|]; split; [|reflexivity].
    intros v; rewrite filter_In, other_id_true; tauto.
Qed.

Lemma replace_first_spec (videos : list (StoredVideo float)) (vid : string)
    (updated : StoredVideo float) :
  match find_video videos (fun id => String.eqb id vid) with
  | None => replace_first videos vid updated = None
  | Some None => replace_first videos vid updated = Some videos
  | Some (Some video) =>
      exists pre post,
        videos = pre ++ video :: post
        /\ replace_first videos vid updated = Some (pre ++ updated :: post)
        /\ Forall (fun v => sv_video_id v <> Some vid) pre
  end.
Proof.
  induction videos as [|v videos IH]; simpl; [reflexivity|].
  destruct (sv_video_id v) as [id|] eqn:Hid; [|reflexivity].
  destruct (String.eqb_spec id vid) as [->|Hne].
  - exists [], videos; repeat split; constructor.
  - destruct (find_video videos _) as [[video|]|].
    + destruct IH as (pre & post & -> & -> & Hpre).
      exists (v :: pre), post; repeat split.
      constructor; [congruence | exact Hpre].
    + now rewrite IH.
    + now rewrite IH.
Qed.

(** X16.  [update_video] raises exactly when the lookup of the id does.
    When no video has the id it changes nothing and reports nothing; otherwise
    it replaces the first video with the id, the one [get_video_by_id]
    returns, and leaves every other video and all questions in place. *)
Theorem update_video_replaces_first db (vid : string) (updated : StoredVideo float) :
  (update_video db vid updated = None <-> get_video_by_id db vid = None)
  /\ (get_video_by_id db vid = Some None -> update_video db vid updated = Some db)
  /\ (forall video, get_video_by_id db vid = Some (Some video) ->
        exists pre post,
          db_videos db = pre ++ video :: post
          /\ Forall (fun v => sv_video_id v <> Some vid) pre
          /\ update_video db vid updated =
             Some {| db_videos := pre ++ updated :: post;
                     db_questions := db_questions db |}).
Proof.
  unfold update_video, get_video_by_id.
  pose proof (replace_first_spec (db_videos db) vid updated) as H.
  destruct (find_video (db_videos db) _) as [[video|]|].
  - destruct H as (pre & post & Hv & Hr & Hpre); rewrite Hr; cbn [Py.bind].
    split; [split; discriminate|]; split; [discriminate|].
    intros video' Hv'; injection Hv' as <-.
    exists pre, post; auto.
  - rewrite H; cbn [Py.bind].
    split; [split; discriminate|]; split.
    + intros _; destruct db; reflexivity.
    + intros video' Hv'; discriminate Hv'.
  - rewrite H; cbn [Py.bind].
    split; [split; reflexivity|]; split; discriminate.
Qed.

End DatabaseProperties.

(** ** YouTube URLs *)

Section UrlProperties.

Local Open Scope string_scope.

Lemma pieces_nonempty (sep s : string) (skip : nat) :
  exists piece rest, PySplit.pieces sep s skip = piece :: rest.
Proof.
  revert skip; induction s as [|c s IH]; intros skip; cbn [PySplit.pieces].
  - now exists EmptyString, [].
  - destruct skip as [|k]; [|apply IH].
    destruct (String.prefix sep (String c s)); [now eexists; eexists|].
    destruct (IH 0%nat) as (piece & rest & ->); now eexists; eexists.
Qed.

Lemma prefix_empty (s : string) : String.prefix EmptyString s = true.
Proof. destruct s; reflexivity. Qed.

Lemma prefix_of_empty (sep : string) :
  sep <> EmptyString -> String.prefix sep EmptyString = false.
Proof. destruct sep; [congruence | reflexivity]. Qed.

Lemma pieces_two (sep s : string) :
  sep <> EmptyString -> PyStr.contains sep s = true ->
  exists first second rest, PySplit.pieces sep s 0 = first :: second :: rest.
Proof.
  intros Hsep; induction s as [|c s IH]; cbn [PySplit.pieces PyStr.contains].
  - now rewrite (prefix_of_empty Hsep).
  - intros H; destruct (String.prefix sep (String c s)) eqn:E.
    + destruct (pieces_nonempty sep s (String.length sep - 1))
        as (piece & rest & ->).
      now exists EmptyString, piece, rest.
    + cbn [orb] in H; destruct (IH H) as (first & second & rest & ->).
      now exists (String c first), second, rest.
Qed.

Lemma split_two (s sep : string) :
  sep <> EmptyString -> PyStr.contains sep s = true ->
  exists parts after,
    PySplit.split s sep = Some parts /\ Py.get parts 1 = Some after.
Proof.
  intros Hsep H; destruct (pieces_two s Hsep H) as (first & second & rest & E).
  exists (first :: second :: rest), second; split; [|reflexivity].
  unfold PySplit.split; destruct sep; [congruence | now rewrite E].
Qed.

(** the first piece of a split at a single character does not contain it *)
Lemma first_piece_clean (c : ascii) (s : string) :
  exists piece rest,
    PySplit.pieces (String c EmptyString) s 0 = piece :: rest
    /\ ~ occurs c piece.
Proof.
  induction s as [|a s (piece & rest & IH & Hc)]; cbn [PySplit.pieces].
  - exists EmptyString, []; split; [reflexivity | simpl; tauto].
  - cbn [String.prefix]; destruct (ascii_dec c a) as [->|Hne].
    + rewrite prefix_empty; eexists; eexists; split; [reflexivity | simpl; tauto].
    + rewrite IH; exists (String a piece), rest; split; [reflexivity|].
      simpl; tauto.
Qed.

Lemma split_first_clean (c : ascii) (s : string) :
  exists parts id,
    PySplit.split s (String c EmptyString) = Some parts
    /\ Py.get parts 0 = Some id /\ ~ occurs c id.
Proof.
  destruct (first_piece_clean c s) as (piece & rest & E & Hc).
  exists (piece :: rest), piece; repeat split; [|exact Hc].
  unfold PySplit.split; now rewrite E.
Qed.

(** X9.  [extract_youtube_id] never raises: whenever it indexes the result
    of a [split], the part is there.  It returns [None] exactly for a watch
    URL without ["v="] and for a URL with neither pattern; an id taken from a
    watch URL contains no ["&"], one taken from a short URL no ["?"]. *)
Theorem extract_youtube_id_safe (youtube_url : string) :
  exists result,
    extract_youtube_id youtube_url = Some result
    /\ (result = None <->
        (if PyStr.contains "youtube.com/watch" youtube_url
         then PyStr.contains "v=" youtube_url = false
         else PyStr.contains "youtu.be/" youtube_url = false))
    /\ (forall id, result = Some id ->
          if PyStr.contains "youtube.com/watch" youtube_url
          then ~ occurs "&"%char id
          else ~ occurs "?"%char id).
Proof.
  unfold extract_youtube_id.
  destruct (PyStr.contains "youtube.com/watch" youtube_url).
  - destruct (PyStr.contains "v=" youtube_url) eqn:Ev.
    + destruct (@split_two youtube_url "v=") as (parts & after & Hs & Hg);
        [discriminate | exact Ev |].
      rewrite Hs; cbn [Py.bind]; rewrite Hg; cbn [Py.bind].
      destruct (split_first_clean "&" after) as (parts' & id & Hs' & Hg' & Hid).
      rewrite Hs'; cbn [Py.bind]; rewrite Hg'; cbn [Py.bind].
      eexists; split; [reflexivity|]; split.
      * split; discriminate.
      * intros id' H; injection H as <-; exact Hid.
    + eexists; split; [reflexivity|]; split; [tauto|].
      intros id H; discriminate H.
  - destruct (PyStr.contains "youtu.be/" youtube_url) eqn:Ev.
    + destruct (@split_two youtube_url "youtu.be/") as (parts & after & Hs & Hg);
        [discriminate | exact Ev |].
      rewrite Hs; cbn [Py.bind]; rewrite Hg; cbn [Py.bind].
      destruct (split_first_clean "?" after) as (parts' & id & Hs' & Hg' & Hid).
      rewrite Hs'; cbn [Py.bind]; rewrite Hg'; cbn [Py.bind].
      eexists; split; [reflexivity|]; split.
      * split; discriminate.
      * intros id' H; injection H as <-; exact Hid.
    + eexists; split; [reflexivity|]; split; [tauto|].
      intros id H; discriminate H.
Qed.

Lemma append_empty_r (s : string) : s ++ EmptyString = s.
Proof. induction s as [|c s IH]; simpl; [reflexivity | now rewrite IH]. Qed.

Lemma prefix_blocked (p : string) (c d : ascii) (suf rest : string) :
  ends_with c p -> ~ occurs c suf -> ~ occurs d p -> suf <> EmptyString ->
  rest = EmptyString \/ (exists r, rest = String d r) ->
  String.prefix p (suf ++ rest) = false.
Proof.
  intros Hend Hc Hd Hsuf Hrest; revert suf Hc Hsuf.
  induction p as [|a p IH]; intros suf Hc Hsuf; [destruct Hend|].
  destruct suf as [|x suf]; [congruence|].
  cbn [append String.prefix].
  destruct (ascii_dec a x) as [->|Hne]; [|reflexivity].
  destruct p as [|b p].
  - simpl in Hend; subst x; simpl in Hc; tauto.
  - destruct suf as [|y suf].
    + cbn [append]; destruct Hrest as [->|[r ->]]; [reflexivity|].
      cbn [String.prefix]; destruct (ascii_dec b d) as [->|]; [|reflexivity].
      simpl in Hd; tauto.
    + apply IH.
      * exact Hend.
      * simpl in Hd; simpl; tauto.
      * simpl in Hc; simpl; tauto.
      * discriminate.
Qed.

(** no occurrence of the separator starts inside [id] *)
Lemma pieces_through (sep : string) (c d : ascii) (id rest : string) :
  ends_with c sep -> ~ occurs c id -> ~ occurs d sep ->
  rest = EmptyString \/ (exists r, rest = String d r) ->
  exists h tl,
    PySplit.pieces sep (id ++ rest) 0 = (id ++ h) :: tl
    /\ (h = EmptyString \/ exists x, h = String d x).
Proof.
  intros Hend Hc Hd Hrest; induction id as [|x id IH].
  - cbn [append]; destruct Hrest as [->|[r ->]].
    + exists EmptyString, []; split; [reflexivity | now left].
    + cbn [PySplit.pieces].
      assert (E : String.prefix sep (String d r) = false).
      { destruct sep as [|a sep]; [destruct Hend|]; cbn [String.prefix].
        destruct (ascii_dec a d) as [->|]; [simpl in Hd; tauto | reflexivity]. }
      rewrite E; destruct (pieces_nonempty sep r 0) as (piece & tl & ->).
      exists (String d piece), tl; split; [reflexivity | right; now eexists].
  - destruct IH as (h & tl & IH & Hh); [simpl in Hc; tauto|].
    cbn [append PySplit.pieces].
    change (String x (id ++ rest)) with (String x id ++ rest).
    rewrite (@prefix_blocked sep c d (String x id) rest); auto; [|discriminate].
    cbn [append]; rewrite IH; now exists h, tl.
Qed.

Lemma first_piece_exact (c : ascii) (id h : string) :
  ~ occurs c id -> h = EmptyString \/ (exists x, h = String c x) ->
  exists tl, PySplit.pieces (String c EmptyString) (id ++ h) 0 = id :: tl.
Proof.
  intros Hc Hh; induction id as [|x id IH]; cbn [append].
  - destruct Hh as [->|[y ->]]; [now exists []|].
    cbn [PySplit.pieces String.prefix].
    destruct (ascii_dec c c); [|congruence].
    rewrite prefix_empty; now eexists.
  - destruct IH as (tl & IH); [simpl in Hc; tauto|].
    cbn [PySplit.pieces String.prefix].
    destruct (ascii_dec c x) as [->|]; [simpl in Hc; tauto|].
    rewrite IH; now exists tl.
Qed.

Lemma watch_url_split (tail : string) :
  PyStr.contains "youtube.com/watch" ("https://www.youtube.com/watch?v=" ++ tail)
  = true
  /\ PyStr.contains "v=" ("https://www.youtube.com/watch?v=" ++ tail) = true
  /\ PySplit.pieces "v=" ("https://www.youtube.com/watch?v=" ++ tail) 0 =
     match PySplit.pieces "v=" tail 0 with
     | piece :: rest => "https://www.youtube.com/watch?" :: piece :: rest
     | [] => ["https://www.youtube.com/watch?"]
     end.
Proof.
  repeat split.
  - destruct tail; reflexivity.
  - cbn; rewrite prefix_empty.
    destruct (pieces_nonempty "v=" tail 0) as (piece & rest & ->); reflexivity.
Qed.

Lemma short_url_split (tail : string) :
  PyStr.contains "youtube.com/watch" ("https://youtu.be/" ++ tail)
  = PyStr.contains "youtube.com/watch" tail
  /\ PyStr.contains "youtu.be/" ("https://youtu.be/" ++ tail) = true
  /\ PySplit.pieces "youtu.be/" ("https://youtu.be/" ++ tail) 0 =
     match PySplit.pieces "youtu.be/" tail 0 with
     | piece :: rest => "https://" :: piece :: rest
     | [] => ["https://"]
     end.
Proof.
  repeat split.
  - destruct tail; reflexivity.
  - cbn; rewrite prefix_empty.
    destruct (pieces_nonempty "youtu.be/" tail 0) as (piece & rest & ->);
      reflexivity.
Qed.

(** X10.  A watch URL gives back its id: for an id without ["&"] and ["="],
    alone or followed by further ["&"] parameters,
    ["https://www.youtube.com/watch?v=" + id + rest] is taken apart into
    [id]. *)
Theorem extract_youtube_id_watch (id rest : string) :
  ~ occurs "&"%char id -> ~ occurs "="%char id ->
  rest = EmptyString \/ (exists r, rest = String "&" r) ->
  extract_youtube_id ("https://www.youtube.com/watch?v=" ++ id ++ rest)
  = Some (Some id).
Proof.
  intros Hamp Heq Hrest; unfold extract_youtube_id.
  destruct (watch_url_split (id ++ rest)) as (-> & -> & Hp).
  unfold PySplit.split; rewrite Hp.
  destruct (@pieces_through "v=" "=" "&" id rest) as (h & tl & -> & Hh);
    [reflexivity | exact Heq | simpl; intuition discriminate | exact Hrest |].
  unfold Py.get; cbn [Z.ltb Z.compare Z.to_nat].
  change (Pos.to_nat 1) with 1%nat; cbn [nth_error Py.bind].
  destruct (first_piece_exact id Hamp Hh) as (tl' & ->).
  reflexivity.
Qed.

(** X11.  A short URL gives back its id: for an id without ["?"] and ["/"],
    alone or followed by a query, ["https://youtu.be/" + id + rest] is taken
    apart into [id], unless the text after the host contains
    ["youtube.com/watch"], which sends the URL down the other branch. *)
Theorem extract_youtube_id_short (id rest : string) :
  ~ occurs "?"%char id -> ~ occurs "/"%char id ->
  rest = EmptyString \/ (exists r, rest = String "?" r) ->
  PyStr.contains "youtube.com/watch" (id ++ rest) = false ->
  extract_youtube_id ("https://youtu.be/" ++ id ++ rest) = Some (Some id).
Proof.
  intros Hq Hslash Hrest Hwatch; unfold extract_youtube_id.
  destruct (short_url_split (id ++ rest)) as (-> & -> & Hp).
  rewrite Hwatch; unfold PySplit.split; rewrite Hp.
  destruct (@pieces_through "youtu.be/" "/" "?" id rest) as (h & tl & -> & Hh);
    [reflexivity | exact Hslash | simpl; intuition discriminate | exact Hrest |].
  unfold Py.get; cbn [Z.ltb Z.compare Z.to_nat].
  change (Pos.to_nat 1) with 1%nat; cbn [nth_error Py.bind].
  destruct (first_piece_exact id Hq Hh) as (tl' & ->).
  reflexivity.
Qed.

End UrlProperties.

(** ** The segmenter for every window size, and on a transcript *)

Section SegmenterGeneral.

Context {float : Type}.
Implicit Types segs : list (Segment float).

Lemma windows_of_concat (w : nat) segs (m : nat) :
  concat (map (window_of w segs) (seq 0 m)) = firstn (m * w) segs.
Proof.
  induction m as [|m IH].
  - reflexivity.
  - rewrite seq_S, map_app, concat_app, IH; cbn [map concat Nat.add].
    rewrite app_nil_r; unfold window_of.
    now rewrite <- firstn_plus, Nat.add_comm.
Qed.

Lemma window_of_length (w : nat) segs (k : nat) :
  length (window_of w segs k) = Nat.min w (length segs - k * w).
Proof. unfold window_of; now rewrite length_firstn, length_skipn. Qed.

(** the groups of a list of non-empty windows: one chunk per window *)
Lemma groups_of_lists (windows : list (list (Segment float))) :
  Forall (fun chunk => chunk <> []) windows ->
  map (@segments float) (flat_map make_group windows) = windows
  /\ Forall well_formed_chunk (flat_map make_group windows).
Proof.
  induction 1 as [|chunk windows Hne _ [IHs IHw]]; cbn [flat_map].
  - split; constructor.
  - destruct chunk as [|s chunk]; [congruence|].
    destruct (make_group_cons s chunk)
      as (c & -> & Hseg & Htext & Hsi & Hst & init & z & Hlast & Hei & Het).
    cbn [app map]; split.
    + now rewrite Hseg, IHs.
    + constructor; [|exact IHw].
      unfold well_formed_chunk; rewrite Hseg; repeat split.
      * exact Htext.
      * exists s, chunk; auto.
      * exists init, z; auto.
Qed.

Lemma window_count_facts (n w : Z) :
  (0 <= n)%Z -> (0 < w)%Z ->
  let q := ((n + w - 1) / w)%Z in
  (0 <= q /\ n <= q * w /\ (q - 1) * w < n)%Z.
Proof.
  intros Hn Hw q.
  pose proof (Z.mul_div_le (n + w - 1) w Hw) as H1.
  pose proof (Z.mul_succ_div_gt (n + w - 1) w Hw) as H2.
  fold q in H1, H2.
  assert (0 <= q)%Z by (apply Z.div_pos; lia).
  nia.
Qed.

Lemma group_by_topic_positive segs (w : Z) :
  (0 < w)%Z ->
  group_by_topic segs w =
  Some (flat_map make_group
          (map (window_of (Z.to_nat w) segs)
               (seq 0 (Z.to_nat ((Py.len segs + w - 1) / w))))).
Proof.
  intros Hw; unfold group_by_topic, Py.range_step.
  destruct (w =? 0)%Z eqn:E0; [apply Z.eqb_eq in E0; lia|].
  destruct (w <? 0)%Z eqn:E1; [apply Z.ltb_lt in E1; lia|].
  f_equal; rewrite !flat_map_map.
  apply flat_map_ext; intros k; f_equal.
  unfold Py.slice, window_of.
  replace (Z.to_nat (Z.of_nat k * w + w) - Z.to_nat (Z.of_nat k * w))
    with (Z.to_nat w) by nia.
  now replace (Z.to_nat (Z.of_nat k * w)) with (k * Z.to_nat w) by nia.
Qed.

(** X1.  For every positive window size the grouping returns chunks that
    cut the segments, in order, into consecutive windows: every chunk holds
    between 1 and [window_size] segments, every chunk but the last exactly
    [window_size], and there are [ceil(len / window_size)] of them.  A window
    size of 0 raises, and a negative one returns no chunk at all, whatever
    the segments. *)
Theorem group_by_topic_any_window segs (window_size : Z) :
  (window_size = 0%Z -> group_by_topic segs window_size = None)
  /\ ((window_size < 0)%Z -> group_by_topic segs window_size = Some [])
  /\ ((0 < window_size)%Z ->
      exists chunks,
        group_by_topic segs window_size = Some chunks
        /\ concat (map (@segments float) chunks) = segs
        /\ Forall well_formed_chunk chunks
        /\ Py.len chunks = ((Py.len segs + window_size - 1) / window_size)%Z
        /\ Forall (fun c => (1 <= Py.len (segments c) <= window_size)%Z) chunks
        /\ (forall k c, nth_error chunks k = Some c -> S k < length chunks ->
              Py.len (segments c) = window_size)).
Proof.
  split; [|split].
  - intros ->; reflexivity.
  - intros Hw; unfold group_by_topic, Py.range_step.
    destruct (window_size =? 0)%Z eqn:E0; [apply Z.eqb_eq in E0; lia|].
    apply Z.ltb_lt in Hw; now rewrite Hw.
  - intros Hw; eexists; split; [now apply group_by_topic_positive|].
    set (w := Z.to_nat window_size).
    set (m := Z.to_nat ((Py.len segs + window_size - 1) / window_size)).
    destruct (window_count_facts (len_nonneg segs) Hw) as (Hq & Hcover & Hlast).
    assert (Hm : length segs <= m * w) by (unfold m, w, Py.len in *; nia).
    assert (Hin : forall k, k < m -> k * w < length segs)
      by (intros k Hk; unfold m, w, Py.len in *; nia).
    assert (Hne : Forall (fun chunk => chunk <> [])
                    (map (window_of w segs) (seq 0 m))).
    { apply Forall_forall; intros chunk Hc.
      apply in_map_iff in Hc as (k & <- & Hk); apply in_seq in Hk.
      intros Hnil; apply (f_equal (@length _)) in Hnil.
      rewrite window_of_length in Hnil; cbn [length] in Hnil.
      specialize (Hin k ltac:(lia)); unfold w in *; lia. }
    destruct (groups_of_lists Hne) as [Hsegs Hwf].
    assert (Hlen : length (flat_map make_group (map (window_of w segs) (seq 0 m)))
                   = m).
    { rewrite <- (length_map (@segments float)), Hsegs.
      now rewrite length_map, length_seq. }
    assert (Hnth : forall k c,
               nth_error (flat_map make_group (map (window_of w segs) (seq 0 m))) k
               = Some c ->
               k < m /\ segments c = window_of w segs k).
    { intros k c Hc.
      assert (Hk : k < m).
      { rewrite <- Hlen; apply nth_error_Some; congruence. }
      split; [exact Hk|].
      apply (f_equal (option_map (@segments float))) in Hc.
      rewrite <- nth_error_map, Hsegs, nth_error_map, nth_error_seq in Hc.
      apply Nat.ltb_lt in Hk; rewrite Hk in Hc; cbn in Hc; congruence. }
    split; [|split; [|split; [|split]]].
    + rewrite Hsegs, windows_of_concat; now apply firstn_all2.
    + exact Hwf.
    + unfold Py.len at 1; rewrite Hlen; unfold m; lia.
    + apply Forall_forall; intros c Hc.
      apply In_nth_error in Hc as [k Hc].
      destruct (Hnth k c Hc) as [Hk ->].
      unfold Py.len; rewrite window_of_length.
      specialize (Hin k Hk); unfold w in *; lia.
    + intros k c Hc Hk; rewrite Hlen in Hk.
      destruct (Hnth k c Hc) as [_ ->].
      unfold Py.len; rewrite window_of_length.
      specialize (Hin (S k) Hk); unfold w in *; lia.
Qed.

End SegmenterGeneral.

Section TranscriptChunks.

Context {float : Type}.
Variable str_float : float -> string.
Variable fadd : float -> float -> float.

Lemma transcript_segments_nth (transcript_list : list (TranscriptItem float))
    (j : nat) :
  nth_error (transcript_segments str_float fadd transcript_list) j =
  option_map (transcript_segment str_float fadd j) (nth_error transcript_list j).
Proof.
  unfold transcript_segments.
  assert (H : forall start,
             nth_error
               (map (fun ii => transcript_segment str_float fadd (fst ii) (snd ii))
                    (combine (seq start (length transcript_list)) transcript_list))
               j
             = option_map (transcript_segment str_float fadd (start + j))
                          (nth_error transcript_list j)).
  { revert j; induction transcript_list as [|item l IH]; intros j start.
    - destruct j; reflexivity.
    - destruct j as [|j]; cbn.
      + now rewrite Nat.add_0_r.
      + rewrite IH; do 2 f_equal; lia. }
  exact (H 0).
Qed.

Lemma transcript_segments_length (transcript_list : list (TranscriptItem float)) :
  length (transcript_segments str_float fadd transcript_list)
  = length transcript_list.
Proof.
  unfold transcript_segments.
  now rewrite length_map, length_combine, length_seq, Nat.min_id.
Qed.

(** X2.  The chunks of a transcript number its items without gap or overlap:
    the [k]-th chunk starts at index [5k + 1] with the start time of item
    [5k], and ends at index [min(5k + 5, n)] with the end time ([start +
    duration]) of the item of that index; so its index range is not empty and
    the next chunk starts right after it. *)
Theorem transcript_chunks_cover (transcript_list : list (TranscriptItem float)) :
  exists chunks,
    group_by_topic (transcript_segments str_float fadd transcript_list) 5
    = Some chunks
    /\ forall k c, nth_error chunks k = Some c ->
         start_index c = (5 * Z.of_nat k + 1)%Z
         /\ end_index c = Z.min (5 * Z.of_nat k + 5) (Py.len transcript_list)
         /\ (start_index c <= end_index c)%Z
         /\ (exists first,
               nth_error transcript_list (5 * k) = Some first
               /\ start_time c = ti_start first)
         /\ (exists last,
               nth_error transcript_list (Z.to_nat (end_index c) - 1) = Some last
               /\ end_time c = fadd (ti_start last) (ti_duration last)).
Proof.
  set (segs := transcript_segments str_float fadd transcript_list).
  set (n := length transcript_list).
  assert (Hn : length segs = n) by apply transcript_segments_length.
  eexists; split; [apply group_by_topic_five|].
  set (m := (length segs + 4) / 5).
  assert (Hne : forall k, In k (seq 0 m) -> window segs k <> []).
  { intros k Hk Hnil; apply in_seq in Hk.
    apply (f_equal (@length _)) in Hnil; rewrite window_length in Hnil.
    unfold m in Hk; pose proof (Nat.div_mod_eq (length segs + 4) 5).
    pose proof (Nat.mod_upper_bound (length segs + 4) 5 ltac:(discriminate)).
    cbn [length] in Hnil; lia. }
  destruct (groups_of_windows segs (seq 0 m) Hne) as [Hsegs Hwf].
  intros k c Hc.
  assert (Hk : k < m).
  { apply (f_equal (option_map (@segments float))) in Hc.
    rewrite <- nth_error_map, Hsegs in Hc.
    assert (Hsome : nth_error (map (window segs) (seq 0 m)) k <> None)
      by (rewrite Hc; discriminate).
    apply nth_error_Some in Hsome.
    now rewrite length_map, length_seq in Hsome. }
  assert (Hw : segments c = window segs k).
  { apply (f_equal (option_map (@segments float))) in Hc.
    rewrite <- nth_error_map, Hsegs, nth_error_map, nth_error_seq in Hc.
    apply Nat.ltb_lt in Hk; rewrite Hk in Hc.
    cbn [option_map Nat.add] in Hc; injection Hc as Hc; now symmetry. }
  assert (Hkn : 5 * k < n).
  { rewrite <- Hn; unfold m in Hk.
    pose proof (Nat.div_mod_eq (length segs + 4) 5).
    pose proof (Nat.mod_upper_bound (length segs + 4) 5 ltac:(discriminate)).
    lia. }
  assert (Hwl : length (segments c) = Nat.min 5 (n - 5 * k)).
  { rewrite Hw, window_length, Hn; f_equal; lia. }
  assert (Hat : forall i, i < Nat.min 5 (n - 5 * k) ->
             nth_error (segments c) i =
             option_map (transcript_segment str_float fadd (5 * k + i))
                        (nth_error transcript_list (5 * k + i))).
  { intros i Hi; rewrite Hw; unfold window.
    rewrite nth_error_firstn.
    assert (E : (i <? 5)%nat = true) by (apply Nat.ltb_lt; lia).
    rewrite E, nth_error_skipn; unfold segs.
    rewrite transcript_segments_nth; do 2 f_equal; lia. }
  assert (Hc' : In c (flat_map (fun k => make_group (window segs k)) (seq 0 m)))
    by (eapply nth_error_In; eassumption).
  rewrite Forall_forall in Hwf.
  destruct (Hwf c Hc') as (_ & (s & rest & Hs & Hsi & Hst)
                             & (init & z & Hz & Hei & Het)).
  assert (H0 : nth_error (segments c) 0 = Some s) by now rewrite Hs.
  rewrite Hat in H0 by lia; rewrite Nat.add_0_r in H0.
  destruct (nth_error transcript_list (5 * k)) as [first|] eqn:Hfirst;
    [|discriminate H0].
  injection H0 as <-.
  assert (Hlen : length (segments c) = length init + 1)
    by (rewrite Hz, length_app; reflexivity).
  assert (Hl : nth_error (segments c) (length init) = Some z).
  { rewrite Hz, nth_error_app2, Nat.sub_diag by lia; reflexivity. }
  rewrite Hat in Hl by lia.
  destruct (nth_error transcript_list (5 * k + length init)) as [last|] eqn:Hlast;
    [|discriminate Hl].
  injection Hl as <-.
  assert (Hend : end_index c = Z.min (5 * Z.of_nat k + 5) (Py.len transcript_list)).
  { rewrite Hei; cbn [transcript_segment seg_index]; unfold Py.len; fold n; lia. }
  split; [rewrite Hsi; cbn [transcript_segment seg_index]; lia|].
  split; [exact Hend|].
  split; [rewrite Hsi, Hend; cbn [transcript_segment seg_index];
          unfold Py.len; fold n; lia|].
  split.
  - exists first; split; [reflexivity | now rewrite Hst].
  - exists last; split; [|now rewrite Het].
    rewrite <- Hlast; f_equal.
    rewrite Hend; unfold Py.len; fold n; lia.
Qed.

End TranscriptChunks.

(** ** The routes *)

Section LoopPreservation.

Context {A S : Type}.
Variable P : S -> Prop.

(** what every round of a loop keeps holds when the loop is left *)
Lemma for_each_break_preserves (body : A -> S -> option (bool * S))
    (l : list A) (st st' : S) :
  (forall x s b s', P s -> body x s = Some (b, s') -> P s') ->
  P st -> Py.for_each_break l body st = Some st' -> P st'.
Proof.
  intros Hbody; revert st; induction l as [|x l IH]; simpl; intros st Hst H.
  - now injection H as <-.
  - destruct (body x st) as [[[|] s1]|] eqn:E; try discriminate H.
    + injection H as <-; eapply Hbody; eauto.
    + eapply IH; [|exact H]; eapply Hbody; eauto.
Qed.

Lemma for_each_preserves (body : A -> S -> option S) (l : list A) (st st' : S) :
  (forall x s s', P s -> body x s = Some s' -> P s') ->
  P st -> Py.for_each l body st = Some st' -> P st'.
Proof.
  intros Hbody; apply for_each_break_preserves.
  intros x s b s' Hs H.
  destruct (body x s) as [s1|] eqn:E; [|discriminate H].
  injection H as _ <-; eauto.
Qed.

End LoopPreservation.

Lemma in_firstn {A} (n : nat) (l : list A) (x : A) : In x (firstn n l) -> In x l.
Proof.
  revert l; induction n as [|n IH]; intros [|y l]; simpl; try tauto.
  intros [->|H]; [now left | right; now apply IH].
Qed.

Section RouteFacts.

Context {float : Type}.
Variable str_float : float -> string.
Variable llm_questions :
  nat -> string -> Z -> string -> option (list (Question float)).
Variable chunk_eqb : Chunk float -> Chunk float -> bool.
Variable vid : string.
Variable question_type : string.
Variable question_count : Z.

Local Open Scope Z_scope.

Lemma assign_ids_for_video (chunk : Chunk float) (questions : list (Question float))
    (counter : nat) :
  all_for_video vid questions ->
  all_for_video vid (fst (assign_ids str_float vid chunk questions counter)).
Proof.
  unfold all_for_video; intros H; revert counter.
  induction H as [|q rest Hq _ IH]; intros counter; simpl; [constructor|].
  specialize (IH (Datatypes.S counter)).
  destruct (assign_ids str_float vid chunk rest (Datatypes.S counter)); simpl in *.
  now constructor.
Qed.

Lemma generate_from_text_for_video (call : nat) (content : string) (ts te : float)
    (num_questions : Z) :
  all_for_video vid
    (generate_from_text str_float llm_questions call content vid ts te
       num_questions question_type).
Proof.
  apply Forall_forall; intros q Hq.
  apply In_nth_error in Hq as [i Hi].
  now destruct (generate_from_text_stamped _ _ _ _ _ _ _ _ _ _ Hi) as (_ & Hv & _).
Qed.

Lemma generate_for_chunk_for_video (chunk : Chunk float) (st : @Run float) :
  all_for_video vid (generated_questions st) ->
  all_for_video vid
    (generated_questions
       (generate_for_chunk str_float llm_questions vid question_type chunk st)).
Proof.
  intros Hst; unfold generate_for_chunk.
  pose proof (@assign_ids_for_video chunk _ (question_counter st)
                (generate_from_text_for_video (llm_calls st) (text chunk)
                   (start_time chunk) (end_time chunk) 1)) as H.
  destruct (assign_ids str_float vid chunk _ (question_counter st)); simpl in *.
  apply Forall_app; now split.
Qed.

Lemma generate_more_for_video (chunks : list (Chunk float)) (indices : list Z)
    (st st' : @Run float) :
  all_for_video vid (generated_questions st) ->
  generate_more str_float llm_questions vid question_type question_count
    chunks indices st = Some st' ->
  all_for_video vid (generated_questions st').
Proof.
  intros Hst; unfold generate_more.
  apply for_each_preserves
    with (P := fun s => all_for_video vid (generated_questions s)); [|exact Hst].
  intros i s s' Hs H.
  destruct (Py.get indices i) as [idx|]; [|discriminate H]; cbn [Py.bind] in H.
  destruct (Py.get chunks idx) as [chunk|]; [|discriminate H]; cbn [Py.bind] in H.
  injection H as <-; now apply generate_for_chunk_for_video.
Qed.

Lemma take_for_video (qs : list (Question float)) (k : Z) :
  all_for_video vid qs -> all_for_video vid (Py.take qs k).
Proof.
  unfold all_for_video, Py.take; intros H.
  destruct (k <? 0); apply Forall_forall; intros q Hq;
    apply in_firstn in Hq; rewrite Forall_forall in H; auto.
Qed.

Lemma assemble_transcript_for_video (chunks : list (Chunk float))
    (items : list (Question float)) :
  assemble_transcript str_float llm_questions vid question_type question_count
    chunks = Some items ->
  all_for_video vid items.
Proof.
  unfold assemble_transcript.
  destruct (select_indices _ _) as [l|]; [|discriminate]; cbn [Py.bind].
  destruct (Py.for_each_break l _ _) as [st1|] eqn:E1; [|discriminate];
    cbn [Py.bind].
  assert (H1 : all_for_video vid (generated_questions st1)).
  { revert E1; apply for_each_break_preserves
      with (P := fun s => all_for_video vid (generated_questions s));
      [|constructor].
    intros idx s b s' Hs H.
    destruct (idx <? Py.len chunks).
    - destruct (Py.get chunks idx) as [chunk|]; [|discriminate H].
      cbn [Py.bind] in H; injection H as _ <-.
      now apply generate_for_chunk_for_video.
    - now injection H as _ <-. }
  destruct (_ && _).
  - destruct (generate_more _ _ _ _ _ _ _ _) as [st2|] eqn:E2; [|discriminate].
    cbn [Py.bind]; intros H; injection H as <-.
    apply take_for_video; eapply generate_more_for_video; eauto.
  - cbn [Py.bind]; intros H; injection H as <-; now apply take_for_video.
Qed.

Lemma assemble_stored_for_video (topic_chunks : list (Chunk float))
    (items : list (Question float)) :
  assemble_stored str_float llm_questions chunk_eqb vid question_type
    question_count topic_chunks = Some items ->
  all_for_video vid items.
Proof.
  unfold assemble_stored.
  destruct (select_chunks _ _) as [l|]; [|discriminate]; cbn [Py.bind].
  destruct (Py.for_each_break l _ _) as [st1|] eqn:E1; [|discriminate];
    cbn [Py.bind].
  assert (H1 : all_for_video vid (generated_questions st1)).
  { revert E1; apply for_each_break_preserves
      with (P := fun s => all_for_video vid (generated_questions s));
      [|constructor].
    intros chunk s b s' Hs H; injection H as _ <-.
    now apply generate_for_chunk_for_video. }
  destruct (_ && _).
  - destruct (Py.map_opt _ _) as [used|]; [|discriminate]; cbn [Py.bind].
    destruct (generate_more _ _ _ _ _ _ _ _) as [st2|] eqn:E2; [|discriminate].
    cbn [Py.bind]; intros H; injection H as <-.
    apply take_for_video; eapply generate_more_for_video; eauto.
  - cbn [Py.bind]; intros H; injection H as <-; now apply take_for_video.
Qed.

(** a listing of questions that all carry the id *)
Lemma questions_with_id_own (qs : list (Question float)) :
  all_for_video vid qs -> questions_with_id qs vid = Some qs.
Proof.
  induction 1 as [|q qs Hq _ IH]; simpl; [reflexivity|].
  now rewrite Hq, IH, String.eqb_refl.
Qed.

Lemma questions_with_id_foreign (qs : list (Question float)) (other : string) :
  other <> vid -> all_for_video vid qs -> questions_with_id qs other = Some [].
Proof.
  intros Ho; induction 1 as [|q qs Hq _ IH]; simpl; [reflexivity|].
  rewrite Hq, IH; cbn [Py.bind].
  apply not_eq_sym in Ho; apply String.eqb_neq in Ho; now rewrite Ho.
Qed.

End RouteFacts.

Section RouteProperties.

Context {float : Type}.
Variable str_float : float -> string.
Variable fadd : float -> float -> float.
Variable fmul : float -> float -> float.
Variable float_of_Z : Z -> float.
Variable float_le : float -> float -> bool.
Variable llm_questions :
  nat -> string -> Z -> string -> option (list (Question float)).
Variable llm_score : Question float -> string -> option Z.
Variable chunk_eqb : Chunk float -> Chunk float -> bool.
Variable int_of_str : string -> option Z.
Variable get_transcript : string -> option (list (TranscriptItem float)).

Implicit Types db : Store float.

Local Open Scope Z_scope.


Lemma validate_question_type_valid (question_type : string) :
  In (validate_question_type question_type)
     ["multiple_choice"; "fill_in_the_blank"; "short_answer"; "mixed"]%string.
Proof.
  unfold validate_question_type.
  destruct (existsb _ _) eqn:E; [|now left].
  apply existsb_exists in E as (x & Hx & E).
  apply String.eqb_eq in E; now subst x.
Qed.

Lemma dummy_question_fields (vid title question_type : string) (i counter : nat) :
  let start_time := fmul (float_of_Z 30) (float_of_Z (Z.of_nat i)) in
  let d := dummy_question str_float fadd fmul float_of_Z
      vid title question_type i counter in
  question_id d = Some (format_question_id str_float vid start_time counter)
  /\ video_id d = Some vid
  /\ timestamp_start d = Some start_time
  /\ timestamp_end d = Some (fadd start_time (float_of_Z 20)).
Proof.
  cbv zeta; unfold dummy_question.
  destruct (_ || _); [|destruct (_ || _)]; repeat split.
Qed.

Lemma dummy_question_type (vid title question_type : string) (i counter : nat) :
  In question_type
     ["multiple_choice"; "fill_in_the_blank"; "short_answer"; "mixed"]%string ->
  q_type (dummy_question str_float fadd fmul float_of_Z
      vid title question_type i counter) =
  Some (if String.eqb question_type "mixed"
        then nth (i mod 3)
               ["multiple_choice"; "fill_in_the_blank"; "short_answer"]%string
               EmptyString
        else question_type).
Proof.
  unfold dummy_question.
  intros [<-|[<-|[<-|[<-|[]]]]]; try reflexivity.
  cbn [String.eqb Ascii.eqb Bool.eqb orb andb].
  pose proof (Nat.mod_upper_bound i 3 ltac:(lia)) as Hm.
  destruct (i mod 3)%nat as [|[|[|m]]]; try reflexivity; lia.
Qed.

Lemma dummy_loop_nth (vid title question_type : string) (len start counter i : nat)
    (d : Question float) :
  nth_error (dummy_loop str_float fadd fmul float_of_Z
      vid title question_type (seq start len) counter) i = Some d ->
  d = dummy_question str_float fadd fmul float_of_Z
      vid title question_type (start + i) (counter + i).
Proof.
  revert start counter i; induction len as [|len IH]; intros start counter i;
    cbn [seq dummy_loop].
  - destruct i; discriminate.
  - destruct i as [|i]; cbn [nth_error].
    + intros H; injection H as <-; now rewrite !Nat.add_0_r.
    + intros H; apply IH in H; subst d; f_equal; lia.
Qed.

Lemma dummy_loop_length (vid title question_type : string) (rounds : list nat)
    (counter : nat) :
  length (dummy_loop str_float fadd fmul float_of_Z
      vid title question_type rounds counter) = length rounds.
Proof.
  revert counter; induction rounds as [|r rounds IH]; intros counter; simpl;
    [reflexivity | now rewrite IH].
Qed.

Lemma dummy_questions_nth (vid title question_type : string) (question_count : Z)
    (i : nat) (d : Question float) :
  nth_error (dummy_questions str_float fadd fmul float_of_Z
      vid title question_type question_count) i = Some d ->
  d = dummy_question str_float fadd fmul float_of_Z vid title question_type i i.
Proof. unfold dummy_questions; intros H; now apply dummy_loop_nth in H. Qed.

Lemma dummy_questions_length (vid title question_type : string) (question_count : Z) :
  0 <= question_count ->
  Py.len (dummy_questions str_float fadd fmul float_of_Z
      vid title question_type question_count) = question_count.
Proof.
  intros Hq; unfold dummy_questions, Py.len.
  rewrite dummy_loop_length, length_seq; lia.
Qed.

Lemma dummy_questions_for_video (vid title question_type : string)
    (question_count : Z) :
  all_for_video vid (dummy_questions str_float fadd fmul float_of_Z
      vid title question_type question_count).
Proof.
  apply Forall_forall; intros d Hd; apply In_nth_error in Hd as [i Hi].
  apply dummy_questions_nth in Hi; subst d.
  apply dummy_question_fields.
Qed.

Lemma dummy_questions_NoDup (vid title question_type : string) (question_count : Z) :
  NoDup (map (@question_id float)
           (dummy_questions str_float fadd fmul float_of_Z
               vid title question_type question_count)).
Proof.
  apply NoDup_nth_error; intros i j Hi Hij.
  rewrite length_map in Hi; rewrite !nth_error_map in Hij.
  destruct (nth_error _ i) as [qi|] eqn:Ei; [|apply nth_error_None in Ei; lia].
  destruct (nth_error _ j) as [qj|] eqn:Ej; [|discriminate Hij].
  apply dummy_questions_nth in Ei, Ej; subst qi qj.
  cbn [option_map] in Hij.
  destruct (dummy_question_fields vid title question_type i i) as (Hi' & _).
  destruct (dummy_question_fields vid title question_type j j) as (Hj' & _).
  rewrite Hi', Hj' in Hij; injection Hij as Hij.
  now apply format_question_id_inj in Hij.
Qed.

(** the [try] block of the YouTube branch fails exactly when no id can be
    read from the URL or the transcript cannot be fetched: always before the
    first question is numbered *)
Lemma transcript_questions_fails (vid question_type : string) (question_count : Z)
    (file_path : string) :
  1 <= question_count ->
  transcript_questions str_float fadd llm_questions get_transcript
      vid question_type question_count file_path = None <->
  match extract_youtube_id file_path with
  | None => True
  | Some None => True
  | Some (Some EmptyString) => True
  | Some (Some id) => get_transcript id = None
  end.
Proof.
  clear float_le llm_score fmul float_of_Z chunk_eqb int_of_str.
  intros Hq; unfold transcript_questions.
  destruct (extract_youtube_id file_path) as [[[|c id]|]|]; cbn [Py.bind];
    try tauto.
  destruct (get_transcript (String c id)) as [transcript_list|]; cbn [Py.bind];
    [|tauto].
  rewrite group_by_topic_five; cbn [Py.bind].
  destruct (@assemble_transcript_assembled _ str_float llm_questions vid
              question_type question_count
              (flat_map (fun k => make_group
                                    (window (transcript_segments str_float fadd
                                               transcript_list) k))
                 (seq 0 ((length (transcript_segments str_float fadd
                                    transcript_list) + 4) / 5))) Hq)
    as (items & -> & _).
  split; discriminate.
Qed.

Lemma transcript_questions_assembled (vid question_type : string)
    (question_count : Z) (file_path : string) (generated : list (Question float)) :
  1 <= question_count ->
  transcript_questions str_float fadd llm_questions get_transcript
      vid question_type question_count file_path = Some generated ->
  Py.len generated <= question_count
  /\ NoDup (map (@question_id float) generated)
  /\ all_for_video vid generated.
Proof.
  intros Hq; unfold transcript_questions.
  destruct (extract_youtube_id file_path) as [[[|c id]|]|]; cbn [Py.bind];
    try discriminate.
  destruct (get_transcript (String c id)) as [transcript_list|]; cbn [Py.bind];
    [|discriminate].
  destruct (group_by_topic _ 5) as [chunks|]; cbn [Py.bind]; [|discriminate].
  intros H.
  destruct (@assemble_transcript_assembled _ str_float llm_questions vid
              question_type question_count chunks Hq) as (items & E & Hl & Hn & _).
  rewrite H in E; injection E as <-.
  split; [exact Hl|]; split; [exact Hn|].
  eapply assemble_transcript_for_video; eassumption.
Qed.

Lemma assemble_stored_generated (vid question_type : string) (question_count : Z)
    (topic_chunks : list (Chunk float)) :
  1 <= question_count ->
  exists generated,
    assemble_stored str_float llm_questions chunk_eqb vid question_type
      question_count topic_chunks = Some generated
    /\ Py.len generated <= question_count
    /\ NoDup (map (@question_id float) generated)
    /\ all_for_video vid generated.
Proof.
  intros Hq.
  destruct (@assemble_stored_assembled _ str_float llm_questions chunk_eqb vid
              question_type question_count topic_chunks Hq)
    as (items & E & Hl & Hn & _).
  exists items; split; [exact E|]; split; [exact Hl|]; split; [exact Hn|].
  eapply assemble_stored_for_video; eassumption.
Qed.

(** what the route answers once the video is found and the count is read *)
Lemma generate_questions_found db (vid : string) (requested_type : option string)
    (requested_count : option JValue) (video : StoredVideo float) (count : Z) :
  get_video_by_id db vid = Some (Some video) ->
  clamp_question_count int_of_str requested_count = Some count ->
  let cleared := delete_questions_for_video db vid in
  (exists generated,
     generate_questions str_float fadd fmul float_of_Z llm_questions chunk_eqb
      int_of_str get_transcript db vid requested_type requested_count =
     Some (QuestionsGenerated generated, add_questions cleared generated)
     /\ Py.len generated <= count
     /\ NoDup (map (@question_id float) generated)
     /\ all_for_video vid generated
     /\ (is_youtube_url (sv_file_path video) = true
         \/ exists c cs, sv_topic_chunks video = Some (c :: cs)))
  \/ (generate_questions str_float fadd fmul float_of_Z llm_questions chunk_eqb
      int_of_str get_transcript db vid requested_type requested_count =
      Some (NoContentChunks, cleared)
      /\ is_youtube_url (sv_file_path video) = false
      /\ (sv_topic_chunks video = None \/ sv_topic_chunks video = Some [])).
Proof.
  intros Hv Hc; cbv zeta; unfold generate_questions.
  rewrite Hv, Hc; cbn [Py.bind].
  pose proof (clamp_question_count_range _ _ Hc) as Hcount.
  assert (Hq : 1 <= count) by lia.
  destruct (is_youtube_url (sv_file_path video)) eqn:Ey.
  - left.
    destruct (transcript_questions str_float fadd llm_questions get_transcript
        vid _ count _) as [generated|] eqn:Et.
    + exists generated; split; [reflexivity|].
      destruct (transcript_questions_assembled _ _ _ Hq Et) as (Hl & Hn & Ha).
      auto.
    + eexists; split; [reflexivity|].
      rewrite dummy_questions_length by lia.
      split; [lia|]; split; [apply dummy_questions_NoDup|].
      split; [apply dummy_questions_for_video | now left].
  - destruct (sv_topic_chunks video) as [[|c cs]|] eqn:Ec.
    + right; auto.
    + left.
      destruct (assemble_stored_generated vid
                  (validate_question_type
                     (get_default requested_type "multiple_choice"%string))
                  (c :: cs) Hq) as (generated & -> & Hl & Hn & Ha).
      cbn [Py.bind]; exists generated; split; [reflexivity|].
      repeat (split; [assumption|]); right; now exists c, cs.
    + right; auto.
Qed.


(** X18.  When [generate_questions] answers with a list, the questions
    stored for the video afterwards are exactly that list (the earlier ones
    are replaced, not added to), provided every stored question has a
    [video_id]; the listing of every other video is as before. *)
Theorem generate_questions_replaces db (vid : string)
    (requested_type : option string) (requested_count : option JValue)
    (generated : list (Question float)) (db' : Store float) :
  generate_questions str_float fadd fmul float_of_Z llm_questions chunk_eqb
      int_of_str get_transcript db vid requested_type requested_count =
  Some (QuestionsGenerated generated, db') ->
  (Forall (fun q => video_id q <> None) (db_questions db) ->
   get_questions_for_video db' vid = Some generated)
  /\ (forall other, other <> vid ->
        get_questions_for_video db' other = get_questions_for_video db other).
Proof.
  intros H.
  assert (Hdb : all_for_video vid generated
                /\ db' = add_questions (delete_questions_for_video db vid) generated).
  { destruct (get_video_by_id db vid) as [[video|]|] eqn:Hv;
      [| unfold generate_questions in H; rewrite Hv in H; discriminate H
       | unfold generate_questions in H; rewrite Hv in H; discriminate H].
    destruct (clamp_question_count int_of_str requested_count) as [count|] eqn:Hc;
      [| unfold generate_questions in H; rewrite Hv, Hc in H; discriminate H].
    destruct (generate_questions_found db vid requested_type _ Hv Hc)
      as [(generated' & E & _ & _ & Ha & _)|(E & _)];
      rewrite E in H; [|discriminate H].
    injection H as <- <-; auto. }
  destruct Hdb as [Ha ->].
  unfold get_questions_for_video, add_questions, delete_questions_for_video;
    cbn [db_questions]; split.
  - intros Hall.
    rewrite questions_with_id_app, questions_with_id_deleted, String.eqb_refl.
    rewrite (questions_with_id_filter _ Hall); cbn [option_map Py.bind].
    now rewrite (questions_with_id_own Ha).
  - intros other Ho.
    rewrite questions_with_id_app, questions_with_id_deleted.
    rewrite (questions_with_id_foreign Ho Ha).
    apply String.eqb_neq in Ho; rewrite Ho.
    destruct (questions_with_id (db_questions db) other); cbn [Py.bind];
      [now rewrite app_nil_r | reflexivity].
Qed.

(** X19.  For a YouTube video whose id cannot be read from the URL or whose
    transcript cannot be fetched, [generate_questions] stores and returns
    exactly [question_count] placeholder questions.  The [i]-th one covers
    the seconds [30 i] to [30 i + 20], has the id
    ["{video_id}_{30.0 * i}_{i}"] and the validated type, or for [mixed] the
    types multiple choice, fill in the blank and short answer in rotation. *)
Theorem youtube_failure_gives_placeholders db (vid : string)
    (requested_type : option string) (requested_count : option JValue)
    (video : StoredVideo float) (count : Z) :
  get_video_by_id db vid = Some (Some video) ->
  is_youtube_url (sv_file_path video) = true ->
  clamp_question_count int_of_str requested_count = Some count ->
  match extract_youtube_id (get_default (sv_file_path video) EmptyString) with
  | None => True
  | Some None => True
  | Some (Some EmptyString) => True
  | Some (Some id) => get_transcript id = None
  end ->
  let question_type :=
    validate_question_type (get_default requested_type "multiple_choice"%string) in
  exists placeholders,
    generate_questions str_float fadd fmul float_of_Z llm_questions chunk_eqb
      int_of_str get_transcript db vid requested_type requested_count =
    Some (QuestionsGenerated placeholders,
          add_questions (delete_questions_for_video db vid) placeholders)
    /\ Py.len placeholders = count
    /\ forall i d, nth_error placeholders i = Some d ->
         let start_time := fmul (float_of_Z 30) (float_of_Z (Z.of_nat i)) in
         question_id d = Some (format_question_id str_float vid start_time i)
         /\ video_id d = Some vid
         /\ timestamp_start d = Some start_time
         /\ timestamp_end d = Some (fadd start_time (float_of_Z 20))
         /\ q_type d =
            Some (if String.eqb question_type "mixed"
                  then nth (i mod 3)
                         ["multiple_choice"; "fill_in_the_blank"; "short_answer"]%string
                         EmptyString
                  else question_type).
Proof.
  intros Hv Hy Hc Hfail question_type.
  pose proof (clamp_question_count_range _ _ Hc) as Hcount.
  assert (Hq : 1 <= count) by lia.
  apply (transcript_questions_fails vid question_type
           (get_default (sv_file_path video) EmptyString) Hq) in Hfail.
  unfold generate_questions; rewrite Hv, Hc; cbn [Py.bind].
  rewrite Hy; fold question_type; rewrite Hfail.
  eexists; split; [reflexivity|]; split; [apply dummy_questions_length; lia|].
  intros i d Hd; apply dummy_questions_nth in Hd; subst d; cbv zeta.
  destruct (dummy_question_fields vid (get_default (sv_title video) EmptyString)
              question_type i i) as (H1 & H2 & H3 & H4).
  repeat (split; [assumption|]).
  apply dummy_question_type, validate_question_type_valid.
Qed.

Lemma group_by_topic_count (segs : list (Segment float)) :
  exists chunks,
    group_by_topic segs 5 = Some chunks
    /\ length chunks = ((length segs + 4) / 5)%nat.
Proof.
  eexists; split; [apply group_by_topic_five|].
  set (m := ((length segs + 4) / 5)%nat).
  assert (Hne : forall k, In k (seq 0 m) -> window segs k <> []).
  { intros k Hk Hnil; apply in_seq in Hk.
    apply (f_equal (@length _)) in Hnil; rewrite window_length in Hnil.
    unfold m in Hk; pose proof (Nat.div_mod_eq (length segs + 4) 5).
    pose proof (Nat.mod_upper_bound (length segs + 4) 5 ltac:(discriminate)).
    cbn [length] in Hnil; lia. }
  destruct (groups_of_windows segs (seq 0 m) Hne) as [Hsegs _].
  apply (f_equal (@length _)) in Hsegs.
  now rewrite !length_map, length_seq in Hsegs.
Qed.

(** the dict [add_video] stores when it answers 201 *)
Lemma add_video_created db (uuid now : string) (data : AddVideoRequest)
    (path_exists : string -> bool)
    (parse : string -> option (list (Segment float)))
    (video : StoredVideo float) (db' : Store float) :
  add_video db uuid now data path_exists parse = (VideoCreated video, db') ->
  db' = db_add_video db video
  /\ sv_video_id video = Some uuid
  /\ sv_title video = Some (get_default (req_title data) "Untitled Video"%string)
  /\ sv_file_path video = Some (get_default (req_file_path data) EmptyString)
  /\ sv_subtitle_path video = req_subtitle_path data
  /\ sv_duration video = req_duration data
  /\ sv_created_at video = Some now
  /\ sv_subtitle_segments video = None
  /\ sv_topic_chunks video = None
  /\ sv_questions_count video = Some 0
  /\ exists n : nat,
       sv_subtitle_segments_count video = Some (Z.of_nat n)
       /\ sv_topic_chunks_count video = Some (Z.of_nat ((n + 4) / 5))
       /\ (if truthy (req_subtitle_path data)
              && path_exists (get_default (req_subtitle_path data) EmptyString)
              && negb (is_youtube_url
                         (Some (get_default (req_file_path data) EmptyString)))
           then exists segs,
                  parse (get_default (req_subtitle_path data) EmptyString) = Some segs
                  /\ length segs = n
           else n = 0%nat).
Proof.
  unfold add_video; cbn [vo_subtitle_path vo_file_path].
  destruct (truthy (req_subtitle_path data)
            && path_exists (get_default (req_subtitle_path data) EmptyString)
            && negb (is_youtube_url
                       (Some (get_default (req_file_path data) EmptyString)))).
  - destruct (parse _) as [segs|]; [|discriminate].
    destruct (group_by_topic_count segs) as (chunks & -> & Hlen).
    intros H; injection H as <- <-.
    unfold video_to_dict; cbn.
    repeat (split; [reflexivity|]).
    exists (length segs); unfold Py.len; rewrite Hlen.
    split; [reflexivity|]; split; [reflexivity|].
    now exists segs.
  - intros H; injection H as <- <-.
    unfold video_to_dict; cbn.
    repeat (split; [reflexivity|]).
    exists 0%nat; repeat split.
Qed.

(** X20.  [add_video] answers 201 with the dict it appends to the stored
    videos, or 400 with the database untouched; the 400 is given exactly
    when a subtitle file is named, exists, the video is no YouTube video and
    parsing raises.  The stored dict carries the new id, the request's fields
    with their defaults, and only the numbers of segments and chunks, never
    the lists themselves; the number of chunks is the number of segments
    divided by five, rounded up. *)
Theorem add_video_stores db (uuid now : string) (data : AddVideoRequest)
    (path_exists : string -> bool)
    (parse : string -> option (list (Segment float))) :
  let subtitle_path := get_default (req_subtitle_path data) EmptyString in
  let parses :=
    truthy (req_subtitle_path data) && path_exists subtitle_path
    && negb (is_youtube_url (Some (get_default (req_file_path data) EmptyString))) in
  match add_video db uuid now data path_exists parse with
  | (VideoCreated video, db') =>
      db_videos db' = db_videos db ++ [video]
      /\ db_questions db' = db_questions db
      /\ sv_video_id video = Some uuid
      /\ sv_title video = Some (get_default (req_title data) "Untitled Video"%string)
      /\ sv_file_path video = Some (get_default (req_file_path data) EmptyString)
      /\ sv_subtitle_segments video = None
      /\ sv_topic_chunks video = None
      /\ sv_questions_count video = Some 0
      /\ exists n : nat,
           sv_subtitle_segments_count video = Some (Z.of_nat n)
           /\ sv_topic_chunks_count video = Some (Z.of_nat ((n + 4) / 5))
           /\ (if parses
               then exists segs, parse subtitle_path = Some segs /\ length segs = n
               else n = 0%nat)
  | (SubtitleError, db') =>
      db' = db /\ parses = true /\ parse subtitle_path = None
  end.
Proof.
  cbv zeta.
  destruct (add_video db uuid now data path_exists parse) as [[video|] db'] eqn:E.
  - destruct (add_video_created _ _ _ _ _ _ E)
      as (-> & H1 & H2 & H3 & _ & _ & _ & H4 & H5 & H6 & H7).
    repeat (split; [assumption || reflexivity|]); exact H7.
  - revert E; unfold add_video; cbn [vo_subtitle_path vo_file_path].
    destruct (truthy (req_subtitle_path data)
              && path_exists (get_default (req_subtitle_path data) EmptyString)
              && negb (is_youtube_url
                         (Some (get_default (req_file_path data) EmptyString))));
      [|discriminate].
    destruct (parse _) as [segs|].
    + destruct (group_by_topic_count segs) as (chunks & -> & _); discriminate.
    + intros H; injection H as <-; auto.
Qed.

(** X21.  A video that is no YouTube video and was stored by [add_video]
    under a fresh id can never get questions: its dict has no
    [topic_chunks], so [generate_questions] answers 400 "no content chunks",
    whatever subtitles were parsed when it was added, and has by then
    deleted the questions stored for the id. *)
Theorem uploaded_video_has_no_chunks db (uuid now : string) (data : AddVideoRequest)
    (path_exists : string -> bool)
    (parse : string -> option (list (Segment float)))
    (video : StoredVideo float) (db' : Store float)
    (requested_type : option string) (requested_count : option JValue) :
  add_video db uuid now data path_exists parse = (VideoCreated video, db') ->
  get_video_by_id db uuid = Some None ->
  is_youtube_url (Some (get_default (req_file_path data) EmptyString)) = false ->
  (forall negative, requested_count <> Some (JFloat (Infinity negative))) ->
  generate_questions str_float fadd fmul float_of_Z llm_questions chunk_eqb
      int_of_str get_transcript db' uuid requested_type requested_count =
  Some (NoContentChunks, delete_questions_for_video db' uuid).
Proof.
  intros Hadd Hfresh Hlocal Hfinite.
  destruct (add_video_created _ _ _ _ _ _ Hadd)
    as (-> & Hid & _ & Hpath & _ & _ & _ & _ & Hchunks & _).
  assert (Hv : get_video_by_id (db_add_video db video) uuid = Some (Some video)).
  { unfold get_video_by_id, db_add_video in *; cbn [db_videos].
    rewrite find_video_app, Hfresh; cbn [find_video].
    now rewrite Hid, String.eqb_refl. }
  destruct (clamp_question_count int_of_str requested_count) as [count|] eqn:Hc.
  2:{ apply clamp_question_count_raises in Hc as [negative Hc].
      now destruct (Hfinite negative). }
  destruct (generate_questions_found _ uuid requested_type _ Hv Hc)
    as [(generated & _ & _ & _ & _ & [Hy|(c & cs & Hcs)])|(E & _)].
  - rewrite Hpath in Hy; congruence.
  - congruence.
  - exact E.
Qed.





(** X23.  Two ids that [generate_unique_question_id] builds for one video
    with different sequence numbers are different strings, whatever the
    timestamps are and however they print. *)
Theorem generate_unique_question_id_distinct (vid : string) (t1 t2 : float)
    (n1 n2 : nat) :
  n1 <> n2 ->
  generate_unique_question_id str_float vid t1 n1 <>
  generate_unique_question_id str_float vid t2 n2.
Proof.
  intros Hne H; apply Hne.
  exact (format_question_id_inj str_float vid t1 t2 n1 n2 H).
Qed.

End RouteProperties.

(** ** Deleting a video *)

Section DeleteRouteProperties.

Context {float : Type}.
Implicit Types db : Store float.

Lemma delete_video_found db (vid : string) (video : StoredVideo float) :
  In video (db_videos db) -> sv_video_id video = Some vid ->
  delete_video db vid =
  Some {| db_videos := filter (fun v => other_id (sv_video_id v) vid) (db_videos db);
          db_questions := db_questions db |}.
Proof.
  intros Hin Hid; unfold delete_video, Py.len.
  destruct (Z.eqb_spec (Z.of_nat (length (db_videos db)))
              (Z.of_nat (length (filter (fun v => other_id (sv_video_id v) vid)
                                   (db_videos db))))) as [E|E]; [|reflexivity].
  apply Nat2Z.inj in E; symmetry in E.
  pose proof (proj1 (filter_length_all _ _) E video Hin) as H.
  apply other_id_true in H; congruence.
Qed.

(** X24.  The route that deletes a video answers 404 when no stored video
    has the id and 500 when the lookup raises, and changes nothing in either
    case.  When the lookup finds a video it always answers 200: it removes
    every video and every question that carries the id, keeps all the others
    in their order, and the later [delete_video] of the database never
    raises. *)
Theorem delete_video_route_removes db (vid : string) :
  let (response, db') := delete_video_route db vid in
  match get_video_by_id db vid with
  | None => response = DeleteFailed /\ db' = db
  | Some None => response = DeleteVideoNotFound /\ db' = db
  | Some (Some _) =>
      response = VideoDeleted
      /\ db_videos db' =
         filter (fun v => other_id (sv_video_id v) vid) (db_videos db)
      /\ db_questions db' =
         filter (fun q => other_id (video_id q) vid) (db_questions db)
      /\ (forall v, In v (db_videos db') <->
                    In v (db_videos db) /\ sv_video_id v <> Some vid)
      /\ (forall q, In q (db_questions db') <->
                    In q (db_questions db) /\ video_id q <> Some vid)
  end.
Proof.
  unfold delete_video_route.
  destruct (get_video_by_id db vid) as [[video|]|] eqn:Hv; [|now split|now split].
  unfold get_video_by_id in Hv.
  apply find_video_found in Hv as (pre & post & id & Hvideos & Hid & Hm & _).
  apply String.eqb_eq in Hm; subst id.
  rewrite (@delete_video_found (delete_questions_for_video db vid) vid video).
  - cbn [db_videos db_questions delete_questions_for_video].
    split; [reflexivity|]; split; [reflexivity|]; split; [reflexivity|].
    split; intros x; rewrite filter_In, other_id_true; tauto.
  - cbn [db_videos delete_questions_for_video].
    rewrite Hvideos; apply in_or_app; right; now left.
  - exact Hid.
Qed.

End DeleteRouteProperties.

(** ** Instances *)

Local Open Scope string_scope.

Lemma group_by_topic_any_window_witness :
  exists chunks,
    group_by_topic example_segments 7 = Some chunks
    /\ Py.len chunks = 2%Z.
Proof.
  destruct (group_by_topic_any_window example_segments 7) as (_ & _ & H).
  destruct (H ltac:(lia)) as (chunks & Hg & _ & _ & Hl & _).
  exists chunks; split; [exact Hg | exact Hl].
Defined.

Lemma untyped_question_is_multiple_choice_witness :
  is_partial (fst (generate_feedback no_score untyped_question "B")) = None
  /\ score_percentage (fst (generate_feedback no_score untyped_question "B")) = None.
Proof.
  destruct (@untyped_question_is_multiple_choice Z no_score untyped_question "B")
    as (_ & H1 & H2 & _); [discriminate | discriminate |].
  split; [exact H1 | exact H2].
Defined.

Lemma short_answer_requests_witness :
  snd (generate_feedback no_score (short_question seven_points) "grb") = [].
Proof.
  destruct (@short_answer_requests Z no_score (short_question seven_points) "grb"
              eq_refl) as (_ & H & _).
  apply H; vm_compute; reflexivity.
Defined.

Lemma fallback_partial_iff_half_witness :
  is_partial (fst (generate_feedback no_score (short_question seven_points)
                     "alpha decay is slow")) = Some true
  <-> (0 < matched_points seven_points "alpha decay is slow"
       /\ Py.len seven_points <= 2 * matched_points seven_points "alpha decay is slow")%Z.
Proof.
  exact (@fallback_partial_iff_half Z no_score (short_question seven_points)
           "alpha decay is slow" eq_refl eq_refl eq_refl).
Defined.

Lemma extract_youtube_id_watch_witness :
  extract_youtube_id "https://www.youtube.com/watch?v=dQw4w9WgXcQ&t=42"
  = Some (Some "dQw4w9WgXcQ"%string).
Proof.
  apply (@extract_youtube_id_watch "dQw4w9WgXcQ" "&t=42").
  - cbn; intuition discriminate.
  - cbn; intuition discriminate.
  - right; now eexists.
Defined.

Lemma extract_youtube_id_short_witness :
  extract_youtube_id "https://youtu.be/dQw4w9WgXcQ?t=42"
  = Some (Some "dQw4w9WgXcQ"%string).
Proof.
  apply (@extract_youtube_id_short "dQw4w9WgXcQ" "?t=42").
  - cbn; intuition discriminate.
  - cbn; intuition discriminate.
  - right; now eexists.
  - reflexivity.
Defined.

Lemma add_video_then_get_witness :
  get_video_by_id (db_add_video example_store other_video) "v2"
  = Some (Some other_video).
Proof.
  destruct (@add_video_then_get Z example_store other_video "v2" eq_refl)
    as (_ & H & _).
  exact (H eq_refl).
Defined.


Lemma generate_questions_replaces_witness :
  let placeholders :=
    dummy_questions example_str_float Z.add Z.mul (fun z => z) "v1" "Cells"
      "multiple_choice" 10 in
  get_questions_for_video
    (add_questions (delete_questions_for_video example_store "v1") placeholders)
    "v1"
  = Some placeholders.
Proof.
  intros placeholders.
  destruct (@generate_questions_replaces Z example_str_float Z.add Z.mul
              (fun z => z) no_questions same_start no_int no_transcript
              example_store "v1" None None placeholders
              (add_questions (delete_questions_for_video example_store "v1")
                 placeholders)) as [H _].
  - vm_compute; reflexivity.
  - apply H; repeat constructor; discriminate.
Defined.

Lemma youtube_failure_gives_placeholders_witness :
  exists placeholders,
    generate_questions example_str_float Z.add Z.mul (fun z => z) no_questions
      same_start no_int no_transcript example_store "v1" (Some "mixed"%string)
      (Some (JInt 12))
    = Some (QuestionsGenerated placeholders,
            add_questions (delete_questions_for_video example_store "v1")
              placeholders)
    /\ Py.len placeholders = 12%Z.
Proof.
  destruct (@youtube_failure_gives_placeholders Z example_str_float Z.add Z.mul
              (fun z => z) no_questions same_start no_int no_transcript
              example_store "v1" (Some "mixed"%string) (Some (JInt 12))
              example_video 12%Z eq_refl eq_refl eq_refl eq_refl)
    as (placeholders & H1 & H2 & _).
  exists placeholders; split; [exact H1 | exact H2].
Defined.

Lemma uploaded_video_has_no_chunks_witness :
  let stored :=
    snd (add_video example_store "v9" "2024-01-03T00:00:00" example_request
           (fun _ => true) (fun _ => Some example_segments)) in
  generate_questions example_str_float Z.add Z.mul (fun z => z) no_questions
    same_start no_int no_transcript stored "v9" None None
  = Some (NoContentChunks, delete_questions_for_video stored "v9").
Proof.
  cbv zeta.
  destruct (add_video example_store "v9" "2024-01-03T00:00:00" example_request
              (fun _ => true) (fun _ => Some example_segments))
    as [[video|] db'] eqn:E; [|vm_compute in E; discriminate E].
  cbn [snd].
  apply (@uploaded_video_has_no_chunks Z example_str_float Z.add Z.mul
           (fun z => z) no_questions same_start no_int no_transcript
           example_store "v9" "2024-01-03T00:00:00" example_request
           (fun _ => true) (fun _ => Some example_segments) video db' None None E).
  - reflexivity.
  - reflexivity.
  - discriminate.
Defined.


Lemma generate_unique_question_id_distinct_witness :
  generate_unique_question_id example_str_float "v1" 30%Z 3 <>
  generate_unique_question_id example_str_float "v1" 30%Z 4.
Proof.
  apply (@generate_unique_question_id_distinct Z example_str_float "v1" 30%Z 30%Z
           3 4).
  discriminate.
Defined.
